(** * BoltBuild: worker runtime and coordinator correlation layer

    A shallow embedding of [server.go], [client.go] and [types.go] of
    BoltBuild, together with the parts of the Go standard library the
    two files call ([encoding/base64], [path/filepath], [strings],
    [unicode/utf8]), followed by the properties established about them.

    Conventions.
    - A Go [string] is a [string] (a sequence of bytes, one [ascii] per
      byte); a [[]byte] is a [list byte].
    - Go [int]/[uint] values that the code only shifts and masks are [Z].
    - Go maps are [gmap]s; where the code ranges over a map the
      iteration order is an explicit argument.
    - [path/filepath] is embedded as on the Unix builds of Go
      ([Separator = '/'], backslash escapes in patterns). *)

From stdpp Require Import gmap strings list fin_maps pretty.
From Stdlib Require Import ZArith Lia Strings.String Strings.Ascii Strings.Byte.
From coqutil Require Import Z.bitblast.

Local Open Scope string_scope.
Local Open Scope list_scope.
Local Open Scope Z_scope.

(* ===================================================================== *)
(** * Part I. Definitions                                                 *)
(* ===================================================================== *)

(** ** Bytes *)

(** [uint(b)] for a byte [b]. *)
Definition u8 (b : byte) : Z := Z.of_N (Byte.to_N b).

(** [byte(z)]: conversion of an unsigned integer to a byte keeps the low
    eight bits. *)
Definition byte_of_Z (z : Z) : byte :=
  match Byte.of_N (Z.to_N (Z.land z 255)) with
  | Some b => b
  | None => x00
  end.

(** The numeric value of one byte of a string. *)
Definition code (c : ascii) : Z := Z.of_N (N_of_ascii c).

(** ** encoding/base64 (StdEncoding) *)

Module Base64.

Definition encodeStd : string :=
  "ABCDEFGHIJKLMNOPQRSTUVWXYZabcdefghijklmnopqrstuvwxyz0123456789+/".

(** [StdPadding] *)
Definition padChar : ascii := "="%char.

(** [enc.encode[i]] *)
Definition encode (i : Z) : ascii :=
  match String.get (Z.to_nat i) encodeStd with
  | Some c => c
  | None => zero
  end.

Fixpoint index_from (c : ascii) (s : string) (i : Z) : option Z :=
  match s with
  | EmptyString => None
  | String d s' => if Ascii.eqb c d then Some i else index_from c s' (i + 1)
  end.

(** [enc.decodeMap[c]]: the table is filled with [0xFF] and then
    [decodeMap[encoder[i]] = i] for every index of the alphabet. *)
Definition decodeMap (c : ascii) : Z :=
  match index_from c encodeStd 0 with
  | Some i => i
  | None => 0xFF
  end.

(** [uint(s0)<<16 | uint(s1)<<8 | uint(s2)] *)
Definition pack3 (a b c : Z) : Z := Z.lor (Z.lor (Z.shiftl a 16) (Z.shiftl b 8)) c.

(** [enc.encode[val>>k&0x3F]] *)
Definition sextet (val k : Z) : ascii := encode (Z.land (Z.shiftr val k) 0x3F).

(** [Encoding.Encode]: three source bytes become four characters; a
    remainder of one or two bytes is padded with [padChar]. *)
Fixpoint Encode (src : list byte) : list ascii :=
  match src with
  | [] => []
  | [s0] =>
      let val := Z.shiftl (u8 s0) 16 in
      [sextet val 18; sextet val 12; padChar; padChar]
  | [s0; s1] =>
      let val := Z.lor (Z.shiftl (u8 s0) 16) (Z.shiftl (u8 s1) 8) in
      [sextet val 18; sextet val 12; sextet val 6; padChar]
  | s0 :: s1 :: s2 :: rest =>
      let val := pack3 (u8 s0) (u8 s1) (u8 s2) in
      sextet val 18 :: sextet val 12 :: sextet val 6 :: sextet val 0 :: Encode rest
  end.

Definition EncodeToString (src : list byte) : string :=
  string_of_list_ascii (Encode src).

(** [CorruptInputError]; the byte offset the Go error carries is not
    recorded. *)
Inductive error := CorruptInputError.

Definition isNewline (c : ascii) : bool :=
  Ascii.eqb c "010"%char || Ascii.eqb c "013"%char.

(** [for si < len(src) && (src[si] == '\n' || src[si] == '\r') { si++ }] *)
Fixpoint skipNewlines (src : list ascii) : list ascii :=
  match src with
  | c :: rest => if isNewline c then skipNewlines rest else src
  | [] => []
  end.

(** Outcome of the character loop of [decodeQuantum]. *)
Inductive scan :=
| ScanEnd                     (* input exhausted with j = 0 *)
| ScanCorrupt                 (* return si, 0, CorruptInputError *)
| ScanOk (rest : list ascii) (dbuf : list Z) (dlen : nat) (trailing : bool).

(** The [for j := 0; j < len(dbuf); j++] loop of [decodeQuantum]; [j]
    is the number of sextets already stored in [dbuf]. A newline
    re-runs the iteration with the same [j]. *)
Fixpoint scanQuantum (src : list ascii) (j : nat) (dbuf : list Z) : scan :=
  if (4 <=? j)%nat then ScanOk src dbuf 4 false else
  match src with
  | [] =>
      match j with
      | O => ScanEnd
      | _ => ScanCorrupt      (* j == 1, or the encoding pads *)
      end
  | c :: src' =>
      let out := decodeMap c in
      if negb (out =? 0xFF) then scanQuantum src' (S j) (dbuf ++ [out])
      else if isNewline c then scanQuantum src' j dbuf
      else if negb (Ascii.eqb c padChar) then ScanCorrupt
      else
        match j with
        | 0%nat | 1%nat => ScanCorrupt
        | 2%nat =>
            match skipNewlines src' with
            | [] => ScanCorrupt
            | c2 :: src2 =>
                if negb (Ascii.eqb c2 padChar) then ScanCorrupt
                else
                  let rest := skipNewlines src2 in
                  ScanOk rest dbuf j (if rest is [] then false else true)
            end
        | _ =>
            let rest := skipNewlines src' in
            ScanOk rest dbuf j (if rest is [] then false else true)
        end
  end.

(** [decodeQuantum]: remaining input, decoded bytes, error. *)
Definition decodeQuantum (src : list ascii)
  : list ascii * list byte * option error :=
  match scanQuantum src 0 [] with
  | ScanEnd => ([], [], None)
  | ScanCorrupt => ([], [], Some CorruptInputError)
  | ScanOk rest dbuf dlen trailing =>
      let d i := nth i dbuf 0 in
      let val := Z.lor (Z.lor (Z.lor (Z.shiftl (d 0%nat) 18) (Z.shiftl (d 1%nat) 12))
                          (Z.shiftl (d 2%nat) 6)) (d 3%nat) in
      let bytes := [byte_of_Z (Z.shiftr val 16); byte_of_Z (Z.shiftr val 8);
                    byte_of_Z (Z.shiftr val 0)] in
      (rest, firstn (dlen - 1) bytes,
       if trailing then Some CorruptInputError else None)
  end.

(** [Encoding.Decode], as its generic loop
    [for si < len(src) { decodeQuantum ... }]; the 8- and 4-character
    fast paths of the Go function decode the same quanta. *)
Fixpoint decodeLoop (fuel : nat) (src : list ascii) : list byte * option error :=
  match fuel with
  | O => ([], None)
  | S fuel' =>
      match src with
      | [] => ([], None)
      | _ =>
          let '(rest, out, err) := decodeQuantum src in
          match err with
          | Some e => (out, Some e)
          | None =>
              let '(out', err') := decodeLoop fuel' rest in
              (out ++ out', err')
          end
      end
  end.

Definition DecodeString (s : string) : list byte * option error :=
  decodeLoop (S (String.length s)) (list_ascii_of_string s).

End Base64.

(** ** Strings as byte sequences *)

(** [s[n:]] *)
Fixpoint skip (n : nat) (s : string) : string :=
  match n, s with
  | O, _ => s
  | S n', String _ s' => skip n' s'
  | S _, EmptyString => EmptyString
  end.

(** [s + string(c)] *)
Definition snoc (s : string) (c : ascii) : string := (s ++ String c "")%string.

(** [s[i]] as a number, 0 past the end. *)
Definition byteAt (s : string) (i : nat) : Z :=
  match String.get i s with
  | Some c => code c
  | None => 0
  end.

(** ** unicode/utf8 *)

Module Utf8.

Definition RuneError : Z := 0xFFFD.
Definition RuneSelf : Z := 0x80.

(** The [first] table: information about the first byte of an encoding.
    [0xF0] marks ASCII, [0xF1] an invalid first byte; otherwise the low
    three bits give the size and the high four the index of the range
    accepted for the second byte. *)
Definition first (b : Z) : Z :=
  if b <? 0x80 then 0xF0
  else if b <? 0xC2 then 0xF1
  else if b <? 0xE0 then 0x02
  else if b =? 0xE0 then 0x13
  else if b <? 0xED then 0x03
  else if b =? 0xED then 0x23
  else if b <? 0xF0 then 0x03
  else if b =? 0xF0 then 0x34
  else if b <? 0xF4 then 0x04
  else if b =? 0xF4 then 0x44
  else 0xF1.

Definition locb : Z := 0x80.
Definition hicb : Z := 0xBF.

(** [acceptRanges[i]] as a pair [(lo, hi)]. *)
Definition acceptRanges (i : Z) : Z * Z :=
  if i =? 0 then (locb, hicb)
  else if i =? 1 then (0xA0, hicb)
  else if i =? 2 then (locb, 0x9F)
  else if i =? 3 then (0x90, hicb)
  else if i =? 4 then (locb, 0x8F)
  else (0, 0).

Definition maskx : Z := 0x3F.
Definition mask2 : Z := 0x1F.
Definition mask3 : Z := 0x0F.
Definition mask4 : Z := 0x07.

(** [utf8.DecodeRuneInString]: the first rune of [s] and its width in
    bytes; an invalid encoding yields [(RuneError, 1)]. *)
Definition DecodeRuneInString (s : string) : Z * nat :=
  let n := String.length s in
  if (n <? 1)%nat then (RuneError, 0%nat) else
  let s0 := byteAt s 0 in
  let x := first s0 in
  if 0xF0 <=? x then ((if x =? 0xF0 then s0 else RuneError), 1%nat) else
  let sz := Z.to_nat (Z.land x 7) in
  let '(lo, hi) := acceptRanges (Z.shiftr x 4) in
  if (n <? sz)%nat then (RuneError, 1%nat) else
  let s1 := byteAt s 1 in
  if (s1 <? lo) || (hi <? s1) then (RuneError, 1%nat) else
  if (sz <=? 2)%nat then
    (Z.lor (Z.shiftl (Z.land s0 mask2) 6) (Z.land s1 maskx), 2%nat) else
  let s2 := byteAt s 2 in
  if (s2 <? locb) || (hicb <? s2) then (RuneError, 1%nat) else
  if (sz <=? 3)%nat then
    (Z.lor (Z.lor (Z.shiftl (Z.land s0 mask3) 12) (Z.shiftl (Z.land s1 maskx) 6))
       (Z.land s2 maskx), 3%nat) else
  let s3 := byteAt s 3 in
  if (s3 <? locb) || (hicb <? s3) then (RuneError, 1%nat) else
  (Z.lor (Z.lor (Z.lor (Z.shiftl (Z.land s0 mask4) 18) (Z.shiftl (Z.land s1 maskx) 12))
            (Z.shiftl (Z.land s2 maskx) 6)) (Z.land s3 maskx), 4%nat).

End Utf8.

(** ** unicode *)

Module Unicode.

(** [unicode.IsSpace]: in Latin-1 the white space is
    [\t \n \v \f \r], space, U+0085 and U+00A0; beyond it, the
    [White_Space] property. *)
Definition IsSpace (r : Z) : bool :=
  if r <=? 0xFF then
    (r =? 0x09) || (r =? 0x0A) || (r =? 0x0B) || (r =? 0x0C) || (r =? 0x0D)
    || (r =? 0x20) || (r =? 0x85) || (r =? 0xA0)
  else
    (r =? 0x1680) || ((0x2000 <=? r) && (r <=? 0x200A)) || (r =? 0x2028)
    || (r =? 0x2029) || (r =? 0x202F) || (r =? 0x205F) || (r =? 0x3000).

End Unicode.

(** ** strings *)

Module Strings.

Definition HasPrefix (s prefix : string) : bool := String.prefix prefix s.

(** [asciiSpace[c] != 0] *)
Definition asciiSpace (c : ascii) : bool :=
  let b := code c in
  (b =? 0x09) || (b =? 0x0A) || (b =? 0x0B) || (b =? 0x0C) || (b =? 0x0D) || (b =? 0x20).

(** Some byte of [s] is at least [utf8.RuneSelf]. *)
Fixpoint hasNonASCII (s : string) : bool :=
  match s with
  | EmptyString => false
  | String c s' => (Utf8.RuneSelf <=? code c) || hasNonASCII s'
  end.

Definition flush (field : option string) : list string :=
  match field with
  | Some f => [f]
  | None => []
  end.

Definition extend (field : option string) (c : ascii) : option string :=
  match field with
  | Some f => Some (snoc f c)
  | None => Some (String c "")
  end.

(** The ASCII path of [Fields]: maximal runs of bytes that are not
    [asciiSpace]; [field] is the run being read, if any. *)
Fixpoint fieldsASCII (s : string) (field : option string) : list string :=
  match s with
  | EmptyString => flush field
  | String c s' =>
      if asciiSpace c then flush field ++ fieldsASCII s' None
      else fieldsASCII s' (extend field c)
  end.

(** [FieldsFunc(s, f)]: the [range] loop decodes one rune at a time;
    [pending] counts the bytes of the current rune still to be passed
    over and [sep] is [f] of that rune. *)
Fixpoint fieldsFuncLoop (f : Z -> bool) (s : string) (pending : nat) (sep : bool)
    (field : option string) : list string :=
  match s with
  | EmptyString => flush field
  | String c s' =>
      let '(pending', sep') :=
        match pending with
        | S p => (p, sep)
        | O => let '(r, size) := Utf8.DecodeRuneInString s in ((size - 1)%nat, f r)
        end in
      if sep' then flush field ++ fieldsFuncLoop f s' pending' sep' None
      else fieldsFuncLoop f s' pending' sep' (extend field c)
  end.

Definition FieldsFunc (s : string) (f : Z -> bool) : list string :=
  fieldsFuncLoop f s 0 false None.

(** [strings.Fields] *)
Definition Fields (s : string) : list string :=
  if hasNonASCII s then FieldsFunc s Unicode.IsSpace
  else fieldsASCII s None.

Definition isUpperASCII (c : ascii) : bool := (code "A" <=? code c) && (code c <=? code "Z").

Fixpoint hasUpper (s : string) : bool :=
  match s with
  | EmptyString => false
  | String c s' => isUpperASCII c || hasUpper s'
  end.

(** [c += 'a' - 'A'] for the upper-case letters. *)
Fixpoint lowerASCII (s : string) : string :=
  match s with
  | EmptyString => EmptyString
  | String c s' =>
      String (if isUpperASCII c then ascii_of_N (Z.to_N (code c + (code "a" - code "A"))) else c)
        (lowerASCII s')
  end.

(** [strings.ToLower]. For a string that is not pure ASCII the Go
    function returns [Map(unicode.ToLower, s)], which depends on the
    Unicode case tables; that mapping is the argument [mapLower]. *)
Definition ToLower (mapLower : string -> string) (s : string) : string :=
  if hasNonASCII s then mapLower s
  else if hasUpper s then lowerASCII s
  else s.

(** [strings.Contains(s, string(c))] *)
Fixpoint containsByte (s : string) (c : ascii) : bool :=
  match s with
  | EmptyString => false
  | String d s' => Ascii.eqb c d || containsByte s' c
  end.

(** [strings.Count(s, string(c))] *)
Fixpoint countByte (s : string) (c : ascii) : nat :=
  match s with
  | EmptyString => O
  | String d s' => ((if Ascii.eqb c d then 1 else 0) + countByte s' c)%nat
  end.

(** [m := IndexByte(s, c)] with the two slices [s[:m]] and [s[m+1:]]
    that [genSplit] takes; [None] when [c] does not occur. *)
Fixpoint cutByte (s : string) (c : ascii) : option (string * string) :=
  match s with
  | EmptyString => None
  | String d s' =>
      if Ascii.eqb c d then Some (EmptyString, s')
      else (fun p => (String d p.1, p.2)) <$> cutByte s' c
  end.

(** The loop [for i < n] of [genSplit], with [n - i] iterations left. *)
Fixpoint splitLoop (n : nat) (s : string) (c : ascii) : list string :=
  match n with
  | O => [s]
  | S n' =>
      match cutByte s c with
      | None => [s]
      | Some (a, rest) => a :: splitLoop n' rest c
      end
  end.

(** [strings.Split(s, string(c))]: [n = Count(s, sep) + 1], capped at
    [len(s) + 1], then [n--] before the loop. *)
Definition SplitByte (s : string) (c : ascii) : list string :=
  let n := Nat.min (countByte s c + 1) (String.length s + 1) in
  splitLoop (n - 1) s c.

(** [strings.Join(elems, sep)] *)
Definition Join (elems : list string) (sep : string) : string := String.concat sep elems.

End Strings.

(** ** path/filepath (Unix) *)

Module Filepath.

Definition Separator : ascii := "/"%char.

(** [os.IsPathSeparator] *)
Definition isSep (c : ascii) : bool := Ascii.eqb c Separator.

(** [path[0] is a separator], false for the empty path. *)
Definition startsWithSep (path : string) : bool :=
  match path with
  | String c _ => isSep c
  | EmptyString => false
  end.

Definition IsAbs (path : string) : bool := Strings.HasPrefix path "/".

(** [ToSlash] and [FromSlash] return their argument when
    [Separator == '/']. *)
Definition ToSlash (path : string) : string := path.
Definition FromSlash (path : string) : string := path.

(** [IsPathSeparator(s[i])] *)
Definition sepAt (s : string) (i : nat) : bool :=
  match String.get i s with
  | Some c => isSep c
  | None => false
  end.

(** [s[:w]] *)
Definition truncate (w : nat) (s : string) : string := String.substring 0 w s.

(** The inner loop of the [..] case of [Clean]:
    [for out.w > dotdot && !IsPathSeparator(out.index(out.w)) { out.w-- }] *)
Fixpoint backtrack (out : string) (w dotdot : nat) : nat :=
  match w with
  | O => O
  | S w' =>
      if (dotdot <? w)%nat && negb (sepAt out w)
      then backtrack out w' dotdot
      else w
  end.

(** At the start of a path element: is it the element [.]? *)
Definition isDot (c : ascii) (rest : string) : bool :=
  Ascii.eqb c "."%char && (String.eqb rest "" || startsWithSep rest).

(** The main loop of [Clean]. [out] is the buffer written so far,
    [dotdot] the index where [..] must stop; [inElem] holds while the
    bytes of a real path element are being copied. *)
Fixpoint cleanLoop (path : string) (inElem rooted : bool) (out : string) (dotdot : nat)
    : string :=
  match path with
  | EmptyString => out
  | String c rest =>
      if inElem then
        if isSep c then cleanLoop rest false rooted out dotdot
        else cleanLoop rest true rooted (snoc out c) dotdot
      else if isSep c then
        (* empty path element *)
        cleanLoop rest false rooted out dotdot
      else if isDot c rest then
        (* . element *)
        cleanLoop rest false rooted out dotdot
      else
        let w := String.length out in
        let real :=
          (* real path element: add slash if needed, then copy *)
          let out1 :=
            if (rooted && negb (w =? 1)%nat) || (negb rooted && negb (w =? 0)%nat)
            then snoc out Separator else out in
          cleanLoop rest true rooted (snoc out1 c) dotdot in
        match rest with
        | String c2 rest2 =>
            if Ascii.eqb c "."%char && isDot c2 rest2 then
              (* .. element: remove to last separator *)
              if (dotdot <? w)%nat then
                cleanLoop rest2 false rooted
                  (truncate (backtrack out (w - 1) dotdot) out) dotdot
              else if negb rooted then
                let out1 := if (0 <? w)%nat then snoc out Separator else out in
                let out2 := snoc (snoc out1 ".") "." in
                cleanLoop rest2 false rooted out2 (String.length out2)
              else cleanLoop rest2 false rooted out dotdot
            else real
        | EmptyString => real
        end
  end.

(** [filepath.Clean] *)
Definition Clean (path : string) : string :=
  if String.eqb path "" then "." else
  let rooted := startsWithSep path in
  let out :=
    if rooted then cleanLoop (skip 1 path) false true "/" 1
    else cleanLoop path false false "" 0 in
  if String.eqb out "" then "." else out.

(** [strings.Join(elem, "/")] *)
Fixpoint joinSep (elem : list string) : string :=
  match elem with
  | [] => ""
  | [e] => e
  | e :: rest => (e ++ "/" ++ joinSep rest)%string
  end.

(** [filepath.Join]: leading empty elements are dropped, the rest is
    joined with the separator and cleaned. *)
Fixpoint JoinList (elem : list string) : string :=
  match elem with
  | [] => ""
  | e :: rest => if String.eqb e "" then JoinList rest else Clean (joinSep elem)
  end.

Definition Join (a b : string) : string := JoinList [a; b].

(** [path] without its trailing separators. *)
Fixpoint trimTrailingSeps (path : string) : string :=
  match path with
  | EmptyString => EmptyString
  | String c rest =>
      match trimTrailingSeps rest with
      | EmptyString => if isSep c then EmptyString else String c EmptyString
      | r => String c r
      end
  end.

(** The part of [path] after its last separator ([path] when it has
    none): [path[i+1:]] for the scan [for i >= 0 && !sep(path[i]) { i-- }]. *)
Fixpoint afterLastSep (path : string) : string :=
  match path with
  | EmptyString => EmptyString
  | String c rest =>
      if Strings.containsByte rest Separator then afterLastSep rest
      else if isSep c then rest else path
  end.

(** The part of [path] up to and including its last separator:
    [path[:i+1]] for the same scan. *)
Fixpoint throughLastSep (path : string) : string :=
  match path with
  | EmptyString => EmptyString
  | String c rest =>
      if Strings.containsByte rest Separator then String c (throughLastSep rest)
      else if isSep c then String c EmptyString else EmptyString
  end.

(** [filepath.Base] *)
Definition Base (path : string) : string :=
  if String.eqb path "" then "." else
  let path := afterLastSep (trimTrailingSeps path) in
  if String.eqb path "" then "/" else path.

(** [filepath.Dir] *)
Definition Dir (path : string) : string := Clean (throughLastSep path).

(** The scan of [Ext] over the last path element: the suffix that
    starts at its last dot. *)
Fixpoint fromLastDot (elem : string) : string :=
  match elem with
  | EmptyString => EmptyString
  | String c rest =>
      if Strings.containsByte rest "." then fromLastDot rest
      else if Ascii.eqb c "."%char then elem else EmptyString
  end.

(** [filepath.Ext] *)
Definition Ext (path : string) : string := fromLastDot (afterLastSep path).

(** The first element of [s] (up to the first separator) and what
    follows that separator. *)
Fixpoint splitElem (s : string) : string * string :=
  match s with
  | EmptyString => (EmptyString, EmptyString)
  | String c rest =>
      if isSep c then (EmptyString, rest)
      else let '(e, r) := splitElem rest in (String c e, r)
  end.

(** The loop of [Rel] that positions both paths at their first
    differing elements. [base] and [targ] are [base[b0:]] and
    [targ[t0:]]; the result is [(base[b0:bi], base[b0:], targ[t0:])]. *)
Fixpoint relLoop (fuel : nat) (base targ : string) : string * string * string :=
  match fuel with
  | O => (EmptyString, base, targ)
  | S fuel' =>
      if String.eqb base "" || String.eqb targ "" then (EmptyString, base, targ)
      else
        let '(be, brest) := splitElem base in
        let '(te, trest) := splitElem targ in
        if negb (String.eqb te be) then (be, base, targ)
        else relLoop fuel' brest trest
  end.

(** [strings.Repeat("/..", n)] *)
Fixpoint upDirs (n : nat) : string :=
  match n with
  | O => ""
  | S n' => ("/.." ++ upDirs n')%string
  end.

(** [filepath.Rel]; [None] is the error "Rel: can't make ... relative
    to ...". *)
Definition Rel (basepath targpath : string) : option string :=
  let base := Clean basepath in
  let targ := Clean targpath in
  if String.eqb targ base then Some "." else
  let base := if String.eqb base "." then "" else base in
  if negb (Bool.eqb (startsWithSep base) (startsWithSep targ)) then None else
  let '(be, brest, trest) := relLoop (S (String.length base)) base targ in
  if String.eqb be ".." then None else
  if negb (String.eqb brest "") then
    let seps := Strings.countByte brest Separator in
    Some (".." ++ upDirs seps ++
          (if String.eqb trest "" then "" else "/" ++ trest))%string
  else Some trest.

(** *** Match *)

Inductive error := ErrBadPattern.

(** The leading stars of a pattern. *)
Fixpoint skipStars (pattern : string) (star : bool) : bool * string :=
  match pattern with
  | String c rest => if Ascii.eqb c "*"%char then skipStars rest true else (star, pattern)
  | EmptyString => (star, pattern)
  end.

(** The [Scan] loop of [scanChunk]: the chunk read so far and the rest
    of the pattern, which starts at the first star outside a class. *)
Fixpoint scanLoop (pattern : string) (inrange : bool) (chunk : string) : string * string :=
  match pattern with
  | EmptyString => (chunk, EmptyString)
  | String c rest =>
      if Ascii.eqb c "\"%char then
        match rest with
        | String c2 rest2 => scanLoop rest2 inrange (snoc (snoc chunk c) c2)
        | EmptyString => (snoc chunk c, EmptyString)
        end
      else if Ascii.eqb c "["%char then scanLoop rest true (snoc chunk c)
      else if Ascii.eqb c "]"%char then scanLoop rest false (snoc chunk c)
      else if Ascii.eqb c "*"%char && negb inrange then (chunk, pattern)
      else scanLoop rest inrange (snoc chunk c)
  end.

(** [scanChunk]: [(star, chunk, rest)]. *)
Definition scanChunk (pattern : string) : bool * string * string :=
  let '(star, pattern) := skipStars pattern false in
  let '(chunk, rest) := scanLoop pattern false "" in
  (star, chunk, rest).

(** [getEsc]: one possibly escaped character of a character class. *)
Definition getEsc (chunk : string) : (Z * string) + error :=
  match chunk with
  | EmptyString => inr ErrBadPattern
  | String c rest =>
      if Ascii.eqb c "-"%char || Ascii.eqb c "]"%char then inr ErrBadPattern else
      let esc := Ascii.eqb c "\"%char in
      if esc && String.eqb rest "" then inr ErrBadPattern else
      let chunk := if esc then rest else chunk in
      let '(r, n) := Utf8.DecodeRuneInString chunk in
      let nchunk := skip n chunk in
      if ((r =? Utf8.RuneError) && (n =? 1)%nat) || String.eqb nchunk ""
      then inr ErrBadPattern
      else inl (r, nchunk)
  end.

(** The loop of [matchChunk] that parses all ranges of a class and
    tests the rune [r] against them: the chunk after the closing
    bracket and whether a range contained [r]. *)
Fixpoint classLoop (fuel : nat) (chunk : string) (r : Z) (matched : bool) (nrange : nat)
    : (string * bool) + error :=
  match fuel with
  | O => inr ErrBadPattern
  | S fuel' =>
      match chunk with
      | String c rest =>
          if Ascii.eqb c "]"%char && (0 <? nrange)%nat then inl (rest, matched) else
          match getEsc chunk with
          | inr e => inr e
          | inl (lo, chunk1) =>
              let range :=
                match chunk1 with
                | String d rest1 =>
                    if Ascii.eqb d "-"%char then
                      match getEsc rest1 with
                      | inr e => inr e
                      | inl (hi, chunk2) => inl (hi, chunk2)
                      end
                    else inl (lo, chunk1)
                | EmptyString => inl (lo, chunk1)
                end in
              match range with
              | inr e => inr e
              | inl (hi, chunk2) =>
                  classLoop fuel' chunk2 r (matched || ((lo <=? r) && (r <=? hi)))
                    (S nrange)
              end
          end
      | EmptyString => inr ErrBadPattern   (* getEsc of the empty chunk *)
      end
  end.

(** The loop of [matchChunk]. After the match has [failed] the loop
    goes on over the chunk to check that it is well formed, without
    reading [s]. *)
Fixpoint matchLoop (fuel : nat) (chunk s : string) (failed : bool)
    : (string * bool) + error :=
  match fuel with
  | O => inr ErrBadPattern
  | S fuel' =>
      match chunk with
      | EmptyString => if failed then inl ("", false) else inl (s, true)
      | String c crest =>
          let failed := failed || String.eqb s "" in
          if Ascii.eqb c "["%char then
            (* character class *)
            let '(r, s1) :=
              if failed then (0, s)
              else let '(r, n) := Utf8.DecodeRuneInString s in (r, skip n s) in
            let '(negated, chunk1) :=
              match crest with
              | String d rest1 => if Ascii.eqb d "^"%char then (true, rest1) else (false, crest)
              | EmptyString => (false, crest)
              end in
            match classLoop (S (String.length chunk1)) chunk1 r false 0 with
            | inr e => inr e
            | inl (chunk2, matched) =>
                matchLoop fuel' chunk2 s1 (failed || Bool.eqb matched negated)
            end
          else if Ascii.eqb c "?"%char then
            if failed then matchLoop fuel' crest s failed
            else
              let '(_, n) := Utf8.DecodeRuneInString s in
              matchLoop fuel' crest (skip n s) (startsWithSep s)
          else
            (* a literal, possibly escaped *)
            let esc := Ascii.eqb c "\"%char in
            if esc && String.eqb crest "" then inr ErrBadPattern else
            let chunk1 := if esc then crest else chunk in
            match chunk1 with
            | String lit rest1 =>
                if failed then matchLoop fuel' rest1 s failed
                else
                  match s with
                  | String c0 s' => matchLoop fuel' rest1 s' (negb (Ascii.eqb lit c0))
                  | EmptyString => matchLoop fuel' rest1 s true
                  end
            | EmptyString => inr ErrBadPattern
            end
      end
  end.

(** [matchChunk(chunk, s)]: [(rest, ok)] or an error. *)
Definition matchChunk (chunk s : string) : (string * bool) + error :=
  matchLoop (S (String.length chunk)) chunk s false.

(** Outcome of the search [for i := 0; i < len(name) && name[i] !=
    Separator; i++] that a star starts. *)
Inductive skipResult :=
| SkipFound (rest : string)
| SkipNone
| SkipErr (e : error).

(** [name] is [name[i:]]; the chunk is tried against [name[i+1:]].
    On the last chunk ([final]) a match must exhaust the name. *)
Fixpoint starLoop (chunk name : string) (final : bool) : skipResult :=
  match name with
  | EmptyString => SkipNone
  | String c name' =>
      if isSep c then SkipNone else
      match matchChunk chunk name' with
      | inl (t, true) =>
          if final && negb (String.eqb t "") then starLoop chunk name' final
          else SkipFound t
      | inl (_, false) => starLoop chunk name' final
      | inr e => SkipErr e
      end
  end.

(** The check, before [Match] returns false, that the remainder of
    the pattern is syntactically valid. *)
Fixpoint checkRest (fuel : nat) (pattern : string) : option error :=
  match fuel with
  | O => None
  | S fuel' =>
      if String.eqb pattern "" then None else
      let '(_, chunk, rest) := scanChunk pattern in
      match matchChunk chunk "" with
      | inr e => Some e
      | inl _ => checkRest fuel' rest
      end
  end.

(** The [Pattern] loop of [Match]. *)
Fixpoint matchPattern (fuel : nat) (pattern name : string) : bool * option error :=
  match fuel with
  | O => (false, Some ErrBadPattern)
  | S fuel' =>
      if String.eqb pattern "" then (String.eqb name "", None) else
      let '(star, chunk, rest) := scanChunk pattern in
      if star && String.eqb chunk "" then
        (* Trailing * matches rest of string unless it has a /. *)
        (negb (Strings.containsByte name Separator), None)
      else
        let final := String.eqb rest "" in
        (* Look for match at current position. *)
        let here := matchChunk chunk name in
        match here with
        | inl (t, true) =>
            if String.eqb t "" || negb final then matchPattern fuel' rest t
            else
              if star then
                match starLoop chunk name final with
                | SkipFound t' => matchPattern fuel' rest t'
                | SkipErr e => (false, Some e)
                | SkipNone => (false, checkRest fuel' rest)
                end
              else (false, checkRest fuel' rest)
        | inr e => (false, Some e)
        | inl (_, false) =>
            if star then
              match starLoop chunk name final with
              | SkipFound t' => matchPattern fuel' rest t'
              | SkipErr e => (false, Some e)
              | SkipNone => (false, checkRest fuel' rest)
              end
            else (false, checkRest fuel' rest)
        end
  end.

(** [filepath.Match(pattern, name)]: [(matched, err)]. *)
Definition Match (pattern name : string) : bool * option error :=
  matchPattern (S (String.length pattern)) pattern name.

(** [name] matches the shell pattern [pattern]: [Match] reports a
    match and no error. *)
Definition matches (pattern name : string) : Prop :=
  Match pattern name = (true, None).

End Filepath.

(** ** Errors, formatting, logging *)

Inductive errno := ENOENT | ENOTDIR | EEXIST | EISDIR | EACCES.

Definition errnoText (e : errno) : string :=
  match e with
  | ENOENT => "no such file or directory"
  | ENOTDIR => "not a directory"
  | EEXIST => "file exists"
  | EISDIR => "is a directory"
  | EACCES => "permission denied"
  end.

(** Go [error] values, by origin. *)
Inductive error :=
| PathError (op path : string) (e : errno)   (* *fs.PathError *)
| Errorf (msg : string)                       (* fmt.Errorf, formatted *)
| ExecError (msg : string)                    (* *exec.ExitError, *exec.Error *)
| NetError (msg : string)                     (* net.OpError, io.EOF, JSON syntax *)
| RelError (basepath targpath : string)       (* filepath.Rel *)
| CorruptInput.                               (* base64.CorruptInputError *)

(** [err.Error()] *)
Definition Error (e : error) : string :=
  match e with
  | PathError op path en => (op ++ " " ++ path ++ ": " ++ errnoText en)%string
  | Errorf msg => msg
  | ExecError msg => msg
  | NetError msg => msg
  | RelError b t => ("Rel: can't make " ++ t ++ " relative to " ++ b)%string
  | CorruptInput => "illegal base64 data"
  end.

Inductive result (A : Type) :=
| Ok (a : A)
| Err (e : error).
Arguments Ok {A} a.
Arguments Err {A} e.

(** [fmt.Sprintf] for the verbs the program uses ([%s], [%v], [%d]):
    each verb is replaced by the next argument, already rendered. *)
Fixpoint Sprintf (format : string) (args : list string) : string :=
  match format with
  | EmptyString => EmptyString
  | String c rest =>
      if Ascii.eqb c "%"%char then
        match rest with
        | String v rest' =>
            if Ascii.eqb v "s"%char || Ascii.eqb v "v"%char || Ascii.eqb v "d"%char then
              match args with
              | a :: args' => (a ++ Sprintf rest' args')%string
              | [] => ("%!" ++ String v "(MISSING)" ++ Sprintf rest' [])%string
              end
            else String c (String v (Sprintf rest' args))
        | EmptyString => "%!(NOVERB)"
        end
      else String c (Sprintf rest args)
  end.

(** [%d] *)
Definition itoa (n : Z) : string := pretty n.

(** [%v] of a bool *)
Definition btoa (b : bool) : string := if b then "true" else "false".

Inductive LogLevel := LogLevelInfo | LogLevelDebug.

(** One call of [LogInfof] or [LogDebugf], whatever the configured
    level prints of it. *)
Record LogCall := { level : LogLevel; message : string }.

(** ** The file system *)

Module OS.

(** A directory or a regular file; [readable] is the read permission
    of the process on it. *)
Record node := { isDir : bool; data : list byte; readable : bool }.

Definition dirNode : node := {| isDir := true; data := []; readable := true |}.
Definition fileNode (content : list byte) : node :=
  {| isDir := false; data := content; readable := true |}.

(** Nodes are keyed by their cleaned absolute path: a file system
    without symbolic links, whose paths are resolved lexically. *)
Record FS := { nodes : gmap string node; cwd : string }.

Definition resolve (fs : FS) (path : string) : string :=
  if Filepath.IsAbs path then Filepath.Clean path
  else Filepath.Join (cwd fs) path.

Definition setNodes (fs : FS) (m : gmap string node) : FS :=
  {| nodes := m; cwd := cwd fs |}.

(** [os.Stat], [os.Lstat] *)
Definition Stat (fs : FS) (path : string) : result node :=
  match nodes fs !! resolve fs path with
  | Some n => Ok n
  | None => Err (PathError "stat" path ENOENT)
  end.

(** [os.Mkdir] *)
Definition Mkdir (fs : FS) (path : string) : FS * option error :=
  let p := resolve fs path in
  match nodes fs !! p with
  | Some _ => (fs, Some (PathError "mkdir" path EEXIST))
  | None =>
      match nodes fs !! Filepath.Dir p with
      | None => (fs, Some (PathError "mkdir" path ENOENT))
      | Some parent =>
          if isDir parent then (setNodes fs (<[p := dirNode]> (nodes fs)), None)
          else (fs, Some (PathError "mkdir" path ENOTDIR))
      end
  end.

(** [os.MkdirAll]: succeed at once on an existing directory; otherwise
    make sure the parent [path[:i+1]] exists, then [Mkdir]. *)
Fixpoint mkdirAll (fuel : nat) (fs : FS) (path : string) : FS * option error :=
  match fuel with
  | O => (fs, Some (PathError "mkdir" path ENOENT))
  | S fuel' =>
      match Stat fs path with
      | Ok dir =>
          if isDir dir then (fs, None)
          else (fs, Some (PathError "mkdir" path ENOTDIR))
      | Err _ =>
          let parent := Filepath.throughLastSep (Filepath.trimTrailingSeps path) in
          let '(fs1, err) :=
            if (0 <? String.length parent)%nat then mkdirAll fuel' fs parent
            else (fs, None) in
          match err with
          | Some e => (fs1, Some e)
          | None =>
              let '(fs2, err) := Mkdir fs1 path in
              match err with
              | Some e =>
                  match Stat fs2 path with
                  | Ok dir => if isDir dir then (fs2, None) else (fs2, Some e)
                  | Err _ => (fs2, Some e)
                  end
              | None => (fs2, None)
              end
          end
      end
  end.

Definition MkdirAll (fs : FS) (path : string) : FS * option error :=
  mkdirAll (S (String.length path)) fs path.

(** [os.WriteFile]: create or truncate. *)
Definition WriteFile (fs : FS) (path : string) (content : list byte) : FS * option error :=
  let p := resolve fs path in
  match nodes fs !! Filepath.Dir p with
  | None => (fs, Some (PathError "open" path ENOENT))
  | Some parent =>
      if negb (isDir parent) then (fs, Some (PathError "open" path ENOTDIR)) else
      match nodes fs !! p with
      | Some n =>
          if isDir n then (fs, Some (PathError "open" path EISDIR))
          else (setNodes fs (<[p := fileNode content]> (nodes fs)), None)
      | None => (setNodes fs (<[p := fileNode content]> (nodes fs)), None)
      end
  end.

(** [os.ReadFile] *)
Definition ReadFile (fs : FS) (path : string) : result (list byte) :=
  match nodes fs !! resolve fs path with
  | None => Err (PathError "open" path ENOENT)
  | Some n =>
      if isDir n then Err (PathError "read" path EISDIR)
      else if readable n then Ok (data n)
      else Err (PathError "open" path EACCES)
  end.

(** [k] is [p] or lies below it. *)
Definition under (p k : string) : bool :=
  String.eqb k p || Strings.HasPrefix k (if String.eqb p "/" then p else p ++ "/")%string.

(** [os.RemoveAll]: removes [path] and everything below it; no error
    if [path] does not exist. *)
Definition RemoveAll (fs : FS) (path : string) : FS :=
  let p := resolve fs path in
  setNodes fs (filter (fun kv => under p kv.1 = false) (nodes fs)).

(** [fs.DirEntry], with the result of [d.Info()]. *)
Record DirEntry := { Name : string; IsDir : bool; Size : Z }.

Definition entryOf (name : string) (n : node) : DirEntry :=
  {| Name := name; IsDir := isDir n; Size := Z.of_nat (List.length (data n)) |}.

Fixpoint insertByName (d : DirEntry) (l : list DirEntry) : list DirEntry :=
  match l with
  | [] => [d]
  | x :: rest =>
      if String.leb (Name d) (Name x) then d :: l else x :: insertByName d rest
  end.

Definition sortByName (l : list DirEntry) : list DirEntry :=
  foldr insertByName [] l.

(** [os.ReadDir]: the entries of a directory, sorted by file name. *)
Definition ReadDir (fs : FS) (path : string) : result (list DirEntry) :=
  let p := resolve fs path in
  match nodes fs !! p with
  | None => Err (PathError "open" path ENOENT)
  | Some n =>
      if negb (isDir n) then Err (PathError "readdirent" path ENOTDIR)
      else if negb (readable n) then Err (PathError "open" path EACCES)
      else
        let children :=
          filter (fun kv => negb (String.eqb kv.1 p) && String.eqb (Filepath.Dir kv.1) p = true)
                 (map_to_list (nodes fs)) in
        Ok (sortByName (map (fun kv => entryOf (Filepath.Base kv.1) kv.2) children))
  end.

Section Walk.
Context {S : Type}.

(** [fs.WalkDirFunc], threading the state the closure captures. The
    callbacks of this program return either nil or an error that stops
    the walk; none returns [SkipDir]. *)
Definition WalkDirFunc : Type := string -> option DirEntry -> option error -> S -> S * option error.

Variable fs : FS.
Variable fn : WalkDirFunc.

(** [walkDir]. The fuel bounds the depth of the recursion: a
    directory nested [k] levels below the root has [k] ancestors among
    the nodes, so [WalkDir] starts with one more than their number. *)
Fixpoint walkDir (fuel : nat) (path : string) (d : DirEntry) (s : S) : S * option error :=
  match fuel with
  | O => (s, None)
  | Datatypes.S fuel' =>
      let '(s1, err) := fn path (Some d) None s in
      match err with
      | Some e => (s1, Some e)
      | None =>
          if negb (IsDir d) then (s1, None) else
          match ReadDir fs path with
          | Err e =>
              (* Second call, to report ReadDir error. *)
              fn path (Some d) (Some e) s1
          | Ok dirs =>
              (fix each (ds : list DirEntry) (s : S) : S * option error :=
                 match ds with
                 | [] => (s, None)
                 | d1 :: ds' =>
                     let '(s', err) := walkDir fuel' (Filepath.Join path (Name d1)) d1 s in
                     match err with
                     | Some e => (s', Some e)
                     | None => each ds' s'
                     end
                 end) dirs s1
          end
      end
  end.

(** [filepath.WalkDir] *)
Definition WalkDir (root : string) (s : S) : S * option error :=
  match Stat fs root with
  | Err e => fn root None (Some e) s
  | Ok info =>
      walkDir (Datatypes.S (size (nodes fs))) root (entryOf (Filepath.Base root) info) s
  end.

End Walk.

(** One call of the walk function: [(path, d, err)]. *)
Definition call : Type := string * option DirEntry * option error.

(** The calls that [walkDir] makes, in order, as long as none of them
    returns an error. *)
Fixpoint walkCalls (fs : FS) (fuel : nat) (path : string) (d : DirEntry) : list call :=
  match fuel with
  | O => []
  | Datatypes.S fuel' =>
      (path, Some d, None) ::
      (if negb (IsDir d) then [] else
       match ReadDir fs path with
       | Err e => [(path, Some d, Some e)]
       | Ok dirs =>
           flat_map (fun d1 => walkCalls fs fuel' (Filepath.Join path (Name d1)) d1) dirs
       end)
  end.

(** The calls that [WalkDir] makes on [root]. *)
Definition WalkCalls (fs : FS) (root : string) : list call :=
  match Stat fs root with
  | Err e => [(root, None, Some e)]
  | Ok info => walkCalls fs (Datatypes.S (size (nodes fs))) root (entryOf (Filepath.Base root) info)
  end.

(** A walk function applied to a sequence of calls, up to the first
    error it returns. *)
Fixpoint foldCalls {S : Type} (fn : WalkDirFunc (S := S)) (calls : list call) (s : S)
    : S * option error :=
  match calls with
  | [] => (s, None)
  | (path, d, err) :: rest =>
      let '(s', r) := fn path d err s in
      match r with
      | Some e => (s', Some e)
      | None => foldCalls fn rest s'
      end
  end.

End OS.

(** ** types.go *)

(** [BuildRequest] *)
Record BuildRequest := {
  req_ID : string;
  req_Environment : string;
  req_Command : string;
  req_ProjectDir : string;
  req_ExecutionDir : string;
  req_OutputPaths : list string;
  req_EnvVars : gmap string string;
  req_Files : gmap string string;
  req_ProjectName : string
}.

(** [BuildResponse]; [resp_OutputFiles = None] is the nil map. *)
Record BuildResponse := {
  resp_ID : string;
  resp_Success : bool;
  resp_Output : string;
  resp_Error : string;
  resp_Duration : Z;
  resp_OutputFiles : option (gmap string string)
}.

(** [len(response.OutputFiles)] *)
Definition lenOutputFiles (r : BuildResponse) : nat :=
  match resp_OutputFiles r with
  | Some m => size m
  | None => O
  end.

(** [ServerInfo] *)
Record ServerInfo := {
  info_ID : string;
  info_Address : string;
  info_Port : Z;
  info_Capacity : Z;
  info_Version : string
}.

(** ** main.go, config.go *)

Definition Version : string := "1.0.0".

(** [BuildEnvironment] *)
Record BuildEnvironment := {
  env_Name : string;
  env_Command : string;
  env_ProjectDir : string;
  env_ExecutionDir : string;
  env_OutputPaths : list string;
  env_EnvVars : gmap string string;
  env_PostBuildScript : string
}.

(** The fields of [Config] that the worker and the coordinator read. *)
Record Config := {
  cfg_Environments : gmap string BuildEnvironment;   (* Build.Environments *)
  cfg_TempDir : string;                               (* Build.TempDir *)
  cfg_TempDeletion : bool;                            (* Build.TempDeletion *)
  cfg_BuildTimeout : string                           (* Client.Timeouts.Build, as printed *)
}.

(** [exec.Cmd] *)
Record Cmd := {
  cmd_Path : string;
  cmd_Args : list string;
  cmd_Dir : string;
  cmd_Env : option (list string)
}.

(** What the process obtains from its environment: the operating
    system, the clock, and the order in which [range] visits a map. *)
Record Runtime := {
  (** [os.TempDir()] *)
  rt_TempDir : string;
  (** [os.Environ()] *)
  rt_Environ : list string;
  (** [cmd.CombinedOutput()]: the child process may change the file
      system; it yields its output and, on a non-zero exit or a spawn
      failure, an error. *)
  rt_CombinedOutput : Cmd -> OS.FS -> OS.FS * list byte * option error;
  (** [time.Since(start)] at the point where the response is filled *)
  rt_Since : Z;
  (** iteration order of [for k, v := range m] *)
  rt_range : forall V : Type, gmap string V -> list (string * V);
  (** [strings.Map(unicode.ToLower, s)] *)
  rt_mapLower : string -> string;
  (** the local address found by [getLocalIP] *)
  rt_LocalIP : string
}.

Arguments rt_range _ {V} _.

(** [Config.GetBuildEnvironment] *)
Definition GetBuildEnvironment (c : Config) (language : string) : option BuildEnvironment :=
  cfg_Environments c !! language.

(** [Config.GetTempDir] *)
Definition GetTempDir (rt : Runtime) (c : Config) : string :=
  if negb (String.eqb (cfg_TempDir c) "") then cfg_TempDir c else rt_TempDir rt.

(** ** The state of a process: file system and log *)

Record World := { fs : OS.FS; log : list LogCall }.

(** Computations on the [World]. *)
Definition M (A : Type) : Type := World -> World * A.

#[global] Instance M_ret : MRet M := fun A (a : A) (w : World) => (w, a).

#[global] Instance M_bind : MBind M :=
  fun A B (k : A -> M B) (m : M A) (w : World) => let '(w', a) := m w in k a w'.

(** An operation that changes the file system. *)
Definition onFS {A} (f : OS.FS -> OS.FS * A) : M A :=
  fun w => let '(fs', a) := f (fs w) in ({| fs := fs'; log := log w |}, a).

(** An operation that only reads it. *)
Definition readFS {A} (f : OS.FS -> A) : M A := fun w => (w, f (fs w)).

Definition LogInfof (format : string) (args : list string) : M unit :=
  fun w => ({| fs := fs w;
               log := log w ++ [{| level := LogLevelInfo; message := Sprintf format args |}] |}, tt).

Definition LogDebugf (format : string) (args : list string) : M unit :=
  fun w => ({| fs := fs w;
               log := log w ++ [{| level := LogLevelDebug; message := Sprintf format args |}] |}, tt).

(** ** server.go *)

Module Server.

(** [ClientConnection] *)
Record ClientConnection := { cc_addr : string }.

(** [Server] *)
Record Server := {
  id : string;
  port : Z;
  capacity : Z;
  clients : gmap string ClientConnection
}.

(** What the worker writes on a connection. *)
Inductive Message :=
| MsgInfo (info : ServerInfo)
| MsgResponse (response : BuildResponse).

(** The worker's end of a connection: the messages written so far and
    how many more writes the transport accepts ([None]: any number). *)
Record Conn := {
  remoteAddr : string;
  outbox : list Message;
  writesLeft : option nat;
  closed : bool
}.

(** [encoder.Encode(v)] *)
Definition Encode (c : Conn) (m : Message) : Conn * option error :=
  match writesLeft c with
  | Some O => (c, Some (NetError "write: broken pipe"))
  | remaining =>
      ({| remoteAddr := remoteAddr c; outbox := outbox c ++ [m];
          writesLeft := Nat.pred <$> remaining; closed := closed c |}, None)
  end.

(** [conn.Close()] *)
Definition Close (c : Conn) : Conn :=
  {| remoteAddr := remoteAddr c; outbox := outbox c;
     writesLeft := writesLeft c; closed := true |}.

Definition failed (response : BuildResponse) (msg : string) (duration : Z) : BuildResponse :=
  {| resp_ID := resp_ID response; resp_Success := false;
     resp_Output := resp_Output response; resp_Error := msg;
     resp_Duration := duration; resp_OutputFiles := resp_OutputFiles response |}.

Definition succeeded (response : BuildResponse) (outputFiles : option (gmap string string))
    : BuildResponse :=
  {| resp_ID := resp_ID response; resp_Success := true;
     resp_Output := resp_Output response; resp_Error := resp_Error response;
     resp_Duration := resp_Duration response; resp_OutputFiles := outputFiles |}.

(** [%v] of a [[]string] *)
Definition showList (l : list string) : string := ("[" ++ String.concat " " l ++ "]")%string.

(** [isOutputFileNormalized], the loop over the patterns. *)
Fixpoint matchesAny (normalizedPath : string) (outputPaths : list string) : bool :=
  match outputPaths with
  | [] => false
  | pattern :: rest =>
      (* Always use forward slashes for pattern and path *)
      let patternNorm := Filepath.ToSlash pattern in
      let '(matched, err) := Filepath.Match patternNorm normalizedPath in
      if (if err is None then true else false) && matched then true else
      (* Also check basename for patterns like "main.*" *)
      let '(matched, err) := Filepath.Match patternNorm (Filepath.Base normalizedPath) in
      if (if err is None then true else false) && matched then true else
      matchesAny normalizedPath rest
  end.

(** [Server.isOutputFileNormalized] *)
Definition isOutputFileNormalized (normalizedPath : string) (outputPaths : list string) : bool :=
  if (List.length outputPaths =? 0)%nat then true
  else matchesAny normalizedPath outputPaths.

(** The callback of [findFiles]. *)
Definition findFilesVisit : OS.WalkDirFunc (S := list string) :=
  fun path d err files =>
    match err with
    | Some e => (files, Some e)
    | None =>
        match d with
        | Some d => if negb (OS.IsDir d) then (files ++ [path], None) else (files, None)
        | None => (files, None)
        end
    end.

(** [Server.findFiles] *)
Definition findFiles (dir : string) : M (list string * option error) :=
  readFS (fun fs => OS.WalkDir fs findFilesVisit dir []).

Section WithRuntime.
Variable rt : Runtime.
Variable globalConfig : Config.

(** [Server.createProjectDirectory] *)
Definition createProjectDirectory (request : BuildRequest) : M (result string) :=
  (* Create a temporary directory for project files *)
  let tempDir := GetTempDir rt globalConfig in
  let projectDir := Filepath.Join tempDir (req_ProjectName request) in
  err ← onFS (fun fs => OS.MkdirAll fs projectDir);
  match err with
  | Some e => mret (Err e)
  | None => mret (Ok projectDir)
  end.

(** The loop of [writeProjectFiles] over the entries in [range] order. *)
Fixpoint writeEach (projectDir : string) (entries : list (string * string))
    : M (option error) :=
  match entries with
  | [] => mret None
  | (relativePath, content) :: rest =>
      (* Normalize path separators for the current OS *)
      let normalizedRelPath := Filepath.FromSlash relativePath in
      let fullPath := Filepath.Join projectDir normalizedRelPath in
      (* Create directory if it doesn't exist *)
      let dir := Filepath.Dir fullPath in
      err ← onFS (fun fs => OS.MkdirAll fs dir);
      match err with
      | Some e => mret (Some e)
      | None =>
          (* Write file *)
          err ← onFS (fun fs => OS.WriteFile fs fullPath (list_byte_of_string content));
          match err with
          | Some e => mret (Some e)
          | None => writeEach projectDir rest
          end
      end
  end.

(** [Server.writeProjectFiles] *)
Definition writeProjectFiles (projectDir : string) (files : gmap string string)
    : M (option error) :=
  writeEach projectDir (rt_range rt files).

(** The execution directory that [buildCommand] determines. *)
Definition executionDirOf (request : BuildRequest) (projectDir : string) : string :=
  let executionDir := req_ExecutionDir request in
  if String.eqb executionDir "" then projectDir   (* Fallback to project directory *)
  else if negb (Filepath.IsAbs executionDir) then
    (* If relative path, make it relative to project directory *)
    Filepath.Join projectDir executionDir
  else executionDir.

(** [Server.buildCommand] *)
Definition buildCommand (request : BuildRequest) (projectDir : string) : M (result Cmd) :=
  (* Parse the command string from the request *)
  let cmdParts := Strings.Fields (req_Command request) in
  match cmdParts with
  | [] => mret (Err (Errorf "empty command in build request"))
  | compiler :: args =>
      (* Determine execution directory *)
      let executionDir := executionDirOf request projectDir in
      (* Create execution directory if it doesn't exist *)
      err ← onFS (fun fs => OS.MkdirAll fs executionDir);
      match err with
      | Some e =>
          mret (Err (Errorf (Sprintf "failed to create execution directory: %v" [Error e])))
      | None =>
          LogDebugf "%s build command: %s %v (execution dir: %s)"
            [req_Environment request; compiler; showList args; executionDir];;
          (* Set environment variables from request *)
          let env :=
            if (0 <? size (req_EnvVars request))%nat then
              Some (rt_Environ rt ++
                    map (fun kv => Sprintf "%s=%s" [kv.1; kv.2]) (rt_range rt (req_EnvVars request)))
            else None in
          mret (Ok {| cmd_Path := compiler; cmd_Args := compiler :: args;
                      cmd_Dir := executionDir; cmd_Env := env |})
      end
  end.

(** The loop of [collectOutputFiles] over the files found. *)
Fixpoint collectEach (projectDir : string) (request : BuildRequest) (files : list string)
    (outputFiles : gmap string string) : M (gmap string string) :=
  match files with
  | [] => mret outputFiles
  | file :: rest =>
      match Filepath.Rel projectDir file with
      | None =>
          LogDebugf "Warning: Failed to get relative path for %s: %v"
            [file; Error (RelError projectDir file)];;
          collectEach projectDir request rest outputFiles
      | Some relativePath =>
          (* Normalize to use forward slashes and prefix with ./ *)
          let normalizedPath := ("./" ++ Filepath.ToSlash relativePath)%string in
          info ← readFS (fun fs => OS.Stat fs file);
          match info with
          | Err e =>
              LogDebugf "Warning: Failed to stat file %s: %v" [file; Error e];;
              collectEach projectDir request rest outputFiles
          | Ok info =>
              LogDebugf "Checking file: %s (size: %d)"
                [normalizedPath; itoa (Z.of_nat (List.length (OS.data info)))];;
              if isOutputFileNormalized normalizedPath (req_OutputPaths request) then
                content ← readFS (fun fs => OS.ReadFile fs file);
                match content with
                | Err e =>
                    LogDebugf "Warning: Failed to read output file %s: %v" [file; Error e];;
                    collectEach projectDir request rest outputFiles
                | Ok content =>
                    let outputFiles :=
                      <[normalizedPath := Base64.EncodeToString content]> outputFiles in
                    LogDebugf "Added output file: %s (size: %d bytes)"
                      [normalizedPath; itoa (Z.of_nat (List.length content))];;
                    collectEach projectDir request rest outputFiles
                end
              else
                LogDebugf "Skipped file (not output): %s" [normalizedPath];;
                collectEach projectDir request rest outputFiles
          end
      end
  end.

(** [Server.collectOutputFiles] *)
Definition collectOutputFiles (projectDir : string) (request : BuildRequest)
    : M (result (gmap string string)) :=
  r ← findFiles projectDir;
  match r.2 with
  | Some err =>
      LogDebugf "Error finding files in project directory %s: %v" [projectDir; Error err];;
      mret (Err err)
  | None =>
      let files := r.1 in
      LogDebugf "Found %d files in project directory %s for environment %s"
        [itoa (Z.of_nat (List.length files)); projectDir; req_Environment request];;
      outputFiles ← collectEach projectDir request files ∅;
      LogDebugf "Collected %d output files for build %s"
        [itoa (Z.of_nat (size outputFiles)); req_ID request];;
      mret (Ok outputFiles)
  end.

(** [cmd.CombinedOutput()] *)
Definition CombinedOutput (cmd : Cmd) : M (list byte * option error) :=
  onFS (fun fs => let '(fs', output, err) := rt_CombinedOutput rt cmd fs in (fs', (output, err))).

(** The part of [processBuildRequest] that runs once the project
    directory exists, up to the [return]. *)
Definition buildIn (request : BuildRequest) (projectDir : string) (response : BuildResponse)
    : M BuildResponse :=
  (* Write files to project directory *)
  err ← writeProjectFiles projectDir (req_Files request);
  match err with
  | Some e =>
      mret (failed response (Sprintf "Failed to write project files: %v" [Error e]) (rt_Since rt))
  | None =>
      (* Execute build command based on language *)
      r ← buildCommand request projectDir;
      match r with
      | Err e => mret (failed response (Error e) (rt_Since rt))
      | Ok cmd =>
          (* Execute command *)
          out ← CombinedOutput cmd;
          let response :=
            {| resp_ID := resp_ID response; resp_Success := resp_Success response;
               resp_Output := string_of_list_byte out.1; resp_Error := resp_Error response;
               resp_Duration := rt_Since rt; resp_OutputFiles := resp_OutputFiles response |} in
          response ←
            match out.2 with
            | Some e => mret (failed response (Error e) (resp_Duration response))
            | None =>
                (* Collect compiled output files *)
                r ← collectOutputFiles projectDir request;
                match r with
                | Err e =>
                    LogDebugf "Warning: Failed to collect output files: %v" [Error e];;
                    mret (succeeded response (resp_OutputFiles response))
                | Ok outputFiles => mret (succeeded response (Some outputFiles))
                end
            end;
          LogDebugf "Build %s completed in %v, success: %v (files: %d, output: %d)"
            [req_ID request; itoa (resp_Duration response); btoa (resp_Success response);
             itoa (Z.of_nat (size (req_Files request)));
             itoa (Z.of_nat (lenOutputFiles response))];;
          mret response
      end
  end.

(** [Server.processBuildRequest] *)
Definition processBuildRequest (request : BuildRequest) : M BuildResponse :=
  let response :=
    {| resp_ID := req_ID request; resp_Success := false; resp_Output := "";
       resp_Error := ""; resp_Duration := 0; resp_OutputFiles := None |} in
  (* Create temporary project directory *)
  r ← createProjectDirectory request;
  match r with
  | Err e =>
      mret (failed response (Sprintf "Failed to create project directory: %v" [Error e])
              (rt_Since rt))
  | Ok projectDir =>
      response ← buildIn request projectDir response;
      (* deferred: clean up temporary directory based on configuration *)
      (if cfg_TempDeletion globalConfig
       then onFS (fun fs => (OS.RemoveAll fs projectDir, tt))
       else LogDebugf "Temporary directory preserved: %s" [projectDir]);;
      mret response
  end.

(** The request loop of [handleClientConnection]. [requests] are the
    requests the decoder yields before it fails. *)
Fixpoint serve (clientAddr : string) (requests : list BuildRequest) (conn : Conn) : M Conn :=
  match requests with
  | [] =>
      LogInfof "Client %s disconnected: %v" [clientAddr; "EOF"];;
      mret conn
  | request :: rest =>
      LogDebugf "Received build request %s for %s from %s"
        [req_ID request; req_Environment request; clientAddr];;
      response ← processBuildRequest request;
      let '(conn', err) := Encode conn (MsgResponse response) in
      match err with
      | Some e =>
          LogDebugf "Failed to send response to %s: %v" [clientAddr; Error e];;
          mret conn'
      | None => serve clientAddr rest conn'
      end
  end.

Definition setClients (s : Server) (m : gmap string ClientConnection) : Server :=
  {| id := id s; port := port s; capacity := capacity s; clients := m |}.

(** [Server.handleClientConnection] *)
Definition handleClientConnection (s : Server) (conn : Conn) (requests : list BuildRequest)
    : M (Server * Conn) :=
  let clientAddr := remoteAddr conn in
  (* Register client *)
  let s := setClients s (<[clientAddr := {| cc_addr := clientAddr |}]> (clients s)) in
  LogInfof "Client connected from %s" [clientAddr];;
  (* Send server info to client *)
  let serverInfo :=
    {| info_ID := id s; info_Address := rt_LocalIP rt; info_Port := port s;
       info_Capacity := capacity s; info_Version := Version |} in
  let '(conn, err) := Encode conn (MsgInfo serverInfo) in
  match err with
  | Some e =>
      LogDebugf "Failed to send server info to %s: %v" [clientAddr; Error e];;
      mret (s, Close conn)
  | None =>
      (* Process build requests from this client *)
      conn ← serve clientAddr requests conn;
      (* Remove client on disconnect *)
      mret (setClients s (delete clientAddr (clients s)), Close conn)
  end.

End WithRuntime.

End Server.

(** ** client.go *)

Module Client.

(** The coordinator's end of a connection: the requests written so
    far and how many more writes the transport accepts. *)
Record Conn := {
  outbox : list BuildRequest;
  writesLeft : option nat;
  closed : bool
}.

(** [encoder.Encode(request)] *)
Definition Encode (c : Conn) (request : BuildRequest) : Conn * option error :=
  match writesLeft c with
  | Some O => (c, Some (NetError "write: broken pipe"))
  | remaining =>
      ({| outbox := outbox c ++ [request]; writesLeft := Nat.pred <$> remaining;
          closed := closed c |}, None)
  end.

(** [ServerConnection] *)
Record ServerConnection := {
  info : ServerInfo;
  conn : Conn;
  busy : bool
}.

Definition setBusy (sc : ServerConnection) (b : bool) : ServerConnection :=
  {| info := info sc; conn := conn sc; busy := b |}.

Definition setConn (sc : ServerConnection) (k : Conn) : ServerConnection :=
  {| info := info sc; conn := k; busy := busy sc |}.

(** [Client]. The maps of the Go struct hold pointers and channels:
    [objects] is the store of the [ServerConnection] values that
    [servers] points to, [chans] the store of the buffers (capacity 1)
    of the channels that [pendingBuilds] holds. *)
Record Client := {
  objects : gmap nat ServerConnection;
  servers : gmap string nat;
  chans : gmap nat (list BuildResponse);
  pendingBuilds : gmap string nat;
  discoveredServers : gmap string ServerInfo
}.

(** [NewClient] *)
Definition NewClient : Client :=
  {| objects := ∅; servers := ∅; chans := ∅; pendingBuilds := ∅; discoveredServers := ∅ |}.

Definition setObjects (c : Client) (m : gmap nat ServerConnection) : Client :=
  {| objects := m; servers := servers c; chans := chans c;
     pendingBuilds := pendingBuilds c; discoveredServers := discoveredServers c |}.

Definition setServers (c : Client) (m : gmap string nat) : Client :=
  {| objects := objects c; servers := m; chans := chans c;
     pendingBuilds := pendingBuilds c; discoveredServers := discoveredServers c |}.

Definition setChans (c : Client) (m : gmap nat (list BuildResponse)) : Client :=
  {| objects := objects c; servers := servers c; chans := m;
     pendingBuilds := pendingBuilds c; discoveredServers := discoveredServers c |}.

Definition setPending (c : Client) (m : gmap string nat) : Client :=
  {| objects := objects c; servers := servers c; chans := chans c;
     pendingBuilds := m; discoveredServers := discoveredServers c |}.

Definition setDiscovered (c : Client) (m : gmap string ServerInfo) : Client :=
  {| objects := objects c; servers := servers c; chans := chans c;
     pendingBuilds := pendingBuilds c; discoveredServers := m |}.

(** [server.mux.Lock(); server.busy = b; server.mux.Unlock()] *)
Definition markBusy (c : Client) (server : nat) (b : bool) : Client :=
  setObjects c (alter (fun sc => setBusy sc b) server (objects c)).

(** [server.busy], false for a dangling reference. *)
Definition isBusy (c : Client) (server : nat) : bool :=
  match objects c !! server with
  | Some sc => busy sc
  | None => false
  end.

(** The values of a [map[string]*ServerConnection] in the order
    [entries] lists them: each pointer with the object it points to. *)
Definition pointees (c : Client) (entries : list (string * nat))
    : list (nat * ServerConnection) :=
  omap (fun kv => (fun sc => (kv.2, sc)) <$> objects c !! kv.2) entries.

(** [make(chan *BuildResponse, 1)] *)
Definition makeChan (c : Client) : Client * nat :=
  let ch := fresh (dom (chans c)) in
  (setChans c (<[ch := []]> (chans c)), ch).

(** [&ServerConnection{...}] *)
Definition newObject (c : Client) (sc : ServerConnection) : Client * nat :=
  let ref := fresh (dom (objects c)) in
  (setObjects c (<[ref := sc]> (objects c)), ref).

(** [hex.EncodeToString] *)
Definition hexDigit (n : Z) : ascii :=
  match String.get (Z.to_nat n) "0123456789abcdef" with
  | Some c => c
  | None => zero
  end.

Fixpoint hexEncode (src : list byte) : string :=
  match src with
  | [] => EmptyString
  | b :: rest =>
      String (hexDigit (Z.shiftr (u8 b) 4)) (String (hexDigit (Z.land (u8 b) 0x0F)) (hexEncode rest))
  end.

(** [generateID], given the eight bytes read from [crypto/rand]. *)
Definition generateID (random : list byte) : string := hexEncode random.

Definition skippedExtensions : list string :=
  [".exe"; ".dll"; ".so"; ".dylib"; ".o"; ".obj"].

Section WithRuntime.
Variable rt : Runtime.
Variable globalConfig : Config.

(** [Client.findServerByAddress] *)
Definition findServerByAddress (c : Client) (serverAddr : string)
    : option (nat * ServerConnection) :=
  List.find
    (fun server =>
       let currentAddr :=
         Sprintf "%s:%d" [info_Address (info server.2); itoa (info_Port (info server.2))] in
       String.eqb currentAddr serverAddr)
    (pointees c (rt_range rt (servers c))).

(** [Client.findAvailableServer] *)
Definition findAvailableServer (c : Client) : option (nat * ServerConnection) :=
  List.find (fun server => negb (busy server.2)) (pointees c (rt_range rt (servers c))).

(** The files that [readProjectFiles] does not skip: regular, at most
    1 MiB, and without one of the skipped extensions. *)
Definition eligible (path : string) (d : OS.DirEntry) : bool :=
  negb (OS.IsDir d)
  && negb (1024 * 1024 <? OS.Size d)
  && negb (existsb (String.eqb (Strings.ToLower (rt_mapLower rt) (Filepath.Ext path)))
             skippedExtensions).

(** The callback of [readProjectFiles]. On this file system [d.Info()]
    does not fail; [d] is nil only together with an error. *)
Definition readVisit (fs : OS.FS) (workdir : string)
    : OS.WalkDirFunc (S := gmap string string) :=
  fun path d err files =>
    match err, d with
    | Some e, _ => (files, Some e)
    | None, None => (files, None)
    | None, Some d =>
        (* Skip directories *)
        if OS.IsDir d then (files, None) else
        (* Skip binary files and large files (>1MB) *)
        if 1024 * 1024 <? OS.Size d then (files, None) else
        (* Skip certain file extensions *)
        let ext := Strings.ToLower (rt_mapLower rt) (Filepath.Ext path) in
        if existsb (String.eqb ext) skippedExtensions then (files, None) else
        (* Read file content *)
        match OS.ReadFile fs path with
        | Err e =>
            (files, Some (Errorf (Sprintf "failed to read file %s: %v" [path; Error e])))
        | Ok content =>
            (* Get relative path from workdir *)
            match Filepath.Rel workdir path with
            | None =>
                (files, Some (Errorf (Sprintf "failed to get relative path for %s: %v"
                                        [path; Error (RelError workdir path)])))
            | Some relPath =>
                (* Normalize path to use forward slashes *)
                let normalizedRelPath := Filepath.ToSlash relPath in
                (* Store file content with normalized relative path as key *)
                (<[normalizedRelPath := string_of_list_byte content]> files, None)
            end
        end
    end.

(** [Client.readProjectFiles] *)
Definition readProjectFiles (workdir : string) : M (result (gmap string string)) :=
  r ← readFS (fun fs => OS.WalkDir fs (readVisit fs workdir) workdir ∅);
  match r.2 with
  | Some err => mret (Err err)
  | None =>
      LogDebugf "Read %d files from project directory: %s"
        [itoa (Z.of_nat (size r.1)); workdir];;
      mret (Ok r.1)
  end.

(** The loop of [saveOutputFiles] over the entries in [range] order. *)
Fixpoint saveEach (workdir : string) (entries : list (string * string)) : M unit :=
  match entries with
  | [] => mret tt
  | (relPath, encodedContent) :: rest =>
      (* Decode base64 content *)
      match Base64.DecodeString encodedContent with
      | (_, Some _) =>
          LogDebugf "Warning: Failed to decode file %s: %v" [relPath; Error CorruptInput];;
          saveEach workdir rest
      | (content, None) =>
          (* The server always sends paths with forward slashes *)
          let normalizedRelPath := Filepath.FromSlash relPath in
          (* Create full output path directly in workdir *)
          let outputPath := Filepath.Join workdir normalizedRelPath in
          (* Create directory if needed *)
          let dir := Filepath.Dir outputPath in
          err ← onFS (fun fs => OS.MkdirAll fs dir);
          match err with
          | Some e =>
              LogDebugf "Warning: Failed to create directory %s: %v" [dir; Error e];;
              saveEach workdir rest
          | None =>
              (* Write file *)
              err ← onFS (fun fs => OS.WriteFile fs outputPath content);
              match err with
              | Some e =>
                  LogDebugf "Warning: Failed to write file %s: %v" [outputPath; Error e];;
                  saveEach workdir rest
              | None =>
                  LogDebugf "Saved output file: %s" [outputPath];;
                  saveEach workdir rest
              end
          end
      end
  end.

(** [Client.saveOutputFiles] *)
Definition saveOutputFiles (workdir : string) (outputFiles : gmap string string)
    : M (option error) :=
  saveEach workdir (rt_range rt outputFiles);;
  LogDebugf "Saved %d output files to project directory %s"
    [itoa (Z.of_nat (size outputFiles)); workdir];;
  mret None.

(** [Client.executePostBuildScript] *)
Definition executePostBuildScript (scriptPath projectDir : string) (env : BuildEnvironment)
    : M (option error) :=
  (* Check if the script path is absolute or relative *)
  let fullScriptPath :=
    if Filepath.IsAbs scriptPath then scriptPath
    else Filepath.Join projectDir scriptPath in
  (* Check if the script/executable exists *)
  st ← readFS (fun fs => OS.Stat fs fullScriptPath);
  match st with
  | Err _ => mret (Some (Errorf (Sprintf "post-build script not found: %s" [fullScriptPath])))
  | Ok _ =>
      (* Determine how to execute the script based on its extension *)
      let ext := Strings.ToLower (rt_mapLower rt) (Filepath.Ext fullScriptPath) in
      let argv :=
        if String.eqb ext ".bat" || String.eqb ext ".cmd" then ["cmd"; "/C"; fullScriptPath]
        else if String.eqb ext ".sh" then ["bash"; fullScriptPath]
        else if String.eqb ext ".ps1" then
          ["powershell"; "-ExecutionPolicy"; "Bypass"; "-File"; fullScriptPath]
        else if String.eqb ext ".py" then ["python"; fullScriptPath]
        else [fullScriptPath] in
      let cmd :=
        {| cmd_Path := hd "" argv; cmd_Args := argv;
           (* Set working directory to project directory *)
           cmd_Dir := projectDir;
           cmd_Env :=
             Some (rt_Environ rt
                   ++ map (fun kv => Sprintf "%s=%s" [kv.1; kv.2]) (rt_range rt (env_EnvVars env))
                   ++ [Sprintf "BOLTBUILD_PROJECT_DIR=%s" [projectDir];
                       Sprintf "BOLTBUILD_ENVIRONMENT=%s" [env_Name env];
                       Sprintf "BOLTBUILD_OUTPUT_DIR=%s" [Filepath.Join projectDir "output"]]) |} in
      LogDebugf "Executing post-build script: %s" [fullScriptPath];;
      (* Execute the script and capture output *)
      out ← Server.CombinedOutput rt cmd;
      match out.2 with
      | Some e =>
          mret (Some (Errorf (Sprintf ("post-build script failed: %v" ++ String "010" "Output: %s")
                                [Error e; string_of_list_byte out.1])))
      | None =>
          LogDebugf "Post-build script completed successfully. Output: %s"
            [string_of_list_byte out.1];;
          mret None
      end
  end.

(** How far a submission got before it waits. *)
Inductive submission :=
| Rejected (err : error)
| Sent (buildID : string) (responseChan : nat) (server : nat) (env : BuildEnvironment).

Definition versionMismatch (server : ServerConnection) : error :=
  Errorf (Sprintf
    "version mismatch: client version %s, server %s version %s. Please ensure all components are using the same version"
    [Version; info_ID (info server); info_Version (info server)]).

(** [encoder := json.NewEncoder(server.conn); encoder.Encode(request)] *)
Definition send (c : Client) (server : nat) (request : BuildRequest) : Client * option error :=
  match objects c !! server with
  | Some sc =>
      let '(k, err) := Encode (conn sc) request in
      (setObjects c (<[server := setConn sc k]> (objects c)), err)
  | None => (c, Some (NetError "use of closed network connection"))
  end.

Definition requestFor (buildID environment : string) (env : BuildEnvironment)
    (files : gmap string string) : BuildRequest :=
  {| req_ID := buildID; req_Environment := environment; req_Command := env_Command env;
     req_ProjectDir := env_ProjectDir env; req_ExecutionDir := env_ExecutionDir env;
     req_OutputPaths := env_OutputPaths env; req_EnvVars := env_EnvVars env;
     req_Files := files; req_ProjectName := Sprintf "project_%s" [buildID] |}.

(** [Client.SubmitBuild], up to the [select]. [random] is what
    [generateID] reads from [crypto/rand]. *)
Definition SubmitBuild_send (c : Client) (random : list byte)
    (environment projectDir : string) : M (Client * submission) :=
  (* Generate unique build ID and project name *)
  let buildID := generateID random in
  (* Read all files from the project directory *)
  r ← readProjectFiles projectDir;
  match r with
  | Err err =>
      mret (c, Rejected (Errorf (Sprintf "failed to read project files: %v" [Error err])))
  | Ok files =>
      (* Get environment configuration *)
      match GetBuildEnvironment globalConfig environment with
      | None =>
          mret (c, Rejected (Errorf (Sprintf "environment %s not found in client configuration"
                                       [environment])))
      | Some env =>
          let request := requestFor buildID environment env files in
          (* Find available server *)
          match findAvailableServer c with
          | None => mret (c, Rejected (Errorf "no available servers"))
          | Some (server, sc) =>
                  (* Check version compatibility before submitting build *)
                  if negb (String.eqb (info_Version (info sc)) Version)
                  then mret (c, Rejected (versionMismatch sc))
                  else
                    (* Create response channel for this build *)
                    let '(c, responseChan) := makeChan c in
                    let c := setPending c (<[buildID := responseChan]> (pendingBuilds c)) in
                    (* Mark server as busy *)
                    let c := markBusy c server true in
                    (* Send build request with files *)
                    let '(c, err) := send c server request in
                    match err with
                    | Some e =>
                        let c := markBusy c server false in
                        (* Clean up pending build *)
                        let c := setPending c (delete buildID (pendingBuilds c)) in
                        mret (c, Rejected (Errorf (Sprintf "failed to send build request: %v"
                                                     [Error e])))
                    | None =>
                        LogDebugf "Build %s submitted to server %s with %d files"
                          [buildID; info_ID (info sc); itoa (Z.of_nat (size files))];;
                        mret (c, Sent buildID responseChan server env)
                    end
          end
      end
  end.

(** [Client.SubmitBuildToServer], up to the [select]. *)
Definition SubmitBuildToServer_send (c : Client) (random : list byte)
    (environment projectDir serverAddr : string) : M (Client * submission) :=
  (* Generate unique build ID and project name *)
  let buildID := generateID random in
  (* Get environment configuration *)
  match GetBuildEnvironment globalConfig environment with
  | None =>
      mret (c, Rejected (Errorf (Sprintf "environment %s not found in client configuration"
                                   [environment])))
  | Some env =>
      (* Read all files from the project directory *)
      r ← readProjectFiles projectDir;
      match r with
      | Err err =>
          mret (c, Rejected (Errorf (Sprintf "failed to read project files: %v" [Error err])))
      | Ok files =>
          let request := requestFor buildID environment env files in
          (* Find the specific server *)
          match findServerByAddress c serverAddr with
          | None =>
              mret (c, Rejected (Errorf (Sprintf "server %s not found or not connected"
                                           [serverAddr])))
          | Some (server, sc) =>
                  (* Check version compatibility before submitting build *)
                  if negb (String.eqb (info_Version (info sc)) Version)
                  then mret (c, Rejected (versionMismatch sc))
                  else
                    (* Check if server is available *)
                    if busy sc
                    then mret (c, Rejected (Errorf (Sprintf "server %s is currently busy"
                                                      [serverAddr])))
                    else
                      let c := markBusy c server true in
                      (* Create response channel for this build *)
                      let '(c, responseChan) := makeChan c in
                      let c := setPending c (<[buildID := responseChan]> (pendingBuilds c)) in
                      (* Send build request with files *)
                      let '(c, err) := send c server request in
                      match err with
                      | Some e =>
                          let c := markBusy c server false in
                          (* Clean up pending build *)
                          let c := setPending c (delete buildID (pendingBuilds c)) in
                          mret (c, Rejected (Errorf (Sprintf
                                                       "failed to send build request to %s: %v"
                                                       [serverAddr; Error e])))
                      | None =>
                          LogDebugf "Build %s submitted to server %s (%s) with %d files"
                            [buildID; info_ID (info sc); serverAddr;
                             itoa (Z.of_nat (size files))];;
                          mret (c, Sent buildID responseChan server env)
                      end
          end
      end
  end.

(** The [case response := <-responseChan] branch of the [select] of
    both submissions; [workdir] is where the output files are saved. *)
Definition received (workdir : string) (env : BuildEnvironment) (response : BuildResponse)
    : M (result BuildResponse) :=
  (* Save compiled files to output directory if build was successful *)
  (if resp_Success response && (0 <? lenOutputFiles response)%nat then
     err ← saveOutputFiles workdir (default ∅ (resp_OutputFiles response));
     match err with
     | Some e => LogDebugf "Warning: Failed to save output files: %v" [Error e]
     | None => mret tt
     end
   else mret tt);;
  (* Execute post-build script if build was successful and script is configured *)
  (if resp_Success response && negb (String.eqb (env_PostBuildScript env) "") then
     err ← executePostBuildScript (env_PostBuildScript env) workdir env;
     match err with
     | Some e => LogDebugf "Warning: Failed to execute post-build script: %v" [Error e]
     | None => mret tt
     end
   else mret tt);;
  mret (Ok response).

(** The [case <-time.After(...)] branch of the [select]. *)
Definition timedOut (c : Client) (buildID : string) : Client * result BuildResponse :=
  (* Cleanup on timeout *)
  let c := setPending c (delete buildID (pendingBuilds c)) in
  (c, Err (Errorf (Sprintf "build timeout after %v" [cfg_BuildTimeout globalConfig]))).

(** [Client.handleServerConnection], before its loop: the connection
    is registered under [addr]. *)
Definition register (c : Client) (k : Conn) (serverInfo : ServerInfo) (addr : string)
    : M (Client * nat) :=
  let '(c, serverConn) := newObject c {| info := serverInfo; conn := k; busy := false |} in
  let c := setServers c (<[addr := serverConn]> (servers c)) in
  LogInfof "Connected to build server %s at %s (capacity: %d)"
    [info_ID serverInfo; addr; itoa (info_Capacity serverInfo)];;
  mret (c, serverConn).

(** One iteration of the loop of [handleServerConnection] that has
    decoded [response] on the connection [serverConn]. *)
Definition handleResponse (c : Client) (serverConn : nat) (response : BuildResponse)
    : M Client :=
  LogDebugf "Build %s completed by server %s: success=%v, output_files=%d"
    [resp_ID response;
     default "" (info_ID <$> (info <$> objects c !! serverConn));
     btoa (resp_Success response); itoa (Z.of_nat (lenOutputFiles response))];;
  (* Send response to waiting SubmitBuild call *)
  let c :=
    match pendingBuilds c !! resp_ID response with
    | Some responseChan =>
        let c := setChans c (alter (fun buf => buf ++ [response]) responseChan (chans c)) in
        setPending c (delete (resp_ID response) (pendingBuilds c))
    | None => c
    end in
  mret (markBusy c serverConn false).

(** [Client.handleServerConnection], after its loop: the decoder
    failed with [err]. *)
Definition disconnected (c : Client) (serverConn : nat) (addr : string) (err : error)
    : M Client :=
  LogInfof "Server %s disconnected: %v"
    [default "" (info_ID <$> (info <$> objects c !! serverConn)); Error err];;
  (* Remove server on disconnect *)
  let c := setServers c (delete addr (servers c)) in
  (* Remove from discovered servers *)
  mret (setDiscovered c (delete addr (discoveredServers c))).

(** What [tryConnectToServer] found at an address: the dial failed,
    or the first object decoded from the connection. *)
Inductive probe :=
| DialFailed
| Handshake (k : Conn) (decoded : result ServerInfo).

(** [Client.tryConnectToServer]; the result tells whether
    [go c.handleServerConnection(conn, serverInfo, addr)] was started,
    and with which arguments. *)
Definition tryConnectToServer (c : Client) (ip : string) (port : Z) (p : probe)
    : M (Client * option (Conn * ServerInfo * string)) :=
  let addr := Sprintf "%s:%d" [ip; itoa port] in
  (* Skip if already connected *)
  if bool_decide (is_Some (servers c !! addr)) then mret (c, None) else
  match p with
  | DialFailed => mret (c, None)
  | Handshake k (Err _) => mret (c, None)
  | Handshake k (Ok serverInfo) =>
      (* Verify this is a build server *)
      if negb (Strings.HasPrefix (info_ID serverInfo) "server-") then mret (c, None) else
      (* Check version compatibility *)
      (if negb (String.eqb (info_Version serverInfo) Version) then
         LogDebugf "WARNING: Version mismatch with server %s! Client: %s, Server: %s"
           [info_ID serverInfo; Version; info_Version serverInfo]
       else mret tt);;
      LogInfof "Discovered build server %s at %s (capacity: %d, version: %s)"
        [info_ID serverInfo; addr; itoa (info_Capacity serverInfo); info_Version serverInfo];;
      (* Add to discovered servers *)
      let c := setDiscovered c (<[addr := serverInfo]> (discoveredServers c)) in
      (* Start managing this connection *)
      mret (c, Some (k, serverInfo, addr))
  end.

(** [Client.reconnectToServer]: whether [go c.handleServerConnection]
    was started, and with which arguments. *)
Definition reconnectToServer (addr : string) (serverInfo : ServerInfo) (p : probe)
    : M (option (Conn * ServerInfo * string)) :=
  match p with
  | DialFailed => mret None
  | Handshake k (Err _) => mret None
  | Handshake k (Ok newServerInfo) =>
      (* Verify it's the same server *)
      if negb (String.eqb (info_ID newServerInfo) (info_ID serverInfo)) then mret None else
      LogInfof "Reconnected to build server %s at %s" [info_ID serverInfo; addr];;
      mret (Some (k, newServerInfo, addr))
  end.

End WithRuntime.

End Client.

(** ** The coordinator as a transition system

    The goroutines of the coordinator (one per submission, one per
    worker connection, discovery and reconnection) interleave; each
    step below is one of their actions on the shared [Client]. *)

Module Coordinator.
Import Client.

(** A submission that reached its [select]: parked on its channel, or
    returned through one of the two branches. *)
Inductive caller :=
| Parked (responseChan : nat) (workdir : string) (env : BuildEnvironment)
| Delivered (response : BuildResponse)     (* returned [response, nil] *)
| Abandoned.                                (* returned [nil, build timeout] *)

Record System := {
  client : Client;
  world : World;
  callers : gmap string caller      (* by correlation id *)
}.

Inductive label :=
| LSubmit (buildID : string)
| LReject (err : error)
| LProbe
| LRegister (addr : string) (serverConn : nat)
| LResponse (serverConn : nat) (response : BuildResponse)
| LDisconnect (serverConn : nat) (addr : string)
| LDeliver (buildID : string) (response : BuildResponse)
| LTimeout (buildID : string).

Definition initial (w : World) : System :=
  {| client := NewClient; world := w; callers := ∅ |}.

Section WithRuntime.
Variable rt : Runtime.
Variable globalConfig : Config.

Inductive step : System -> label -> System -> Prop :=
(** [SubmitBuild] registers its slot, sends and reaches the [select].
    The correlation id is one no submission has drawn before. *)
| step_submit sys random environment projectDir w' c' buildID ch server env :
    SubmitBuild_send rt globalConfig (client sys) random environment projectDir (world sys)
      = (w', (c', Sent buildID ch server env)) ->
    callers sys !! buildID = None ->
    step sys (LSubmit buildID)
      {| client := c'; world := w';
         callers := <[buildID := Parked ch projectDir env]> (callers sys) |}
(** [SubmitBuildToServer], likewise. *)
| step_submit_to sys random environment projectDir workdir serverAddr w' c' buildID ch
    server env :
    SubmitBuildToServer_send rt globalConfig (client sys) random environment projectDir
      serverAddr (world sys) = (w', (c', Sent buildID ch server env)) ->
    callers sys !! buildID = None ->
    step sys (LSubmit buildID)
      {| client := c'; world := w';
         callers := <[buildID := Parked ch workdir env]> (callers sys) |}
(** A submission that returns an error before waiting. *)
| step_reject sys random environment projectDir w' c' err :
    SubmitBuild_send rt globalConfig (client sys) random environment projectDir (world sys)
      = (w', (c', Rejected err)) ->
    callers sys !! generateID random = None ->
    step sys (LReject err) {| client := c'; world := w'; callers := callers sys |}
| step_reject_to sys random environment projectDir serverAddr w' c' err :
    SubmitBuildToServer_send rt globalConfig (client sys) random environment projectDir
      serverAddr (world sys) = (w', (c', Rejected err)) ->
    callers sys !! generateID random = None ->
    step sys (LReject err) {| client := c'; world := w'; callers := callers sys |}
(** Discovery probes an address. *)
| step_probe sys ip port p w' c' started :
    tryConnectToServer (client sys) ip port p (world sys) = (w', (c', started)) ->
    step sys LProbe {| client := c'; world := w'; callers := callers sys |}
(** A goroutine started by discovery or reconnection enters
    [handleServerConnection]. *)
| step_register sys k serverInfo addr w' c' serverConn :
    register (client sys) k serverInfo addr (world sys) = (w', (c', serverConn)) ->
    step sys (LRegister addr serverConn)
      {| client := c'; world := w'; callers := callers sys |}
(** The loop of a connection decodes a response. *)
| step_response sys serverConn response w' c' :
    handleResponse (client sys) serverConn response (world sys) = (w', c') ->
    step sys (LResponse serverConn response)
      {| client := c'; world := w'; callers := callers sys |}
(** The loop of a connection ends. *)
| step_disconnect sys serverConn addr err w' c' :
    disconnected (client sys) serverConn addr err (world sys) = (w', c') ->
    step sys (LDisconnect serverConn addr)
      {| client := c'; world := w'; callers := callers sys |}
(** The [select] of a parked submission receives from its channel. *)
| step_deliver sys buildID ch workdir env response rest w' res :
    callers sys !! buildID = Some (Parked ch workdir env) ->
    chans (client sys) !! ch = Some (response :: rest) ->
    received rt workdir env response (world sys) = (w', res) ->
    step sys (LDeliver buildID response)
      {| client := setChans (client sys) (<[ch := rest]> (chans (client sys)));
         world := w';
         callers := <[buildID := Delivered response]> (callers sys) |}
(** The [select] of a parked submission takes the timer, which may
    fire at any moment. *)
| step_timeout sys buildID ch workdir env c' res :
    callers sys !! buildID = Some (Parked ch workdir env) ->
    timedOut globalConfig (client sys) buildID = (c', res) ->
    step sys (LTimeout buildID)
      {| client := c'; world := world sys;
         callers := <[buildID := Abandoned]> (callers sys) |}.

(** Executions: the labels of the steps taken, oldest first. *)
Inductive run : System -> list label -> System -> Prop :=
| run_nil sys : run sys [] sys
| run_snoc sys tr mid l sys' :
    run sys tr mid -> step mid l sys' -> run sys (tr ++ [l]) sys'.

End WithRuntime.

(** Is [l] one of the two ways the wait on [buildID] ends? *)
Definition isOutcome (buildID : string) (l : label) : bool :=
  match l with
  | LDeliver b _ => String.eqb b buildID
  | LTimeout b => String.eqb b buildID
  | _ => false
  end.

(** The outcomes of the wait on [buildID] in an execution. *)
Definition outcomes (buildID : string) (tr : list label) : list label :=
  List.filter (isOutcome buildID) tr.

End Coordinator.

(** ** Sample configurations *)

Module Examples.

(** A file system with a root and a temporary directory. *)
Definition fs0 : OS.FS :=
  {| OS.nodes := <["/tmp" := OS.dirNode]> (<["/" := OS.dirNode]> ∅); OS.cwd := "/" |}.

Definition w0 : World := {| fs := fs0; log := [] |}.

Definition cfg0 : Config :=
  {| cfg_Environments := ∅; cfg_TempDir := ""; cfg_TempDeletion := true;
     cfg_BuildTimeout := "2m0s" |}.

(** A compiler: writes [out/app.exe] under its working directory and
    exits with status zero. *)
Definition compiler (cmd : Cmd) (fs : OS.FS) : OS.FS * list byte * option error :=
  let '(fs1, _) := OS.MkdirAll fs (Filepath.Join (cmd_Dir cmd) "out") in
  let '(fs2, _) :=
    OS.WriteFile fs1 (Filepath.Join (cmd_Dir cmd) "out/app.exe") (list_byte_of_string "BIN") in
  (fs2, list_byte_of_string "ok", None).

(** A command that removes its working directory and exits with
    status zero. *)
Definition cleaner (cmd : Cmd) (fs : OS.FS) : OS.FS * list byte * option error :=
  (OS.RemoveAll fs (cmd_Dir cmd), list_byte_of_string "cleaned", None).

Definition runtimeWith (run : Cmd -> OS.FS -> OS.FS * list byte * option error) : Runtime :=
  {| rt_TempDir := "/tmp"; rt_Environ := ["PATH=/bin"]; rt_CombinedOutput := run;
     rt_Since := 5; rt_range := fun V m => map_to_list m;
     rt_mapLower := fun s => s; rt_LocalIP := "10.0.0.7" |}.

Definition rt0 : Runtime := runtimeWith compiler.
Definition rtCleaner : Runtime := runtimeWith cleaner.

Definition requestWith (command executionDir projectName : string)
    (files : gmap string string) : BuildRequest :=
  {| req_ID := "1"; req_Environment := "go"; req_Command := command;
     req_ProjectDir := "."; req_ExecutionDir := executionDir;
     req_OutputPaths := ["*.exe"]; req_EnvVars := ∅; req_Files := files;
     req_ProjectName := projectName |}.

Definition sources : gmap string string := <["main.go" := "package main"]> ∅.

(** An ordinary request. *)
Definition build : BuildRequest := requestWith "go build -o out/app.exe ." "" "project_1" sources.

(** A request whose command is blank. *)
Definition blank : BuildRequest := requestWith "   " "" "project_1" sources.


(** A request with a file key that climbs out of the project directory. *)
Definition climbing : BuildRequest :=
  requestWith "go build" "" "project_1" (<["../../etc/evil" := "boom"]> sources).

(** A request whose project name climbs out of the temporary directory. *)
Definition misnamed : BuildRequest := requestWith "go build" "" "../outside" sources.

End Examples.

Module ClientExamples.
Import Client.

Definition goEnv : BuildEnvironment :=
  {| env_Name := "go"; env_Command := "go build -o out/app.exe ."; env_ProjectDir := "/src";
     env_ExecutionDir := "."; env_OutputPaths := ["*.exe"]; env_EnvVars := ∅;
     env_PostBuildScript := "" |}.

Definition cfg : Config :=
  {| cfg_Environments := <["go" := goEnv]> ∅; cfg_TempDir := ""; cfg_TempDeletion := true;
     cfg_BuildTimeout := "2m0s" |}.

(** A project directory [/src] with two sources, a binary and an
    object file. *)
Definition projectFS : OS.FS :=
  {| OS.nodes :=
       <["/src/lib/util.go" := OS.fileNode (list_byte_of_string "package lib")]>
       (<["/src/lib" := OS.dirNode]>
       (<["/src/app.EXE" := OS.fileNode (list_byte_of_string "MZ")]>
       (<["/src/main.o" := OS.fileNode (list_byte_of_string "ELF")]>
       (<["/src/main.go" := OS.fileNode (list_byte_of_string "package main")]>
       (<["/src" := OS.dirNode]> (<["/" := OS.dirNode]> ∅))))));
     OS.cwd := "/" |}.

Definition w : World := {| fs := projectFS; log := [] |}.

Definition workerInfo (version : string) : ServerInfo :=
  {| info_ID := "server-a"; info_Address := "10.0.0.7"; info_Port := 8080;
     info_Capacity := 4; info_Version := version |}.

Definition link (writes : option nat) : Conn :=
  {| outbox := []; writesLeft := writes; closed := false |}.

(** A coordinator connected to one idle worker. *)
Definition connected (version : string) (writes : option nat) : Client :=
  {| objects := <[0%nat := {| info := workerInfo version; conn := link writes; busy := false |}]> ∅;
     servers := <["10.0.0.7:8080" := 0%nat]> ∅;
     chans := ∅; pendingBuilds := ∅;
     discoveredServers := <["10.0.0.7:8080" := workerInfo version]> ∅ |}.

(** Its worker runs the coordinator's version. *)
Definition current : Client := connected Version None.

(** Its worker runs another version. *)
Definition outdated : Client := connected "0.9.0" None.

(** Its worker runs the coordinator's version but the connection no
    longer accepts writes. *)
Definition broken : Client := connected Version (Some O).

Definition random : list byte := [x00; x01; x02; x03; x04; x05; x06; x07].

End ClientExamples.

(** ** Predicates used in the statements *)

Module Spec.
Import Client Coordinator.

(** One pattern accepts the path when [Match] succeeds on the path or
    on its base name. *)
Definition accepts (pattern normalizedPath : string) : Prop :=
  Filepath.matches (Filepath.ToSlash pattern) normalizedPath \/
  Filepath.matches (Filepath.ToSlash pattern) (Filepath.Base normalizedPath).

(** What the early returns of [processBuildRequest] produce. *)
Definition jobFailed (request : BuildRequest) (response : BuildResponse) : Prop :=
  resp_ID response = req_ID request /\
  resp_Success response = false /\
  resp_Error response <> "".

(** The fields of the coordinator that a submission may touch, apart
    from the store of channels. *)
Definition restored (c c' : Client) : Prop :=
  objects c' = objects c /\ servers c' = servers c /\
  pendingBuilds c' = pendingBuilds c /\ discoveredServers c' = discoveredServers c.

(** [key ↦ content] is what [readVisit] stores for the file [path]. *)
Definition stored (fs : OS.FS) (workdir path key content : string) : Prop :=
  exists bytes rel,
    OS.ReadFile fs path = Ok bytes /\
    Filepath.Rel workdir path = Some rel /\
    key = Filepath.ToSlash rel /\
    content = string_of_list_byte bytes.

(** The correlation invariant, on the pending map, the store of
    channels and the submissions that reached their [select]:
    - a registered slot belongs to a parked submission and its channel
      is empty, so that the loop's send does not block;
    - the channel of a parked submission holds only responses with its
      correlation id, and is the channel of no other submission;
    - a delivered response carries the correlation id. *)
Record Inv (pending : gmap string nat) (channels : gmap nat (list BuildResponse))
    (submissions : gmap string caller) : Prop := {
  inv_slot : forall buildID ch,
    pending !! buildID = Some ch ->
    (exists workdir env, submissions !! buildID = Some (Parked ch workdir env)) /\
    channels !! ch = Some [];
  inv_chan : forall buildID ch workdir env,
    submissions !! buildID = Some (Parked ch workdir env) ->
    (exists buf, channels !! ch = Some buf /\ forall r, In r buf -> resp_ID r = buildID) /\
    (forall other workdir' env',
        submissions !! other = Some (Parked ch workdir' env') -> other = buildID);
  inv_got : forall buildID r,
    submissions !! buildID = Some (Delivered r) -> resp_ID r = buildID
}.

(** What a submission does to the pending map and to the channels. *)
Definition submitted (c c' : Client) (random : list byte) (out : submission) : Prop :=
  match out with
  | Sent buildID ch _ _ =>
      buildID = generateID random /\
      chans c !! ch = None /\
      pendingBuilds c' = <[buildID := ch]> (pendingBuilds c) /\
      chans c' = <[ch := []]> (chans c)
  | Rejected _ =>
      (forall buildID ch, pendingBuilds c' !! buildID = Some ch ->
                          pendingBuilds c !! buildID = Some ch) /\
      (forall ch buf, chans c !! ch = Some buf -> chans c' !! ch = Some buf)
  end.

(** The invariant on a state of the coordinator. *)
Definition consistent (sys : System) : Prop :=
  Inv (pendingBuilds (client sys)) (chans (client sys)) (callers sys).

(** How the wait on [buildID] has ended, as the execution records it. *)
Definition settled (buildID : string) (tr : list label) (who : option caller) : Prop :=
  match who with
  | None => outcomes buildID tr = []
  | Some (Parked _ _ _) => outcomes buildID tr = []
  | Some (Delivered r) => outcomes buildID tr = [LDeliver buildID r]
  | Some Abandoned => outcomes buildID tr = [LTimeout buildID]
  end.


End Spec.

(** ** config.go in full *)

Module ConfigFile.

(** [ServerConfig] *)
Record ServerConfig := { server_Port : Z; server_Capacity : Z }.

(** [NetworkRange] *)
Record NetworkRange := {
  range_Auto : bool;
  range_Subnet : string;
  range_StartIP : Z;
  range_EndIP : Z
}.

(** [DiscoveryConfig]; a [time.Duration] is a number of nanoseconds. *)
Record DiscoveryConfig := {
  disc_Ports : list Z;
  disc_ScanInterval : Z;
  disc_ConnectTimeout : Z;
  disc_NetworkRange : NetworkRange
}.

(** [TimeoutConfig] *)
Record TimeoutConfig := {
  timeout_Build : Z;
  timeout_Reconnect : Z;
  timeout_HealthCheck : Z
}.

(** [ClientConfig] *)
Record ClientConfig := {
  client_Discovery : DiscoveryConfig;
  client_Timeouts : TimeoutConfig
}.

(** [WebConfig] *)
Record WebConfig := { web_Port : Z }.

(** [LoggingConfig] *)
Record LoggingConfig := { logging_Level : string }.

(** [BuildConfig] *)
Record BuildConfig := {
  build_Environments : gmap string BuildEnvironment;
  build_TempDir : string;
  build_TempDeletion : bool
}.

(** [Config] *)
Record Config := {
  conf_Server : ServerConfig;
  conf_Client : ClientConfig;
  conf_Web : WebConfig;
  conf_Build : BuildConfig;
  conf_Logging : LoggingConfig
}.

(** [time.Second] *)
Definition Second : Z := 1000000000.

(** [DefaultConfig] *)
Definition DefaultConfig : Config :=
  {| conf_Server := {| server_Port := 8080; server_Capacity := 4 |};
     conf_Client :=
       {| client_Discovery :=
            {| disc_Ports := [8080; 8081; 8082; 8083; 8084; 8085];
               disc_ScanInterval := 10 * Second;
               disc_ConnectTimeout := 2 * Second;
               disc_NetworkRange :=
                 {| range_Auto := true; range_Subnet := "";
                    range_StartIP := 1; range_EndIP := 254 |} |};
          client_Timeouts :=
            {| timeout_Build := 120 * Second;
               timeout_Reconnect := 10 * Second;
               timeout_HealthCheck := 10 * Second |} |};
     conf_Web := {| web_Port := 8081 |};
     conf_Build :=
       {| build_TempDir := "";           (* Will use system temp dir if empty *)
          build_TempDeletion := true;    (* Default to deleting temp directories *)
          build_Environments := ∅ |};
     conf_Logging := {| logging_Level := "info" |} |}.

(** [port <= 0 || port > 65535] *)
Definition portInvalid (port : Z) : bool := (port <=? 0) || (65535 <? port).

(** The body of the loop of [Validate] over the build environments. *)
Definition checkEnvironment (name : string) (env : BuildEnvironment) : option error :=
  if String.eqb (env_Name env) "" then
    Some (Errorf (Sprintf "name not specified for environment %s" [name]))
  else if String.eqb (env_Command env) "" then
    Some (Errorf (Sprintf "command not specified for environment %s" [name]))
  else if String.eqb (env_ProjectDir env) "" then
    Some (Errorf (Sprintf "project directory not specified for environment %s" [name]))
  else if String.eqb (env_ExecutionDir env) "" then
    Some (Errorf (Sprintf "execution directory not specified for environment %s" [name]))
  else None.

(** A loop that returns the first error its body finds. *)
Fixpoint firstError {A : Type} (check : A -> option error) (l : list A) : option error :=
  match l with
  | [] => None
  | a :: rest =>
      match check a with
      | Some e => Some e
      | None => firstError check rest
      end
  end.

(** The checks of [Validate] on the network range. *)
Definition checkNetworkRange (r : NetworkRange) : option error :=
  if range_Auto r then None
  else if String.eqb (range_Subnet r) "" then
    Some (Errorf "subnet must be specified when auto-detection is disabled")
  else if (range_StartIP r <? 1) || (254 <? range_StartIP r) then
    Some (Errorf (Sprintf "invalid start IP: %d" [itoa (range_StartIP r)]))
  else if (range_EndIP r <? 1) || (254 <? range_EndIP r) then
    Some (Errorf (Sprintf "invalid end IP: %d" [itoa (range_EndIP r)]))
  else if range_EndIP r <? range_StartIP r then
    Some (Errorf "start IP cannot be greater than end IP")
  else None.

Section WithRuntime.
Variable rt : Runtime.
(** [time.Duration.String], for the [%v] verb. *)
Variable showDuration : Z -> string.
(** [yaml.Marshal] and [yaml.Unmarshal]; the latter fills the [Config]
    it is given, leaving the fields the document omits. *)
Variable Marshal : Config -> result (list byte).
Variable Unmarshal : list byte -> Config -> result Config.

(** The checks of [Validate] on the timeouts. *)
Definition checkTimeouts (t : TimeoutConfig) : option error :=
  if timeout_Build t <=? 0 then
    Some (Errorf (Sprintf "invalid build timeout: %v" [showDuration (timeout_Build t)]))
  else if timeout_Reconnect t <=? 0 then
    Some (Errorf (Sprintf "invalid reconnect timeout: %v" [showDuration (timeout_Reconnect t)]))
  else if timeout_HealthCheck t <=? 0 then
    Some (Errorf (Sprintf "invalid health check timeout: %v"
                    [showDuration (timeout_HealthCheck t)]))
  else None.

(** [Config.Validate] *)
Definition Validate (c : Config) : option error :=
  let discovery := client_Discovery (conf_Client c) in
  (* Validate server config *)
  if portInvalid (server_Port (conf_Server c)) then
    Some (Errorf (Sprintf "invalid server port: %d" [itoa (server_Port (conf_Server c))]))
  else if server_Capacity (conf_Server c) <=? 0 then
    Some (Errorf (Sprintf "invalid server capacity: %d" [itoa (server_Capacity (conf_Server c))]))
  (* Validate web config *)
  else if portInvalid (web_Port (conf_Web c)) then
    Some (Errorf (Sprintf "invalid web port: %d" [itoa (web_Port (conf_Web c))]))
  (* Validate client discovery ports *)
  else if (List.length (disc_Ports discovery) =? 0)%nat then
    Some (Errorf "no discovery ports specified")
  else
    match List.find portInvalid (disc_Ports discovery) with
    | Some port => Some (Errorf (Sprintf "invalid discovery port: %d" [itoa port]))
    | None =>
        (* Validate network range *)
        match checkNetworkRange (disc_NetworkRange discovery) with
        | Some e => Some e
        | None =>
            (* Validate timeouts *)
            match checkTimeouts (client_Timeouts (conf_Client c)) with
            | Some e => Some e
            | None =>
                (* Validate build environments (only if they exist) *)
                firstError (fun kv => checkEnvironment kv.1 kv.2)
                  (rt_range rt (build_Environments (conf_Build c)))
            end
        end
    end.

(** [os.IsNotExist] *)
Definition IsNotExist (e : error) : bool :=
  match e with
  | PathError _ _ ENOENT => true
  | _ => false
  end.

(** [SaveConfig] *)
Definition SaveConfig (config : Config) (filename : string) : M (option error) :=
  (* Create directory if it doesn't exist *)
  let dir := Filepath.Dir filename in
  err ← onFS (fun fs => OS.MkdirAll fs dir);
  match err with
  | Some e => mret (Some (Errorf (Sprintf "failed to create config directory: %v" [Error e])))
  | None =>
      (* Marshal to YAML *)
      match Marshal config with
      | Err e => mret (Some (Errorf (Sprintf "failed to marshal config: %v" [Error e])))
      | Ok data =>
          (* Write to file *)
          err ← onFS (fun fs => OS.WriteFile fs filename data);
          match err with
          | Some e => mret (Some (Errorf (Sprintf "failed to write config file: %v" [Error e])))
          | None => mret None
          end
      end
  end.

(** [LoadConfig] *)
Definition LoadConfig (filename : string) : M (result Config) :=
  (* Start with default config *)
  let config := DefaultConfig in
  (* Check if config file exists *)
  st ← readFS (fun fs => OS.Stat fs filename);
  if (if st is Err e then IsNotExist e else false) then
    (* Create default config file *)
    err ← SaveConfig config filename;
    match err with
    | Some e =>
        mret (Err (Errorf (Sprintf "failed to create default config file: %v" [Error e])))
    | None => mret (Ok config)
    end
  else
    (* Read config file *)
    data ← readFS (fun fs => OS.ReadFile fs filename);
    match data with
    | Err e => mret (Err (Errorf (Sprintf "failed to read config file: %v" [Error e])))
    | Ok data =>
        (* Parse YAML *)
        match Unmarshal data config with
        | Err e => mret (Err (Errorf (Sprintf "failed to parse config file: %v" [Error e])))
        | Ok config =>
            (* Validate and set defaults for missing fields *)
            match Validate config with
            | Some e => mret (Err (Errorf (Sprintf "invalid configuration: %v" [Error e])))
            | None => mret (Ok config)
            end
        end
    end.

End WithRuntime.

End ConfigFile.

(** ** logging.go *)

Module Logging.

(** [Logger] *)
Record Logger := { logger_level : LogLevel }.

(** The numeric value of a [LogLevel] ([iota]). *)
Definition levelValue (l : LogLevel) : Z :=
  match l with
  | LogLevelInfo => 0
  | LogLevelDebug => 1
  end.

(** [NewLogger] *)
Definition NewLogger (mapLower : string -> string) (levelStr : string) : Logger :=
  let s := Strings.ToLower mapLower levelStr in
  if String.eqb s "debug" then {| logger_level := LogLevelDebug |}
  else if String.eqb s "info" then {| logger_level := LogLevelInfo |}
  else {| logger_level := LogLevelInfo |}   (* Default to info *).

(** [InitializeLogger]: the value it gives the global [logger], which
    is nil ([None]) before. *)
Definition InitializeLogger (mapLower : string -> string) (config : ConfigFile.Config)
    : option Logger :=
  Some (NewLogger mapLower (ConfigFile.logging_Level (ConfigFile.conf_Logging config))).

(** Does a call of [LogInfof] or [LogDebugf] reach [log.Printf]? *)
Definition prints (logger : option Logger) (call : LogCall) : bool :=
  match level call with
  | LogLevelInfo =>
      match logger with
      | Some _ => true    (* logger.Infof *)
      | None => true      (* log.Printf *)
      end
  | LogLevelDebug =>
      match logger with
      | Some l => levelValue LogLevelDebug <=? levelValue (logger_level l)   (* logger.Debugf *)
      | None => false
      end
  end.

(** The lines that the calls recorded in a [World] print. *)
Definition printed (logger : option Logger) (calls : list LogCall) : list string :=
  message <$> List.filter (prints logger) calls.

End Logging.

(** ** server.go: creation of the worker *)

Module Worker.
Import Server.

(** [generateServerID]; [hostname] is the result of [os.Hostname()],
    [random] the eight bytes read from [crypto/rand]. *)
Definition generateServerID (hostname : result string) (random : list byte) : string :=
  match hostname with
  | Err _ =>
      (* Fallback to random ID if hostname is not available *)
      Sprintf "server-%s" [Client.hexEncode random]
  | Ok h => Sprintf "server-%s" [h]
  end.

(** [NewServer] *)
Definition NewServer (hostname : result string) (random : list byte) (port capacity : Z)
    : Server :=
  let id := generateServerID hostname random in
  {| id := id; port := port; capacity := capacity; clients := ∅ |}.

End Worker.

(** ** client.go: discovery, reconnection and status *)

Module Discovery.
Import Client.

(** [Client.getLocalIP]; [dial] is the local address of the socket
    that [net.Dial] opens, [None] when the dial fails. *)
Definition getLocalIP (dial : option string) : string :=
  match dial with
  | None => "192.168.1"
  | Some localAddr => localAddr
  end.

(** [Client.getNetworkPrefix] *)
Definition getNetworkPrefix (ip : string) : string :=
  let parts := Strings.SplitByte ip "."%char in
  if (3 <=? List.length parts)%nat then Strings.Join (take 3 parts) "."
  else "192.168.1".

(** [Client.scanForServers]: the arguments of the calls
    [go c.tryConnectToServer(ip, port)], in the order the two loops
    make them; [seqZ] lists the values of [i] in
    [for i := startIP; i <= endIP; i++]. *)
Definition scanForServers (globalConfig : ConfigFile.Config) (dial : option string)
    : list (string * Z) :=
  let discovery := ConfigFile.client_Discovery (ConfigFile.conf_Client globalConfig) in
  let ports := ConfigFile.disc_Ports discovery in
  (* Determine network range *)
  let '(networkPrefix, startIP, endIP) :=
    if ConfigFile.range_Auto (ConfigFile.disc_NetworkRange discovery) then
      let localIP := getLocalIP dial in
      (getNetworkPrefix localIP, 1, 254)
    else
      (ConfigFile.range_Subnet (ConfigFile.disc_NetworkRange discovery),
       ConfigFile.range_StartIP (ConfigFile.disc_NetworkRange discovery),
       ConfigFile.range_EndIP (ConfigFile.disc_NetworkRange discovery)) in
  flat_map
    (fun i =>
       let ip := Sprintf "%s.%d" [networkPrefix; itoa i] in
       map (fun port => (ip, port)) ports)
    (seqZ startIP (endIP - startIP + 1)).

(** [ServerStatusInfo] *)
Record ServerStatusInfo := {
  status_ID : string;
  status_Address : string;
  status_Port : Z;
  status_Capacity : Z;
  status_Available : bool;
  status_Version : string
}.

(** The value that [GetServerStatus] stores for one server. *)
Definition statusOf (server : ServerConnection) : ServerStatusInfo :=
  {| status_ID := info_ID (info server);
     status_Address := info_Address (info server);
     status_Port := info_Port (info server);
     status_Capacity := info_Capacity (info server);
     status_Available := negb (busy server);
     status_Version := info_Version (info server) |}.

Section WithRuntime.
Variable rt : Runtime.

(** [Client.GetServerStatus] *)
Definition GetServerStatus (c : Client) : gmap string ServerStatusInfo :=
  foldl
    (fun status kv =>
       match objects c !! kv.2 with
       | Some server => <[kv.1 := statusOf server]> status
       | None => status
       end)
    ∅ (rt_range rt (servers c)).

(** One pass of the loop of [Client.manageConnections] over the
    discovered servers: the arguments of the calls
    [go c.reconnectToServer(addr, serverInfo)] it makes. *)
Definition manageConnections (c : Client) : list (string * ServerInfo) :=
  List.filter
    (fun kv =>
       let connected := bool_decide (is_Some (servers c !! kv.1)) in
       negb connected)
    (rt_range rt (discoveredServers c)).

End WithRuntime.

End Discovery.

(** ** Assumptions on the runtime *)

Module Ranges.

(** [for k, v := range m] visits every entry of [m] exactly once. *)
Definition faithful (rt : Runtime) : Prop :=
  forall (V : Type) (m : gmap string V), rt_range rt m ≡ₚ map_to_list m.

End Ranges.

(** ** Predicates used in the statements on the rest of the program *)

Module Statements.

(** What every return of [processBuildRequest] has in common. *)
Definition wellFormed (rt : Runtime) (request : BuildRequest) (response : BuildResponse)
    : Prop :=
  resp_ID response = req_ID request /\
  resp_Duration response = rt_Since rt /\
  (resp_Success response = true -> resp_Error response = "") /\
  (resp_Success response = false -> resp_OutputFiles response = None).

(** The file that the key [key] of a files mapping names below [dir]:
    the node that [os.WriteFile] and [os.ReadFile] reach through
    [filepath.Join(dir, filepath.FromSlash(key))]. *)
Definition target (fs : OS.FS) (dir key : string) : string :=
  OS.resolve fs (Filepath.Join dir (Filepath.FromSlash key)).

(** A call of [LogDebugf]. *)
Definition warning (format : string) (args : list string) : LogCall :=
  {| level := LogLevelDebug; message := Sprintf format args |}.

(** How [saveOutputFiles] has dealt with the entry [key ↦ encoded]:
    an entry that cannot be decoded is reported; one that can is in
    its file, unless an entry for the same file has replaced it, or
    the failure to create its directory or to write it is reported. *)
Definition handled (fs0 fs' : OS.FS) (workdir : string) (entries : list (string * string))
    (added : list LogCall) (key encoded : string) : Prop :=
  let outputPath := Filepath.Join workdir (Filepath.FromSlash key) in
  match Base64.DecodeString encoded with
  | (_, Some _) =>
      In (warning "Warning: Failed to decode file %s: %v" [key; Error CorruptInput]) added
  | (content, None) =>
      (exists key' encoded' content',
          In (key', encoded') entries /\
          Base64.DecodeString encoded' = (content', None) /\
          target fs0 workdir key' = target fs0 workdir key /\
          OS.ReadFile fs' outputPath = Ok content') \/
      (exists e,
          In (warning "Warning: Failed to create directory %s: %v"
                [Filepath.Dir outputPath; Error e]) added) \/
      (exists e,
          In (warning "Warning: Failed to write file %s: %v" [outputPath; Error e]) added)
  end.

(** A node of [fs0] is still there in [fs'], or one of the entries
    has replaced it. *)
Definition keptOrSaved (fs0 fs' : OS.FS) (workdir : string) (entries : list (string * string))
    : Prop :=
  forall p n,
    OS.nodes fs0 !! p = Some n ->
    OS.nodes fs' !! p = Some n \/
    exists key encoded content,
      In (key, encoded) entries /\ Base64.DecodeString encoded = (content, None) /\
      target fs0 workdir key = p /\
      OS.nodes fs' !! p = Some (OS.fileNode content).

(** [key ↦ value] is what [collectOutputFiles] stores for [file]. *)
Definition collected (fs : OS.FS) (projectDir : string) (outputPaths : list string)
    (file key value : string) : Prop :=
  exists rel content,
    Filepath.Rel projectDir file = Some rel /\
    key = ("./" ++ Filepath.ToSlash rel)%string /\
    Server.isOutputFileNormalized key outputPaths = true /\
    OS.ReadFile fs file = Ok content /\
    value = Base64.EncodeToString content /\
    Base64.DecodeString value = (content, None).

(** The path of a call of the walk function on a regular file. *)
Definition regular (c : OS.call) : option string :=
  match c with
  | (path, Some d, None) => if negb (OS.IsDir d) then Some path else None
  | _ => None
  end.

(** A path element that is neither [.] nor [..]: it does not start
    with a dot and holds no separator. *)
Definition plainElem (n : string) : Prop :=
  match n with
  | EmptyString => False
  | String c _ => c <> "."%char /\ Strings.containsByte n Filepath.Separator = false
  end.

(** The buffer of [Clean] after one more plain element. *)
Definition pushElem (rooted : bool) (out n : string) : string :=
  ((if (rooted && negb (String.length out =? 1)%nat)
       || (negb rooted && negb (String.length out =? 0)%nat)
    then snoc out Filepath.Separator else out) ++ n)%string.

(** The configurations that [Validate] accepts. *)
Definition portValid (port : Z) : Prop := 0 < port <= 65535.

Definition rangeValid (r : ConfigFile.NetworkRange) : Prop :=
  ConfigFile.range_Auto r = false ->
  ConfigFile.range_Subnet r <> "" /\
  1 <= ConfigFile.range_StartIP r <= 254 /\
  1 <= ConfigFile.range_EndIP r <= 254 /\
  ConfigFile.range_StartIP r <= ConfigFile.range_EndIP r.

Definition timeoutsValid (t : ConfigFile.TimeoutConfig) : Prop :=
  0 < ConfigFile.timeout_Build t /\
  0 < ConfigFile.timeout_Reconnect t /\
  0 < ConfigFile.timeout_HealthCheck t.

Definition environmentValid (env : BuildEnvironment) : Prop :=
  env_Name env <> "" /\ env_Command env <> "" /\
  env_ProjectDir env <> "" /\ env_ExecutionDir env <> "".

Definition valid (c : ConfigFile.Config) : Prop :=
  let discovery := ConfigFile.client_Discovery (ConfigFile.conf_Client c) in
  portValid (ConfigFile.server_Port (ConfigFile.conf_Server c)) /\
  0 < ConfigFile.server_Capacity (ConfigFile.conf_Server c) /\
  portValid (ConfigFile.web_Port (ConfigFile.conf_Web c)) /\
  ConfigFile.disc_Ports discovery <> [] /\
  Forall portValid (ConfigFile.disc_Ports discovery) /\
  rangeValid (ConfigFile.disc_NetworkRange discovery) /\
  timeoutsValid (ConfigFile.client_Timeouts (ConfigFile.conf_Client c)) /\
  forall name env,
    ConfigFile.build_Environments (ConfigFile.conf_Build c) !! name = Some env ->
    environmentValid env.

(** The calls of [LogInfo] and [LogInfof]. *)
Definition isInfo (call : LogCall) : bool :=
  match level call with
  | LogLevelInfo => true
  | LogLevelDebug => false
  end.

(** A byte that stands for itself in a pattern of [filepath.Match]
    and is not the separator. *)
Definition ordinary (c : ascii) : bool :=
  negb (Ascii.eqb c "*" || Ascii.eqb c "?" || Ascii.eqb c "[" || Ascii.eqb c "]"
        || Ascii.eqb c "\" || Ascii.eqb c "/").

Fixpoint allOrdinary (s : string) : bool :=
  match s with
  | EmptyString => true
  | String c s' => ordinary c && allOrdinary s'
  end.

(** An output pattern that starts with the name of a directory:
    ordinary bytes, the first of which is not a dot, and then a
    separator, as in [out/*.exe]. *)
Definition dirPattern (pattern : string) : Prop :=
  exists c dir rest,
    pattern = (String c dir ++ String Filepath.Separator rest)%string /\
    c <> "."%char /\ allOrdinary (String c dir) = true.

End Statements.

(** ** More sample configurations *)

Module Samples.

(** A compiler that reports an error and exits with status one. *)
Definition failing (cmd : Cmd) (fs : OS.FS) : OS.FS * list byte * option error :=
  (fs, list_byte_of_string "main.go:1: syntax error", Some (ExecError "exit status 1")).

Definition rtFailing : Runtime := Examples.runtimeWith failing.

(** A request without a project name. *)
Definition unnamed : BuildRequest :=
  Examples.requestWith "go build" "" "" Examples.sources.

(** The project directory of [Examples.build] once the compiler has
    run. *)
Definition builtFS : OS.FS :=
  {| OS.nodes :=
       <["/tmp/project_1/out/app.exe" := OS.fileNode (list_byte_of_string "BIN")]>
       (<["/tmp/project_1/out" := OS.dirNode]>
       (<["/tmp/project_1/main.go" := OS.fileNode (list_byte_of_string "package main")]>
       (<["/tmp/project_1" := OS.dirNode]>
       (<["/tmp" := OS.dirNode]> (<["/" := OS.dirNode]> ∅)))));
     OS.cwd := "/" |}.

Definition built : World := {| fs := builtFS; log := [] |}.

(** Output files as a worker sends them: a binary, and an entry that
    is not base64. *)
Definition artifacts : gmap string string :=
  <["./out/app.exe" := "QklO"]> (<["./broken" := "!"]> ∅).

(** A configuration that scans three hosts of a given subnet. *)
Definition manual : ConfigFile.Config :=
  {| ConfigFile.conf_Server := ConfigFile.conf_Server ConfigFile.DefaultConfig;
     ConfigFile.conf_Client :=
       {| ConfigFile.client_Discovery :=
            {| ConfigFile.disc_Ports := [8080; 9090];
               ConfigFile.disc_ScanInterval := 10 * ConfigFile.Second;
               ConfigFile.disc_ConnectTimeout := 2 * ConfigFile.Second;
               ConfigFile.disc_NetworkRange :=
                 {| ConfigFile.range_Auto := false; ConfigFile.range_Subnet := "10.0.0";
                    ConfigFile.range_StartIP := 5; ConfigFile.range_EndIP := 7 |} |};
          ConfigFile.client_Timeouts :=
            ConfigFile.client_Timeouts (ConfigFile.conf_Client ConfigFile.DefaultConfig) |};
     ConfigFile.conf_Web := ConfigFile.conf_Web ConfigFile.DefaultConfig;
     ConfigFile.conf_Build :=
       {| ConfigFile.build_Environments := <["go" := ClientExamples.goEnv]> ∅;
          ConfigFile.build_TempDir := "";
          ConfigFile.build_TempDeletion := true |};
     ConfigFile.conf_Logging := {| ConfigFile.logging_Level := "info" |} |}.

(** A rendering of durations and a YAML codec for the samples: every
    document is the empty one, which leaves a [Config] as it is. *)
Definition showSeconds (d : Z) : string := (itoa (d / ConfigFile.Second) ++ "s")%string.
Definition marshalEmpty (c : ConfigFile.Config) : result (list byte) := Ok [].
Definition unmarshalEmpty (data : list byte) (c : ConfigFile.Config) : result ConfigFile.Config :=
  Ok c.

(** A request that names its output by directory. *)
Definition byDirectory : BuildRequest :=
  {| req_ID := "1"; req_Environment := "go"; req_Command := "go build -o out/app.exe .";
     req_ProjectDir := "."; req_ExecutionDir := ""; req_OutputPaths := ["out/*.exe"];
     req_EnvVars := ∅; req_Files := Examples.sources; req_ProjectName := "project_1" |}.


End Samples.

(* ===================================================================== *)
(** * Part II. Properties                                                 *)
(* ===================================================================== *)

Module Base64Facts.
Import Base64.

Lemma u8_range b : 0 <= u8 b < 256.
Proof.
  unfold u8. pose proof (Byte.to_N_bounded b). lia.
Qed.

Lemma byte_of_Z_u8 b : byte_of_Z (u8 b) = b.
Proof.
  unfold byte_of_Z.
  pose proof (u8_range b) as Hb.
  change 255 with (Z.ones 8). rewrite Z.land_ones by lia.
  rewrite Z.mod_small by (change (2 ^ 8) with 256; lia).
  unfold u8. rewrite N2Z.id, Byte.of_to_N. reflexivity.
Qed.

End Base64Facts.

Module Base64RoundTrip.
Import Base64 Base64Facts.

(** Lists taken three elements at a time, as [Encode] takes them. *)
Lemma list_ind3 {A} (P : list A -> Prop) :
  P [] -> (forall a, P [a]) -> (forall a b, P [a; b]) ->
  (forall a b c l, P l -> P (a :: b :: c :: l)) ->
  forall l, P l.
Proof.
  intros H0 H1 H2 H3. fix IH 1.
  intros [|a [|b [|c l]]]; [apply H0 | apply H1 | apply H2 | apply H3, IH].
Qed.

Lemma decodeMap_encode d : 0 <= d < 64 -> decodeMap (encode d) = d.
Proof.
  intros Hd.
  assert (Hall : forallb (fun n => decodeMap (encode (Z.of_nat n)) =? Z.of_nat n)
                   (seq 0 64) = true) by (vm_compute; reflexivity).
  rewrite forallb_forall in Hall.
  specialize (Hall (Z.to_nat d)). rewrite Z2Nat.id in Hall by lia.
  apply Z.eqb_eq, Hall, in_seq. lia.
Qed.

Lemma mask6_range v : 0 <= Z.land v 0x3F < 64.
Proof.
  change 0x3F with (Z.ones 6). rewrite Z.land_ones by lia.
  apply Z.mod_pos_bound. reflexivity.
Qed.

Lemma decodeMap_sextet v k :
  decodeMap (sextet v k) = Z.land (Z.shiftr v k) 0x3F.
Proof. apply decodeMap_encode, mask6_range. Qed.

Lemma decodeMap_sextet_valid v k : (decodeMap (sextet v k) =? 0xFF) = false.
Proof.
  rewrite decodeMap_sextet. pose proof (mask6_range (Z.shiftr v k)).
  apply Z.eqb_neq. lia.
Qed.

(** One alphabet character advances the loop by one sextet. *)
Lemma scan_sextet v k src j dbuf :
  (j < 4)%nat ->
  scanQuantum (sextet v k :: src) j dbuf
  = scanQuantum src (S j) (dbuf ++ [Z.land (Z.shiftr v k) 0x3F]).
Proof.
  intros Hj. cbn [scanQuantum].
  replace (4 <=? j)%nat with false by (symmetry; apply Nat.leb_gt; lia).
  rewrite decodeMap_sextet_valid. cbn [negb].
  rewrite decodeMap_sextet. reflexivity.
Qed.

Lemma scan_full src dbuf : scanQuantum src 4 dbuf = ScanOk src dbuf 4 false.
Proof. destruct src; reflexivity. Qed.

Lemma as_byte v : 0 <= v < 256 -> v = Z.land v (Z.ones 8).
Proof.
  intros H. rewrite Z.land_ones by lia. rewrite Z.mod_small; [reflexivity|].
  change (2 ^ 8) with 256. lia.
Qed.

Lemma byte_of_Z_eq z b : Z.land z 255 = u8 b -> byte_of_Z z = b.
Proof.
  intros H. rewrite <- (byte_of_Z_u8 b). unfold byte_of_Z. rewrite H.
  pose proof (u8_range b) as Hb. change 255 with (Z.ones 8).
  rewrite <- (as_byte (u8 b)) by lia. reflexivity.
Qed.

(** A 24-bit value is the concatenation of its four sextets. *)
Lemma sextets_recompose v :
  Z.land v (Z.ones 24) = v ->
  Z.lor (Z.lor (Z.lor (Z.shiftl (Z.land (Z.shiftr v 18) 0x3F) 18)
                      (Z.shiftl (Z.land (Z.shiftr v 12) 0x3F) 12))
               (Z.shiftl (Z.land (Z.shiftr v 6) 0x3F) 6))
        (Z.land (Z.shiftr v 0) 0x3F) = v.
Proof.
  intros Hv. rewrite <- Hv at 5. change 0x3F with (Z.ones 6). Z.bitblast.
Qed.

Section Bits.
Variables a b c : Z.
Hypothesis Ha : 0 <= a < 256.
Hypothesis Hb : 0 <= b < 256.
Hypothesis Hc : 0 <= c < 256.

Lemma pack3_24bit : Z.land (pack3 a b c) (Z.ones 24) = pack3 a b c.
Proof.
  unfold pack3. rewrite (as_byte a Ha), (as_byte b Hb), (as_byte c Hc).
  Z.bitblast.
Qed.

Lemma pack3_byte0 : Z.land (Z.shiftr (pack3 a b c) 16) 255 = a.
Proof.
  unfold pack3. rewrite (as_byte a Ha), (as_byte b Hb), (as_byte c Hc).
  change 255 with (Z.ones 8). Z.bitblast.
Qed.

Lemma pack3_byte1 : Z.land (Z.shiftr (pack3 a b c) 8) 255 = b.
Proof.
  unfold pack3. rewrite (as_byte a Ha), (as_byte b Hb), (as_byte c Hc).
  change 255 with (Z.ones 8). Z.bitblast.
Qed.

Lemma pack3_byte2 : Z.land (Z.shiftr (pack3 a b c) 0) 255 = c.
Proof.
  unfold pack3. rewrite (as_byte a Ha), (as_byte b Hb), (as_byte c Hc).
  change 255 with (Z.ones 8). Z.bitblast.
Qed.

Lemma pack3_low8 : Z.land (pack3 a b 0) (Z.ones 8) = 0.
Proof.
  unfold pack3. rewrite (as_byte a Ha), (as_byte b Hb). Z.bitblast.
Qed.

Lemma pack3_sextet0 : Z.land (Z.shiftr (pack3 a b 0) 0) 0x3F = 0.
Proof.
  unfold pack3. rewrite (as_byte a Ha), (as_byte b Hb).
  change 0x3F with (Z.ones 6). Z.bitblast.
Qed.

Lemma pack3_sextet1 : Z.land (Z.shiftr (pack3 a 0 0) 6) 0x3F = 0.
Proof.
  unfold pack3. rewrite (as_byte a Ha).
  change 0x3F with (Z.ones 6). Z.bitblast.
Qed.

End Bits.

Lemma scan_pad1 dbuf : scanQuantum [padChar] 3 dbuf = ScanOk [] dbuf 3 false.
Proof. reflexivity. Qed.

Lemma scan_pad2 dbuf : scanQuantum [padChar; padChar] 2 dbuf = ScanOk [] dbuf 2 false.
Proof. reflexivity. Qed.

Lemma byte_zero_range : 0 <= 0 < 256.
Proof. lia. Qed.

Lemma recompose_two a b :
  0 <= a < 256 -> 0 <= b < 256 ->
  let v := Z.lor (Z.shiftl a 16) (Z.shiftl b 8) in
  Z.lor (Z.lor (Z.lor (Z.shiftl (Z.land (Z.shiftr v 18) 0x3F) 18)
                      (Z.shiftl (Z.land (Z.shiftr v 12) 0x3F) 12))
               (Z.shiftl (Z.land (Z.shiftr v 6) 0x3F) 6)) 0
  = pack3 a b 0.
Proof.
  intros Ha Hb v. assert (Hv : v = pack3 a b 0).
  { subst v. unfold pack3. rewrite Z.lor_0_r. reflexivity. }
  rewrite Hv. clear Hv v.
  etransitivity;
    [|apply sextets_recompose, pack3_24bit; [assumption .. | apply byte_zero_range]].
  rewrite pack3_sextet0 by assumption. reflexivity.
Qed.

Lemma recompose_one a :
  0 <= a < 256 ->
  let v := Z.shiftl a 16 in
  Z.lor (Z.lor (Z.lor (Z.shiftl (Z.land (Z.shiftr v 18) 0x3F) 18)
                      (Z.shiftl (Z.land (Z.shiftr v 12) 0x3F) 12))
               (Z.shiftl 0 6)) 0
  = pack3 a 0 0.
Proof.
  intros Ha v. assert (Hv : v = pack3 a 0 0).
  { subst v. unfold pack3. rewrite Z.shiftl_0_l, !Z.lor_0_r. reflexivity. }
  rewrite Hv. clear Hv v.
  etransitivity;
    [|apply sextets_recompose, pack3_24bit; [assumption | apply byte_zero_range ..]].
  rewrite pack3_sextet0 by (assumption || apply byte_zero_range).
  rewrite pack3_sextet1 by assumption. reflexivity.
Qed.

(** A full group of three bytes is read back from its four characters. *)
Lemma decodeQuantum_three s0 s1 s2 rest :
  let val := pack3 (u8 s0) (u8 s1) (u8 s2) in
  decodeQuantum (sextet val 18 :: sextet val 12 :: sextet val 6 :: sextet val 0 :: rest)
  = (rest, [s0; s1; s2], None).
Proof.
  intros val. unfold decodeQuantum.
  rewrite !scan_sextet by lia. rewrite scan_full. cbn [app nth].
  pose proof (u8_range s0) as H0. pose proof (u8_range s1) as H1.
  pose proof (u8_range s2) as H2.
  rewrite sextets_recompose by (apply pack3_24bit; assumption).
  cbn [Nat.sub firstn]. subst val.
  rewrite (byte_of_Z_eq _ s0) by (apply pack3_byte0; assumption).
  rewrite (byte_of_Z_eq _ s1) by (apply pack3_byte1; assumption).
  rewrite (byte_of_Z_eq _ s2) by (apply pack3_byte2; assumption).
  reflexivity.
Qed.

(** A final group of two bytes, padded with one [=]. *)
Lemma decodeQuantum_two s0 s1 :
  let val := Z.lor (Z.shiftl (u8 s0) 16) (Z.shiftl (u8 s1) 8) in
  decodeQuantum [sextet val 18; sextet val 12; sextet val 6; padChar]
  = ([], [s0; s1], None).
Proof.
  intros val. unfold decodeQuantum.
  rewrite !scan_sextet by lia. rewrite scan_pad1. cbn [app nth].
  pose proof (u8_range s0) as H0. pose proof (u8_range s1) as H1.
  subst val. rewrite (recompose_two (u8 s0) (u8 s1) H0 H1).
  cbn [Nat.sub firstn].
  rewrite (byte_of_Z_eq _ s0) by (apply pack3_byte0; (assumption || lia)).
  rewrite (byte_of_Z_eq _ s1) by (apply pack3_byte1; (assumption || lia)).
  reflexivity.
Qed.

(** A final group of one byte, padded with two [=]. *)
Lemma decodeQuantum_one s0 :
  let val := Z.shiftl (u8 s0) 16 in
  decodeQuantum [sextet val 18; sextet val 12; padChar; padChar]
  = ([], [s0], None).
Proof.
  intros val. unfold decodeQuantum.
  rewrite !scan_sextet by lia. rewrite scan_pad2. cbn [app nth].
  pose proof (u8_range s0) as H0.
  subst val. rewrite (recompose_one (u8 s0) H0).
  cbn [Nat.sub firstn].
  rewrite (byte_of_Z_eq _ s0) by (apply pack3_byte0; (assumption || lia)).
  reflexivity.
Qed.

Lemma Encode_length_3 s0 s1 s2 rest :
  List.length (Encode (s0 :: s1 :: s2 :: rest)) = (4 + List.length (Encode rest))%nat.
Proof. reflexivity. Qed.

Lemma decodeLoop_Encode B :
  forall fuel, (List.length (Encode B) < fuel)%nat -> decodeLoop fuel (Encode B) = (B, None).
Proof.
  induction B as [|s0|s0 s1|s0 s1 s2 rest IH] using list_ind3; intros fuel Hfuel.
  - destruct fuel; reflexivity.
  - destruct fuel as [|fuel]; [cbn in Hfuel; lia|].
    cbn [Encode decodeLoop]. rewrite decodeQuantum_one.
    destruct fuel; reflexivity.
  - destruct fuel as [|fuel]; [cbn in Hfuel; lia|].
    cbn [Encode decodeLoop]. rewrite decodeQuantum_two.
    destruct fuel; reflexivity.
  - rewrite Encode_length_3 in Hfuel.
    destruct fuel as [|fuel]; [lia|].
    cbn [Encode decodeLoop]. rewrite decodeQuantum_three.
    rewrite IH by lia. reflexivity.
Qed.

(** C4. Round trip of the artifact transport encoding: whatever bytes
    [B] the worker encodes with [base64.StdEncoding.EncodeToString] in
    [collectOutputFiles], the coordinator's
    [base64.StdEncoding.DecodeString] in [saveOutputFiles] returns
    exactly [B] and no error. *)
Theorem base64_round_trip :
  forall B : list byte,
    DecodeString (EncodeToString B) = (B, None).
Proof.
  intros B. unfold DecodeString, EncodeToString.
  rewrite list_ascii_of_string_of_list_ascii.
  apply decodeLoop_Encode.
  rewrite <- (list_ascii_of_string_of_list_ascii (Encode B)) at 1.
  assert (Hlen : forall s, List.length (list_ascii_of_string s) = String.length s).
  { induction s as [|c s IHs]; [reflexivity|]. cbn. rewrite IHs. reflexivity. }
  rewrite Hlen. lia.
Qed.

End Base64RoundTrip.

(** ** Output patterns *)

Module OutputPatterns.
Import Server Spec.

Lemma matched_no_error_iff (r : bool * option Filepath.error) :
  ((if r.2 is None then true else false) && r.1 = true) <-> r = (true, None).
Proof.
  destruct r as [[|] [e|]]; cbn; split; intros H; try discriminate H; reflexivity.
Qed.

Lemma matchesAny_iff normalizedPath outputPaths :
  matchesAny normalizedPath outputPaths = true <->
  exists pattern, In pattern outputPaths /\ accepts pattern normalizedPath.
Proof.
  induction outputPaths as [|pattern rest IH]; cbn [matchesAny].
  - split; [discriminate | intros (p & [] & _)].
  - unfold accepts, Filepath.matches in *.
    destruct (Filepath.Match (Filepath.ToSlash pattern) normalizedPath)
      as [matched err] eqn:E1.
    destruct (Filepath.Match (Filepath.ToSlash pattern) (Filepath.Base normalizedPath))
      as [matched' err'] eqn:E2.
    pose proof (matched_no_error_iff (matched, err)) as H1.
    pose proof (matched_no_error_iff (matched', err')) as H2.
    cbn [fst snd] in H1, H2.
    destruct ((if err is None then true else false) && matched) eqn:B1.
    { split; [intros _ | reflexivity].
      exists pattern. split; [left; reflexivity | left; rewrite E1; apply H1; reflexivity]. }
    destruct ((if err' is None then true else false) && matched') eqn:B2.
    { split; [intros _ | reflexivity].
      exists pattern. split; [left; reflexivity | right; rewrite E2; apply H2; reflexivity]. }
    rewrite IH. split.
    + intros (p & Hin & Hp). exists p. split; [right; exact Hin | exact Hp].
    + intros (p & [<- | Hin] & Hp).
      * destruct Hp as [Hp | Hp].
        -- rewrite E1 in Hp. apply H1 in Hp. discriminate Hp.
        -- rewrite E2 in Hp. apply H2 in Hp. discriminate Hp.
      * exists p. split; assumption.
Qed.

(** C3. [isOutputFileNormalized]: the empty pattern list accepts every
    path; a non-empty list accepts a path exactly when the path or its
    base name matches one of the patterns ([filepath.Match] reports a
    match without error). In particular [*.exe] accepts
    [./build/app.exe] and [./app.exe] and rejects [./app.exe.bak]. *)
Theorem isOutputFileNormalized_spec :
  (forall normalizedPath, isOutputFileNormalized normalizedPath [] = true) /\
  (forall normalizedPath pattern patterns,
      isOutputFileNormalized normalizedPath (pattern :: patterns) = true <->
      exists p, In p (pattern :: patterns) /\ accepts p normalizedPath) /\
  isOutputFileNormalized "./build/app.exe" ["*.exe"] = true /\
  isOutputFileNormalized "./app.exe" ["*.exe"] = true /\
  isOutputFileNormalized "./app.exe.bak" ["*.exe"] = false.
Proof.
  split; [reflexivity|]. split; [|repeat split; vm_compute; reflexivity].
  intros normalizedPath pattern patterns.
  unfold isOutputFileNormalized. cbn [List.length Nat.eqb].
  apply matchesAny_iff.
Qed.

End OutputPatterns.

(** ** The worker: job errors *)

Module ServerFacts.
Import Server Spec.

Ltac unfold_monad :=
  unfold mbind, M_bind, mret, M_ret, onFS, readFS, LogDebugf, LogInfof in *.

Lemma fieldsASCII_spaces s :
  Forall (fun c => Strings.asciiSpace c = true) (list_ascii_of_string s) ->
  Strings.fieldsASCII s None = [].
Proof.
  induction s as [|c s IH]; cbn; intros H; [reflexivity|].
  inversion H as [|? ? Hc Hs]; subst. rewrite Hc. cbn. apply IH, Hs.
Qed.

Lemma asciiSpace_is_ASCII c :
  Strings.asciiSpace c = true -> (Utf8.RuneSelf <=? code c) = false.
Proof.
  unfold Strings.asciiSpace, Utf8.RuneSelf. intros H.
  apply Z.leb_gt.
  repeat (apply orb_true_iff in H; destruct H as [H | H]);
    apply Z.eqb_eq in H; rewrite H; reflexivity.
Qed.

(** A command that is empty or consists of ASCII white space only
    has no fields. *)
Lemma Fields_spaces s :
  Forall (fun c => Strings.asciiSpace c = true) (list_ascii_of_string s) ->
  Strings.Fields s = [].
Proof.
  intros H. unfold Strings.Fields.
  replace (Strings.hasNonASCII s) with false; [apply fieldsASCII_spaces, H|].
  symmetry. induction s as [|c s IH]; cbn; [reflexivity|].
  inversion H as [|? ? Hc Hs]; subst.
  rewrite (asciiSpace_is_ASCII c Hc). apply IH, Hs.
Qed.

Section WithRuntime.
Variable rt : Runtime.
Variable globalConfig : Config.

Lemma buildCommand_empty request projectDir w :
  Strings.Fields (req_Command request) = [] ->
  buildCommand rt request projectDir w = (w, Err (Errorf "empty command in build request")).
Proof. intros H. unfold buildCommand. rewrite H. reflexivity. Qed.

Lemma buildIn_empty request projectDir response w :
  Strings.Fields (req_Command request) = [] ->
  resp_ID response = req_ID request ->
  jobFailed request (buildIn rt request projectDir response w).2.
Proof.
  intros Hcmd Hid. unfold buildIn. unfold_monad.
  destruct (writeProjectFiles rt projectDir (req_Files request) w) as [w1 [e|]].
  - cbn. repeat split; [exact Hid | discriminate].
  - rewrite buildCommand_empty by exact Hcmd. cbn.
    repeat split; [exact Hid | discriminate].
Qed.

Lemma processBuildRequest_empty request w :
  Strings.Fields (req_Command request) = [] ->
  jobFailed request (processBuildRequest rt globalConfig request w).2.
Proof.
  intros Hcmd. unfold processBuildRequest. unfold_monad.
  destruct (createProjectDirectory rt globalConfig request w) as [w1 [projectDir|e]].
  - match goal with
    | |- context [buildIn rt request projectDir ?r w1] =>
        pose proof (buildIn_empty request projectDir r w1 Hcmd eq_refl) as H;
        destruct (buildIn rt request projectDir r w1) as [w2 response]
    end.
    destruct (cfg_TempDeletion globalConfig); exact H.
  - cbn. repeat split. discriminate.
Qed.

(** C6. A request whose command has no white-space separated token
    fails as a job: [processBuildRequest] answers with the request's
    id, [success = false] and a non-empty error. The connection is not
    affected: if the transport accepts the response, the loop of
    [handleClientConnection] writes it and serves the remaining
    requests of the same connection. *)
Theorem empty_command_fails_job_only :
  forall request : BuildRequest,
    Strings.Fields (req_Command request) = [] ->
    (forall w, jobFailed request (processBuildRequest rt globalConfig request w).2) /\
    (forall clientAddr rest conn w,
        writesLeft conn <> Some O ->
        exists w1 w2 response conn',
          LogDebugf "Received build request %s for %s from %s"
            [req_ID request; req_Environment request; clientAddr] w = (w1, tt) /\
          processBuildRequest rt globalConfig request w1 = (w2, response) /\
          jobFailed request response /\
          Encode conn (MsgResponse response) = (conn', None) /\
          outbox conn' = outbox conn ++ [MsgResponse response] /\
          closed conn' = closed conn /\
          serve rt globalConfig clientAddr (request :: rest) conn w
          = serve rt globalConfig clientAddr rest conn' w2).
Proof.
  intros request Hcmd. split; [intros w; apply processBuildRequest_empty, Hcmd|].
  intros clientAddr rest conn w Hwrites.
  destruct (LogDebugf "Received build request %s for %s from %s"
              [req_ID request; req_Environment request; clientAddr] w) as [w1 []] eqn:Hlog.
  destruct (processBuildRequest rt globalConfig request w1) as [w2 response] eqn:Hrun.
  destruct (Encode conn (MsgResponse response)) as [conn' err] eqn:Henc.
  assert (Hsent : err = None /\ outbox conn' = outbox conn ++ [MsgResponse response]
                  /\ closed conn' = closed conn).
  { unfold Encode in Henc. destruct (writesLeft conn) as [[|n]|]; try congruence;
      injection Henc as <- <-; cbn; auto. }
  destruct Hsent as (-> & Hout & Hclosed).
  exists w1, w2, response, conn'. repeat split; try assumption.
  - pose proof (processBuildRequest_empty request w1 Hcmd) as H.
    rewrite Hrun in H. apply H.
  - pose proof (processBuildRequest_empty request w1 Hcmd) as H.
    rewrite Hrun in H. apply H.
  - pose proof (processBuildRequest_empty request w1 Hcmd) as H.
    rewrite Hrun in H. apply H.
  - cbn [serve]. unfold mbind at 1 2, M_bind. rewrite Hlog. rewrite Hrun.
    rewrite Henc. reflexivity.
Qed.





(** C10. When the build command exits with status zero the response
    says [success = true] whatever the collection of the output
    files does: if [collectOutputFiles] fails, the failure is passed to
    [LogDebugf] and the response carries no output files (the nil
    map) and no error text. *)
Theorem collection_failure_is_not_job_failure :
  forall request w w1 w2 w3 w4 w5 projectDir cmd output err,
    createProjectDirectory rt globalConfig request w = (w1, Ok projectDir) ->
    writeProjectFiles rt projectDir (req_Files request) w1 = (w2, None) ->
    buildCommand rt request projectDir w2 = (w3, Ok cmd) ->
    CombinedOutput rt cmd w3 = (w4, (output, None)) ->
    collectOutputFiles projectDir request w4 = (w5, Err err) ->
    exists w',
      processBuildRequest rt globalConfig request w
      = (w', {| resp_ID := req_ID request; resp_Success := true;
                resp_Output := string_of_list_byte output; resp_Error := "";
                resp_Duration := rt_Since rt; resp_OutputFiles := None |}) /\
      In {| level := LogLevelDebug;
            message := Sprintf "Warning: Failed to collect output files: %v" [Error err] |}
         (log w').
Proof.
  intros request w w1 w2 w3 w4 w5 projectDir cmd output err Hdir Hwrite Hcmd Hrun Hcollect.
  unfold processBuildRequest, buildIn.
  unfold mbind at 1, M_bind at 1. rewrite Hdir.
  unfold mbind at 1, M_bind at 1. unfold mbind at 1, M_bind at 1. rewrite Hwrite.
  unfold mbind at 1, M_bind at 1. rewrite Hcmd.
  unfold mbind at 1, M_bind at 1. rewrite Hrun. cbn [fst snd].
  unfold mbind at 1, M_bind at 1. unfold mbind at 1, M_bind at 1. rewrite Hcollect.
  unfold_monad. cbn.
  destruct (cfg_TempDeletion globalConfig); cbn;
    (eexists; split; [reflexivity|]); cbn;
    rewrite !in_app_iff; cbn; tauto.
Qed.

End WithRuntime.

(** C9. Materialized files are not confined to the sandbox. The file
    key [../../etc/evil] of the request [Examples.climbing] is written
    to [/etc/evil], outside the project directory [/tmp/project_1],
    after [/etc] has been created; both are still there when the job
    has returned and the project directory has been removed. A project
    name [../outside] puts the project directory itself outside the
    temporary directory [/tmp]. *)
Theorem materialized_files_escape_sandbox :
  let request := Examples.climbing in
  let before := Examples.w0 in
  let sandbox := Filepath.Join (GetTempDir Examples.rt0 Examples.cfg0) (req_ProjectName request) in
  let written := (writeProjectFiles Examples.rt0 sandbox (req_Files request) before).1 in
  let after := (processBuildRequest Examples.rt0 Examples.cfg0 request before).1 in
  req_Files request !! "../../etc/evil" = Some "boom" /\
  sandbox = "/tmp/project_1" /\
  OS.under sandbox "/etc/evil" = false /\
  OS.nodes (fs before) !! "/etc" = None /\
  OS.nodes (fs before) !! "/etc/evil" = None /\
  OS.ReadFile (fs written) "/etc/evil" = Ok (list_byte_of_string "boom") /\
  OS.Stat (fs written) "/etc" = Ok OS.dirNode /\
  OS.ReadFile (fs after) "/etc/evil" = Ok (list_byte_of_string "boom") /\
  OS.nodes (fs after) !! sandbox = None /\
  (createProjectDirectory Examples.rt0 Examples.cfg0 Examples.misnamed before).2 = Ok "/outside" /\
  OS.under (GetTempDir Examples.rt0 Examples.cfg0) "/outside" = false.
Proof. repeat split; vm_compute; reflexivity. Qed.

Lemma empty_command_witness :
  Strings.Fields (req_Command Examples.blank) = [] /\
  jobFailed Examples.blank
    (processBuildRequest Examples.rt0 Examples.cfg0 Examples.blank Examples.w0).2.
Proof.
  assert (H : Strings.Fields (req_Command Examples.blank) = []) by (vm_compute; reflexivity).
  split; [exact H|].
  apply (proj1 (empty_command_fails_job_only Examples.rt0 Examples.cfg0 Examples.blank H)).
Defined.


Lemma collection_failure_witness :
  let rt := Examples.rtCleaner in
  let cfg := Examples.cfg0 in
  let request := Examples.build in
  let projectDir := "/tmp/project_1" in
  let r1 := createProjectDirectory rt cfg request Examples.w0 in
  let r2 := writeProjectFiles rt projectDir (req_Files request) r1.1 in
  let r3 := buildCommand rt request projectDir r2.1 in
  let cmd := {| cmd_Path := "go"; cmd_Args := ["go"; "build"; "-o"; "out/app.exe"; "."];
                cmd_Dir := projectDir; cmd_Env := None |} in
  let r4 := CombinedOutput rt cmd r3.1 in
  let r5 := collectOutputFiles projectDir request r4.1 in
  r1.2 = Ok projectDir /\ r2.2 = None /\ r3.2 = Ok cmd /\
  r4.2 = (list_byte_of_string "cleaned", None) /\
  r5.2 = Err (PathError "stat" projectDir ENOENT) /\
  exists w',
    processBuildRequest rt cfg request Examples.w0
    = (w', {| resp_ID := "1"; resp_Success := true; resp_Output := "cleaned";
              resp_Error := ""; resp_Duration := 5; resp_OutputFiles := None |}) /\
    In {| level := LogLevelDebug;
          message := "Warning: Failed to collect output files: stat /tmp/project_1: no such file or directory" |}
       (log w').
Proof.
  intros rt cfg request projectDir r1 r2 r3 cmd r4 r5.
  assert (H1 : r1 = (r1.1, Ok projectDir)) by (vm_compute; reflexivity).
  assert (H2 : r2 = (r2.1, None)) by (vm_compute; reflexivity).
  assert (H3 : r3 = (r3.1, Ok cmd)) by (vm_compute; reflexivity).
  assert (H4 : r4 = (r4.1, (list_byte_of_string "cleaned", None))) by (vm_compute; reflexivity).
  assert (H5 : r5 = (r5.1, Err (PathError "stat" projectDir ENOENT)))
    by (vm_compute; reflexivity).
  split; [rewrite H1; reflexivity|]. split; [rewrite H2; reflexivity|].
  split; [rewrite H3; reflexivity|]. split; [rewrite H4; reflexivity|].
  split; [rewrite H5; reflexivity|].
  exact (collection_failure_is_not_job_failure rt cfg request Examples.w0
           r1.1 r2.1 r3.1 r4.1 r5.1 projectDir cmd (list_byte_of_string "cleaned")
           (PathError "stat" projectDir ENOENT) H1 H2 H3 H4 H5).
Defined.


End ServerFacts.

(** ** The coordinator: submission *)

Module ClientFacts.
Import Client Spec.
Import ServerFacts.

Lemma pointees_lookup c entries server sc :
  In (server, sc) (pointees c entries) -> objects c !! server = Some sc.
Proof.
  intros Hin. apply list_elem_of_In in Hin. unfold pointees in Hin.
  apply list_elem_of_omap in Hin as (kv & _ & Hkv).
  destruct (objects c !! kv.2) as [sc'|] eqn:E; [|discriminate Hkv].
  cbn in Hkv. injection Hkv as <- <-. exact E.
Qed.

Section WithRuntime.
Variable rt : Runtime.
Variable globalConfig : Config.

(** The server that [findAvailableServer] returns is a live object
    whose busy flag is clear. *)
Lemma findAvailableServer_idle c server sc :
  findAvailableServer rt c = Some (server, sc) ->
  objects c !! server = Some sc /\ busy sc = false.
Proof.
  unfold findAvailableServer. intros H. apply find_some in H as [Hin Hidle].
  split; [eapply pointees_lookup, Hin|].
  cbn in Hidle. destruct (busy sc); [discriminate Hidle | reflexivity].
Qed.

Lemma findServerByAddress_live c serverAddr server sc :
  findServerByAddress rt c serverAddr = Some (server, sc) ->
  objects c !! server = Some sc.
Proof.
  unfold findServerByAddress. intros H. apply find_some in H as [Hin _].
  eapply pointees_lookup, Hin.
Qed.

Lemma version_differs v : v <> Version -> negb (String.eqb v Version) = true.
Proof. intros H. destruct (String.eqb_spec v Version); [contradiction | reflexivity]. Qed.

Lemma version_same v : v = Version -> negb (String.eqb v Version) = false.
Proof. intros ->. rewrite String.eqb_refl. reflexivity. Qed.

(** C2. Version gate. A submission, in either mode, whose target
    advertises a version other than [Version] returns the version
    mismatch error and the very [Client] it was called on: no request
    is written, no slot is registered, no busy flag is touched. At
    discovery a mismatch only adds a call of [LogDebugf]: the worker is
    recorded as discovered and [handleServerConnection] is started,
    which registers the connection under its address, not busy. *)
Theorem version_gate :
  (forall c random environment projectDir w w1 files env server sc,
      readProjectFiles rt projectDir w = (w1, Ok files) ->
      GetBuildEnvironment globalConfig environment = Some env ->
      findAvailableServer rt c = Some (server, sc) ->
      info_Version (info sc) <> Version ->
      SubmitBuild_send rt globalConfig c random environment projectDir w
      = (w1, (c, Rejected (versionMismatch sc)))) /\
  (forall c random environment projectDir serverAddr w w1 files env server sc,
      GetBuildEnvironment globalConfig environment = Some env ->
      readProjectFiles rt projectDir w = (w1, Ok files) ->
      findServerByAddress rt c serverAddr = Some (server, sc) ->
      info_Version (info sc) <> Version ->
      SubmitBuildToServer_send rt globalConfig c random environment projectDir serverAddr w
      = (w1, (c, Rejected (versionMismatch sc)))) /\
  (forall c ip port k serverInfo w,
      let addr := Sprintf "%s:%d" [ip; itoa port] in
      servers c !! addr = None ->
      Strings.HasPrefix (info_ID serverInfo) "server-" = true ->
      info_Version serverInfo <> Version ->
      exists w1,
        tryConnectToServer c ip port (Handshake k (Ok serverInfo)) w
        = (w1, (setDiscovered c (<[addr := serverInfo]> (discoveredServers c)),
                Some (k, serverInfo, addr))) /\
        fs w1 = fs w /\
        In {| level := LogLevelDebug;
              message := Sprintf "WARNING: Version mismatch with server %s! Client: %s, Server: %s"
                           [info_ID serverInfo; Version; info_Version serverInfo] |} (log w1) /\
        (forall c' w', exists w2 c'' serverConn,
            register c' k serverInfo addr w' = (w2, (c'', serverConn)) /\
            servers c'' !! addr = Some serverConn /\
            objects c'' !! serverConn
            = Some {| info := serverInfo; conn := k; busy := false |})).
Proof.
  split; [|split].
  - intros c random environment projectDir w w1 files env server sc Hread Henv Hfind Hver.
    unfold SubmitBuild_send. unfold mbind, M_bind. rewrite Hread, Henv, Hfind.
    rewrite (version_differs _ Hver). reflexivity.
  - intros c random environment projectDir serverAddr w w1 files env server sc
      Henv Hread Hfind Hver.
    unfold SubmitBuildToServer_send. rewrite Henv. unfold mbind, M_bind.
    rewrite Hread, Hfind. rewrite (version_differs _ Hver). reflexivity.
  - intros c ip port k serverInfo w addr Hnew Hprefix Hver.
    unfold tryConnectToServer. fold addr. rewrite Hnew.
    rewrite bool_decide_eq_false_2 by (intros [? ?]; discriminate).
    rewrite Hprefix. cbn [negb]. rewrite (version_differs _ Hver).
    unfold_monad. cbn. eexists. split; [reflexivity|]. split; [reflexivity|].
    split; [cbn; rewrite !in_app_iff; cbn; tauto|].
    intros c' w'. unfold register, newObject. unfold_monad. cbn.
    do 3 eexists. split; [reflexivity|]. cbn.
    rewrite !lookup_insert_eq. split; reflexivity.
Qed.

Lemma send_fails c server sc request :
  objects c !! server = Some sc ->
  writesLeft (conn sc) = Some O ->
  send c server request = (c, Some (NetError "write: broken pipe")).
Proof.
  intros Hobj Hw. unfold send, Encode. rewrite Hobj, Hw.
  f_equal. destruct c as [objs ? ? ? ?]. unfold setObjects. cbn in *. f_equal.
  apply insert_id. rewrite Hobj. f_equal. destruct sc; reflexivity.
Qed.

Lemma markBusy_objects c server sc b :
  objects c !! server = Some sc ->
  objects (markBusy c server b) = <[server := setBusy sc b]> (objects c).
Proof.
  intros H. unfold markBusy. cbn.
  apply (alter_alt_Some (fun x => setBusy x b)), H.
Qed.

(** Setting and clearing the busy flag of an idle server, with a slot
    registered and removed in between, gives back the coordinator, but
    for the channel that was made. *)
Lemma mark_unmark c server sc buildID :
  objects c !! server = Some sc ->
  busy sc = false ->
  pendingBuilds c !! buildID = None ->
  forall c1,
    objects c1 = <[server := setBusy sc true]> (objects c) ->
    servers c1 = servers c ->
    pendingBuilds c1 = <[buildID := (makeChan c).2]> (pendingBuilds c) ->
    discoveredServers c1 = discoveredServers c ->
    restored c
      (setPending (markBusy c1 server false) (delete buildID (pendingBuilds (markBusy c1 server false)))).
Proof.
  intros Hobj Hidle Hfresh c1 H1 H2 H3 H4. unfold restored. cbn.
  rewrite H1, H2, H3, H4. repeat split.
  - rewrite alter_insert_eq. apply insert_id.
    rewrite Hobj. f_equal. destruct sc as [i k b]. cbn in *. subst b. reflexivity.
  - apply delete_insert_id, Hfresh.
Qed.

(** C5. Send failure. If the transport refuses the request, the
    submission (either mode) clears the busy flag it had set, removes
    the slot it had registered and returns the transport error at
    once, the request not being written again: the servers, their
    busy flags and connections, and the pending map are as before
    the call. The correlation id is fresh, as [generateID] is taken
    to deliver it. *)
Theorem send_failure_restores :
  (forall c random environment projectDir w w1 files env server sc,
      readProjectFiles rt projectDir w = (w1, Ok files) ->
      GetBuildEnvironment globalConfig environment = Some env ->
      findAvailableServer rt c = Some (server, sc) ->
      info_Version (info sc) = Version ->
      writesLeft (conn sc) = Some O ->
      pendingBuilds c !! generateID random = None ->
      exists c',
        SubmitBuild_send rt globalConfig c random environment projectDir w
        = (w1, (c', Rejected (Errorf (Sprintf "failed to send build request: %v"
                                        [Error (NetError "write: broken pipe")])))) /\
        restored c c') /\
  (forall c random environment projectDir serverAddr w w1 files env server sc,
      GetBuildEnvironment globalConfig environment = Some env ->
      readProjectFiles rt projectDir w = (w1, Ok files) ->
      findServerByAddress rt c serverAddr = Some (server, sc) ->
      info_Version (info sc) = Version ->
      busy sc = false ->
      writesLeft (conn sc) = Some O ->
      pendingBuilds c !! generateID random = None ->
      exists c',
        SubmitBuildToServer_send rt globalConfig c random environment projectDir serverAddr w
        = (w1, (c', Rejected (Errorf (Sprintf "failed to send build request to %s: %v"
                                        [serverAddr; Error (NetError "write: broken pipe")])))) /\
        restored c c').
Proof.
  split.
  - intros c random environment projectDir w w1 files env server sc
      Hread Henv Hfind Hver Hbroken Hfresh.
    destruct (findAvailableServer_idle _ _ _ Hfind) as [Hobj Hidle].
    unfold SubmitBuild_send. unfold mbind, M_bind. rewrite Hread, Henv, Hfind.
    rewrite (version_same _ Hver). cbn [makeChan].
    set (c1 := markBusy _ server true).
    assert (Hobj1 : objects c1 !! server = Some (setBusy sc true)).
    { subst c1. cbn. rewrite lookup_alter_eq, Hobj. reflexivity. }
    rewrite (send_fails c1 server (setBusy sc true)) by (assumption || exact Hbroken).
    unfold mret, M_ret. eexists. split; [reflexivity|].
    apply (mark_unmark c server sc (generateID random) Hobj Hidle Hfresh c1);
      subst c1; cbn; try reflexivity.
    apply (alter_alt_Some (fun x => setBusy x true)), Hobj.
  - intros c random environment projectDir serverAddr w w1 files env server sc
      Henv Hread Hfind Hver Hidle Hbroken Hfresh.
    pose proof (findServerByAddress_live _ _ _ _ Hfind) as Hobj.
    unfold SubmitBuildToServer_send. rewrite Henv. unfold mbind, M_bind.
    rewrite Hread, Hfind. rewrite (version_same _ Hver). rewrite Hidle. cbn [makeChan].
    set (c1 := setPending _ _).
    assert (Hobj1 : objects c1 !! server = Some (setBusy sc true)).
    { subst c1. cbn. rewrite lookup_alter_eq, Hobj. reflexivity. }
    rewrite (send_fails c1 server (setBusy sc true)) by (assumption || exact Hbroken).
    unfold mret, M_ret. eexists. split; [reflexivity|].
    apply (mark_unmark c server sc (generateID random) Hobj Hidle Hfresh c1);
      subst c1; cbn; try reflexivity.
    apply (alter_alt_Some (fun x => setBusy x true)), Hobj.
Qed.

End WithRuntime.

Lemma version_gate_witness :
  let rt := Examples.rt0 in
  let cfg := ClientExamples.cfg in
  let c := ClientExamples.outdated in
  let sc := {| info := ClientExamples.workerInfo "0.9.0"; conn := ClientExamples.link None;
               busy := false |} in
  let read := readProjectFiles rt "/src" ClientExamples.w in
  read.2 = Ok (<["lib/util.go" := "package lib"]> (<["main.go" := "package main"]> ∅)) /\
  GetBuildEnvironment cfg "go" = Some ClientExamples.goEnv /\
  findAvailableServer rt c = Some (0%nat, sc) /\
  info_Version (info sc) <> Version /\
  SubmitBuild_send rt cfg c ClientExamples.random "go" "/src" ClientExamples.w
  = (read.1, (c, Rejected (versionMismatch sc))).
Proof.
  intros rt cfg c sc read.
  assert (H1 : read = (read.1, Ok (<["lib/util.go" := "package lib"]>
                                     (<["main.go" := "package main"]> ∅))))
    by (vm_compute; reflexivity).
  assert (H2 : GetBuildEnvironment cfg "go" = Some ClientExamples.goEnv)
    by (vm_compute; reflexivity).
  assert (H3 : findAvailableServer rt c = Some (0%nat, sc)) by (vm_compute; reflexivity).
  assert (H4 : info_Version (info sc) <> Version) by (vm_compute; discriminate).
  split; [rewrite H1; reflexivity|]. repeat (split; [assumption|]).
  exact (proj1 (version_gate rt cfg) c ClientExamples.random "go" "/src" ClientExamples.w
           read.1 _ _ _ _ H1 H2 H3 H4).
Defined.

Lemma send_failure_witness :
  let rt := Examples.rt0 in
  let cfg := ClientExamples.cfg in
  let c := ClientExamples.broken in
  let sc := {| info := ClientExamples.workerInfo Version; conn := ClientExamples.link (Some O);
               busy := false |} in
  let read := readProjectFiles rt "/src" ClientExamples.w in
  read.2 = Ok (<["lib/util.go" := "package lib"]> (<["main.go" := "package main"]> ∅)) /\
  GetBuildEnvironment cfg "go" = Some ClientExamples.goEnv /\
  findAvailableServer rt c = Some (0%nat, sc) /\
  info_Version (info sc) = Version /\
  writesLeft (conn sc) = Some O /\
  pendingBuilds c !! generateID ClientExamples.random = None /\
  exists c',
    SubmitBuild_send rt cfg c ClientExamples.random "go" "/src" ClientExamples.w
    = (read.1, (c', Rejected (Errorf "failed to send build request: write: broken pipe"))) /\
    restored c c'.
Proof.
  intros rt cfg c sc read.
  assert (H1 : read = (read.1, Ok (<["lib/util.go" := "package lib"]>
                                     (<["main.go" := "package main"]> ∅))))
    by (vm_compute; reflexivity).
  assert (H2 : GetBuildEnvironment cfg "go" = Some ClientExamples.goEnv)
    by (vm_compute; reflexivity).
  assert (H3 : findAvailableServer rt c = Some (0%nat, sc)) by (vm_compute; reflexivity).
  assert (H4 : info_Version (info sc) = Version) by reflexivity.
  assert (H5 : writesLeft (conn sc) = Some O) by reflexivity.
  assert (H6 : pendingBuilds c !! generateID ClientExamples.random = None)
    by (vm_compute; reflexivity).
  split; [rewrite H1; reflexivity|]. repeat (split; [assumption|]).
  exact (proj1 (send_failure_restores rt cfg) c ClientExamples.random "go" "/src"
           ClientExamples.w read.1 _ _ _ _ H1 H2 H3 H4 H5 H6).
Defined.

End ClientFacts.

(** ** Walking a directory tree *)

Module WalkFacts.

Lemma foldCalls_app {S} (fn : OS.WalkDirFunc (S := S)) l1 l2 s :
  OS.foldCalls fn (l1 ++ l2) s
  = let '(s', r) := OS.foldCalls fn l1 s in
    match r with
    | Some e => (s', Some e)
    | None => OS.foldCalls fn l2 s'
    end.
Proof.
  revert s. induction l1 as [|[[path d] err] l1 IH]; intros s; cbn; [reflexivity|].
  destruct (fn path d err s) as [s' [e|]]; [reflexivity | apply IH].
Qed.

Lemma walkDir_foldCalls {S} fs (fn : OS.WalkDirFunc (S := S)) fuel :
  forall path d s,
    OS.walkDir fs fn fuel path d s = OS.foldCalls fn (OS.walkCalls fs fuel path d) s.
Proof.
  induction fuel as [|fuel IH]; intros path d s; [reflexivity|].
  cbn [OS.walkDir OS.walkCalls OS.foldCalls].
  destruct (fn path (Some d) None s) as [s1 [e|]]; [reflexivity|].
  destruct (OS.IsDir d); cbn [negb]; [|reflexivity].
  destruct (OS.ReadDir fs path) as [dirs|e].
  - revert s1. induction dirs as [|d1 dirs IHdirs]; intros s1; [reflexivity|].
    cbn [flat_map]. rewrite foldCalls_app, <- IH.
    destruct (OS.walkDir fs fn fuel (Filepath.Join path (OS.Name d1)) d1 s1) as [s2 [e|]];
      [reflexivity | apply IHdirs].
  - cbn [OS.foldCalls]. destruct (fn path (Some d) (Some e) s1) as [s2 [e2|]]; reflexivity.
Qed.

(** [WalkDir] applies the walk function to the calls of the walk, in
    order, and stops at the first error. *)
Lemma WalkDir_foldCalls {S} fs (fn : OS.WalkDirFunc (S := S)) root s :
  OS.WalkDir fs fn root s = OS.foldCalls fn (OS.WalkCalls fs root) s.
Proof.
  unfold OS.WalkDir, OS.WalkCalls. destruct (OS.Stat fs root) as [info|e].
  - apply walkDir_foldCalls.
  - cbn. destruct (fn root None (Some e) s) as [s' [e'|]]; reflexivity.
Qed.

End WalkFacts.

(** ** The coordinator: reading the project tree *)

Module ReadProjectFacts.
Import Client Spec.
Import WalkFacts.

Section WithRuntime.
Variable rt : Runtime.
Variable fs : OS.FS.
Variable workdir : string.

Lemma skipped_extension path :
  In (Strings.ToLower (rt_mapLower rt) (Filepath.Ext path)) skippedExtensions ->
  existsb (String.eqb (Strings.ToLower (rt_mapLower rt) (Filepath.Ext path)))
    skippedExtensions = true.
Proof.
  intros Hin. apply existsb_exists. eexists. split; [exact Hin|]. apply String.eqb_refl.
Qed.

Lemma readVisit_not_eligible path d files :
  eligible rt path d = false ->
  readVisit rt fs workdir path (Some d) None files = (files, None).
Proof.
  unfold eligible, readVisit. intros H.
  destruct (OS.IsDir d); [reflexivity|].
  destruct (1024 * 1024 <? OS.Size d); [reflexivity|].
  destruct (existsb _ skippedExtensions); [reflexivity | discriminate H].
Qed.

Lemma readVisit_eligible path d files :
  eligible rt path d = true ->
  readVisit rt fs workdir path (Some d) None files
  = match OS.ReadFile fs path with
    | Err e => (files, Some (Errorf (Sprintf "failed to read file %s: %v" [path; Error e])))
    | Ok content =>
        match Filepath.Rel workdir path with
        | None =>
            (files, Some (Errorf (Sprintf "failed to get relative path for %s: %v"
                                    [path; Error (RelError workdir path)])))
        | Some relPath =>
            (<[Filepath.ToSlash relPath := string_of_list_byte content]> files, None)
        end
    end.
Proof.
  unfold eligible, readVisit. intros H.
  destruct (OS.IsDir d); [discriminate H|].
  destruct (1024 * 1024 <? OS.Size d); [discriminate H|].
  destruct (existsb _ skippedExtensions); [discriminate H | reflexivity].
Qed.

(** One call of the callback that returns no error either leaves the
    mapping alone or stores an eligible file. *)
Lemma readVisit_step path d err files files' :
  readVisit rt fs workdir path d err files = (files', None) ->
  files' = files \/
  exists d0 key content,
    d = Some d0 /\ err = None /\ eligible rt path d0 = true /\
    stored fs workdir path key content /\ files' = <[key := content]> files.
Proof.
  intros H. destruct err as [e|]; [discriminate H|].
  destruct d as [d0|]; [|injection H as <-; left; reflexivity].
  destruct (eligible rt path d0) eqn:Hel.
  - rewrite (readVisit_eligible _ _ _ Hel) in H.
    destruct (OS.ReadFile fs path) as [bytes|e] eqn:Hread; [|discriminate H].
    destruct (Filepath.Rel workdir path) as [rel|] eqn:Hrel; [|discriminate H].
    injection H as <-. right. exists d0, (Filepath.ToSlash rel), (string_of_list_byte bytes).
    split; [reflexivity|]. split; [reflexivity|]. split; [exact Hel|].
    split; [|reflexivity]. exists bytes, rel. auto.
  - rewrite (readVisit_not_eligible _ _ _ Hel) in H. injection H as <-. left. reflexivity.
Qed.

(** Every entry of the mapping was there before the walk or is
    stored for an eligible file that the walk visits. *)
Lemma foldCalls_sound calls :
  forall files0 files,
    OS.foldCalls (readVisit rt fs workdir) calls files0 = (files, None) ->
    forall key content,
      files !! key = Some content ->
      files0 !! key = Some content \/
      exists path d,
        In (path, Some d, None) calls /\ eligible rt path d = true /\
        stored fs workdir path key content.
Proof.
  induction calls as [|[[path d] err] calls IH]; intros files0 files Hfold key content Hkey.
  - injection Hfold as <-. left. exact Hkey.
  - cbn [OS.foldCalls] in Hfold.
    destruct (readVisit rt fs workdir path d err files0) as [files1 [e|]] eqn:Hstep;
      [discriminate Hfold|].
    destruct (IH _ _ Hfold _ _ Hkey) as [Hold | (path' & d' & Hin & Hel & Hst)].
    + apply readVisit_step in Hstep
        as [-> | (d0 & key0 & content0 & -> & -> & Hel & Hst & ->)].
      * left. exact Hold.
      * destruct (decide (key0 = key)) as [->|Hne].
        -- rewrite lookup_insert_eq in Hold. injection Hold as <-.
           right. exists path, d0. split; [left; reflexivity | split; assumption].
        -- rewrite lookup_insert_ne in Hold by exact Hne. left. exact Hold.
    + right. exists path', d'. split; [right; exact Hin | split; assumption].
Qed.

(** Every eligible file that the walk visits has an entry under its
    key, and entries are never removed. *)
Lemma foldCalls_complete calls :
  forall files0 files,
    OS.foldCalls (readVisit rt fs workdir) calls files0 = (files, None) ->
    (forall key, is_Some (files0 !! key) -> is_Some (files !! key)) /\
    (forall path d,
        In (path, Some d, None) calls -> eligible rt path d = true ->
        exists bytes rel,
          OS.ReadFile fs path = Ok bytes /\ Filepath.Rel workdir path = Some rel /\
          is_Some (files !! Filepath.ToSlash rel)).
Proof.
  induction calls as [|[[path d] err] calls IH]; intros files0 files Hfold.
  - injection Hfold as <-. split; [auto | intros ? ? []].
  - cbn [OS.foldCalls] in Hfold.
    destruct (readVisit rt fs workdir path d err files0) as [files1 [e|]] eqn:Hstep;
      [discriminate Hfold|].
    destruct (IH _ _ Hfold) as [Hkeep Hall].
    assert (Hmono : forall key, is_Some (files0 !! key) -> is_Some (files1 !! key)).
    { intros key Hk. apply readVisit_step in Hstep
        as [-> | (d0 & key0 & content0 & -> & -> & _ & _ & ->)]; [exact Hk|].
      destruct (decide (key0 = key)) as [->|Hne].
      - rewrite lookup_insert_eq. eauto.
      - rewrite lookup_insert_ne by exact Hne. exact Hk. }
    split; [intros key Hk; apply Hkeep, Hmono, Hk|].
    intros path' d' [Heq | Hin] Hel; [|eapply Hall; eassumption].
    injection Heq as -> -> ->.
    rewrite (readVisit_eligible _ _ _ Hel) in Hstep.
    destruct (OS.ReadFile fs path') as [bytes|e] eqn:Hread; [|discriminate Hstep].
    destruct (Filepath.Rel workdir path') as [rel|] eqn:Hrel; [|discriminate Hstep].
    injection Hstep as <-. exists bytes, rel. repeat split.
    apply Hkeep. rewrite lookup_insert_eq. eauto.
Qed.

End WithRuntime.

(** C8. [readProjectFiles] does not include every regular file.
    For one regular file, the callback leaves the mapping alone,
    without error, when the file is larger than 1 MiB or when its
    extension, in lower case, is one of [.exe .dll .so .dylib .o .obj];
    otherwise, if the file can be read, its content is stored under
    its slash-separated path relative to the project directory. For
    the whole walk, when [readProjectFiles] succeeds: the file system
    is unchanged, every entry of the mapping is stored for a file that
    the walk visits and that is neither a directory, nor larger than
    1 MiB, nor of a skipped extension, and every such file has an
    entry under its key. *)
Theorem project_files_filtered :
  forall (rt : Runtime) (workdir : string) (w : World),
    (forall path d files,
        OS.IsDir d = false -> 1024 * 1024 < OS.Size d ->
        readVisit rt (fs w) workdir path (Some d) None files = (files, None)) /\
    (forall path d files,
        OS.IsDir d = false ->
        In (Strings.ToLower (rt_mapLower rt) (Filepath.Ext path)) skippedExtensions ->
        readVisit rt (fs w) workdir path (Some d) None files = (files, None)) /\
    (forall path d files bytes rel,
        eligible rt path d = true ->
        OS.ReadFile (fs w) path = Ok bytes ->
        Filepath.Rel workdir path = Some rel ->
        readVisit rt (fs w) workdir path (Some d) None files
        = (<[Filepath.ToSlash rel := string_of_list_byte bytes]> files, None)) /\
    (forall w' files,
        readProjectFiles rt workdir w = (w', Ok files) ->
        fs w' = fs w /\
        (forall key content,
            files !! key = Some content ->
            exists path d,
              In (path, Some d, None) (OS.WalkCalls (fs w) workdir) /\
              eligible rt path d = true /\ stored (fs w) workdir path key content) /\
        (forall path d,
            In (path, Some d, None) (OS.WalkCalls (fs w) workdir) ->
            eligible rt path d = true ->
            exists bytes rel,
              OS.ReadFile (fs w) path = Ok bytes /\ Filepath.Rel workdir path = Some rel /\
              is_Some (files !! Filepath.ToSlash rel))).
Proof.
  intros rt workdir w. repeat split.
  - intros path d files Hreg Hbig. apply readVisit_not_eligible.
    unfold eligible. apply Z.ltb_lt in Hbig. rewrite Hreg, Hbig. reflexivity.
  - intros path d files Hreg Hext. apply readVisit_not_eligible.
    unfold eligible. rewrite (skipped_extension _ _ Hext).
    rewrite andb_false_r. reflexivity.
  - intros path d files bytes rel Hel Hread Hrel.
    rewrite (readVisit_eligible _ _ _ _ _ _ Hel), Hread, Hrel. reflexivity.
  - unfold readProjectFiles, readFS, LogDebugf in H. unfold mbind, M_bind, mret, M_ret in H.
    destruct (OS.WalkDir (fs w) _ workdir ∅) as [files1 [e|]]; cbn in H;
      injection H as <- _; reflexivity.
  - intros key content Hkey.
    unfold readProjectFiles, readFS, LogDebugf in H. unfold mbind, M_bind, mret, M_ret in H.
    destruct (OS.WalkDir (fs w) _ workdir ∅) as [files1 [e|]] eqn:Hwalk; cbn in H;
      [discriminate H|]. injection H as _ <-.
    rewrite WalkDir_foldCalls in Hwalk.
    destruct (foldCalls_sound _ _ _ _ _ _ Hwalk _ _ Hkey) as [Hempty | Hfound];
      [rewrite lookup_empty in Hempty; discriminate Hempty | exact Hfound].
  - intros path d Hin Hel.
    unfold readProjectFiles, readFS, LogDebugf in H. unfold mbind, M_bind, mret, M_ret in H.
    destruct (OS.WalkDir (fs w) _ workdir ∅) as [files1 [e|]] eqn:Hwalk; cbn in H;
      [discriminate H|]. injection H as _ <-.
    rewrite WalkDir_foldCalls in Hwalk.
    eapply (proj2 (foldCalls_complete _ _ _ _ _ _ Hwalk)); eassumption.
Qed.

Lemma project_files_witness :
  let rt := Examples.rt0 in
  let w := ClientExamples.w in
  let huge := {| OS.Name := "core.dump"; OS.IsDir := false; OS.Size := 1024 * 1024 + 1 |} in
  let binary := {| OS.Name := "app.EXE"; OS.IsDir := false; OS.Size := 2 |} in
  let source := {| OS.Name := "main.go"; OS.IsDir := false; OS.Size := 12 |} in
  let read := readProjectFiles rt "/src" w in
  (1024 * 1024 < OS.Size huge /\
   readVisit rt (fs w) "/src" "/src/core.dump" (Some huge) None ∅ = (∅, None)) /\
  (In (Strings.ToLower (rt_mapLower rt) (Filepath.Ext "/src/app.EXE")) skippedExtensions /\
   readVisit rt (fs w) "/src" "/src/app.EXE" (Some binary) None ∅ = (∅, None)) /\
  (In ("/src/main.go", Some source, None) (OS.WalkCalls (fs w) "/src") /\
   eligible rt "/src/main.go" source = true /\
   read.2 = Ok (<["lib/util.go" := "package lib"]> (<["main.go" := "package main"]> ∅)) /\
   exists bytes rel,
     OS.ReadFile (fs w) "/src/main.go" = Ok bytes /\
     Filepath.Rel "/src" "/src/main.go" = Some rel /\
     is_Some ((<["lib/util.go" := "package lib"]> (<["main.go" := "package main"]> ∅)
               : gmap string string) !! Filepath.ToSlash rel)).
Proof.
  intros rt w huge binary source read.
  destruct (project_files_filtered rt "/src" w) as (Hbig & Hext & _ & Hwalk).
  split; [|split].
  - assert (H : 1024 * 1024 < OS.Size huge) by (vm_compute; reflexivity).
    split; [exact H|]. apply Hbig; [reflexivity | exact H].
  - assert (H : In (Strings.ToLower (rt_mapLower rt) (Filepath.Ext "/src/app.EXE"))
                  skippedExtensions) by (vm_compute; tauto).
    split; [exact H|]. apply Hext; [reflexivity | exact H].
  - assert (Hin : In ("/src/main.go", Some source, None) (OS.WalkCalls (fs w) "/src"))
      by (vm_compute; tauto).
    assert (Hel : eligible rt "/src/main.go" source = true) by (vm_compute; reflexivity).
    assert (Hread : read = (read.1, Ok (<["lib/util.go" := "package lib"]>
                                          (<["main.go" := "package main"]> ∅))))
      by (vm_compute; reflexivity).
    split; [exact Hin|]. split; [exact Hel|]. split; [rewrite Hread; reflexivity|].
    destruct (Hwalk _ _ Hread) as (_ & _ & Hcomplete).
    exact (Hcomplete _ _ Hin Hel).
Defined.

End ReadProjectFacts.

(** ** The coordinator: correlation of requests and responses *)

Module CorrelationFacts.
Import Client Coordinator Spec.

Lemma Inv_initial : Inv ∅ ∅ ∅.
Proof.
  split; intros *; rewrite lookup_empty; discriminate.
Qed.

(** Slots may disappear and channels may be made. *)
Lemma Inv_frame pending channels submissions pending' channels' :
  Inv pending channels submissions ->
  (forall buildID ch, pending' !! buildID = Some ch -> pending !! buildID = Some ch) ->
  (forall ch buf, channels !! ch = Some buf -> channels' !! ch = Some buf) ->
  Inv pending' channels' submissions.
Proof.
  intros [Hslot Hchan Hgot] Hp Hc. split.
  - intros buildID ch H. destruct (Hslot _ _ (Hp _ _ H)) as [Hpark Hempty].
    split; [exact Hpark | apply Hc, Hempty].
  - intros buildID ch workdir env H.
    destruct (Hchan _ _ _ _ H) as [(buf & Hbuf & Hids) Huniq].
    split; [exists buf; split; [apply Hc, Hbuf | exact Hids] | exact Huniq].
  - exact Hgot.
Qed.

(** A submission registers a slot with a channel just made. *)
Lemma Inv_submit pending channels submissions buildID ch workdir env :
  Inv pending channels submissions ->
  submissions !! buildID = None ->
  channels !! ch = None ->
  Inv (<[buildID := ch]> pending) (<[ch := []]> channels)
      (<[buildID := Parked ch workdir env]> submissions).
Proof.
  intros [Hslot Hchan Hgot] Hnew Hfresh. split.
  - intros i c H. destruct (decide (buildID = i)) as [<-|Hne].
    + rewrite lookup_insert_eq in H. injection H as <-.
      rewrite !lookup_insert_eq. eauto.
    + rewrite lookup_insert_ne in H by exact Hne.
      destruct (Hslot _ _ H) as [Hpark Hempty].
      rewrite lookup_insert_ne by exact Hne. split; [exact Hpark|].
      rewrite lookup_insert_ne; [exact Hempty | congruence].
  - intros i c wd e H. destruct (decide (buildID = i)) as [<-|Hne].
    + rewrite lookup_insert_eq in H. injection H as <- <- <-.
      split; [exists []; split; [apply lookup_insert_eq | intros r []]|].
      intros other wd' e' Hother. destruct (decide (buildID = other)) as [<-|Hne']; [reflexivity|].
      rewrite lookup_insert_ne in Hother by exact Hne'.
      destruct (Hchan _ _ _ _ Hother) as [(buf & Hbuf & _) _]. congruence.
    + rewrite lookup_insert_ne in H by exact Hne.
      destruct (Hchan _ _ _ _ H) as [(buf & Hbuf & Hids) Huniq].
      split.
      * exists buf. split; [|exact Hids].
        rewrite lookup_insert_ne; [exact Hbuf | congruence].
      * intros other wd' e' Hother. destruct (decide (buildID = other)) as [<-|Hne'].
        -- rewrite lookup_insert_eq in Hother. injection Hother as <- _ _. congruence.
        -- rewrite lookup_insert_ne in Hother by exact Hne'. eapply Huniq, Hother.
  - intros i r H. destruct (decide (buildID = i)) as [<-|Hne].
    + rewrite lookup_insert_eq in H. discriminate H.
    + rewrite lookup_insert_ne in H by exact Hne. eapply Hgot, H.
Qed.

(** The loop of a connection fulfils a slot. *)
Lemma Inv_fulfil pending channels submissions response ch :
  Inv pending channels submissions ->
  pending !! resp_ID response = Some ch ->
  Inv (delete (resp_ID response) pending)
      (alter (fun buf => buf ++ [response]) ch channels) submissions.
Proof.
  intros [Hslot Hchan Hgot] Hfound.
  destruct (Hslot _ _ Hfound) as [(wd0 & e0 & Hpark0) Hempty0].
  split.
  - intros i c H. destruct (decide (resp_ID response = i)) as [<-|Hne].
    + rewrite lookup_delete_eq in H. discriminate H.
    + rewrite lookup_delete_ne in H by exact Hne.
      destruct (Hslot _ _ H) as [(wd & e & Hpark) Hempty].
      split; [eauto|].
      rewrite lookup_alter_ne; [exact Hempty|].
      intros <-. apply Hne.
      eapply (proj2 (Hchan _ _ _ _ Hpark)), Hpark0.
  - intros i c wd e H. destruct (Hchan _ _ _ _ H) as [(buf & Hbuf & Hids) Huniq].
    split; [|exact Huniq].
    destruct (decide (ch = c)) as [<-|Hne].
    + assert (Hi : resp_ID response = i) by (eapply Huniq, Hpark0). subst i.
      exists (buf ++ [response]). rewrite lookup_alter_eq, Hbuf. split; [reflexivity|].
      intros r Hin. apply in_app_iff in Hin as [Hin | [<- | []]]; [apply Hids, Hin | reflexivity].
    + exists buf. rewrite lookup_alter_ne by exact Hne. split; assumption.
  - exact Hgot.
Qed.

(** The [select] of a parked submission receives. *)
Lemma Inv_deliver pending channels submissions buildID ch workdir env response rest :
  Inv pending channels submissions ->
  submissions !! buildID = Some (Parked ch workdir env) ->
  channels !! ch = Some (response :: rest) ->
  Inv pending (<[ch := rest]> channels) (<[buildID := Delivered response]> submissions) /\
  pending !! buildID = None /\
  resp_ID response = buildID.
Proof.
  intros [Hslot Hchan Hgot] Hpark Hbuf.
  destruct (Hchan _ _ _ _ Hpark) as [(buf & Hbuf' & Hids) Huniq].
  rewrite Hbuf in Hbuf'. injection Hbuf' as <-.
  assert (Hnone : pending !! buildID = None).
  { destruct (pending !! buildID) as [c|] eqn:E; [|reflexivity].
    destruct (Hslot _ _ E) as [(wd & e & Hp) Hempty].
    rewrite Hpark in Hp. injection Hp as <- _ _. congruence. }
  assert (Hid : resp_ID response = buildID) by (apply Hids; left; reflexivity).
  split; [|split; assumption]. split.
  - intros i c H.
    destruct (decide (buildID = i)) as [<-|Hne]; [rewrite Hnone in H; discriminate H|].
    destruct (Hslot _ _ H) as [(wd & e & Hp) Hempty].
    rewrite lookup_insert_ne by exact Hne. split; [eauto|].
    rewrite lookup_insert_ne; [exact Hempty | congruence].
  - intros i c wd e H. destruct (decide (buildID = i)) as [<-|Hne].
    + rewrite lookup_insert_eq in H. discriminate H.
    + rewrite lookup_insert_ne in H by exact Hne.
      destruct (Hchan _ _ _ _ H) as [(buf & Hb & Hi) Hu].
      assert (Hc : ch <> c) by (intros <-; apply Hne; eapply Hu, Hpark).
      split.
      * exists buf. rewrite lookup_insert_ne by exact Hc. split; assumption.
      * intros other wd' e' Hother. destruct (decide (buildID = other)) as [<-|Hne'].
        -- rewrite lookup_insert_eq in Hother. discriminate Hother.
        -- rewrite lookup_insert_ne in Hother by exact Hne'. eapply Hu, Hother.
  - intros i r H. destruct (decide (buildID = i)) as [<-|Hne].
    + rewrite lookup_insert_eq in H. injection H as <-. exact Hid.
    + rewrite lookup_insert_ne in H by exact Hne. eapply Hgot, H.
Qed.

(** The [select] of a parked submission times out. *)
Lemma Inv_timeout pending channels submissions buildID ch workdir env :
  Inv pending channels submissions ->
  submissions !! buildID = Some (Parked ch workdir env) ->
  Inv (delete buildID pending) channels (<[buildID := Abandoned]> submissions).
Proof.
  intros [Hslot Hchan Hgot] Hpark. split.
  - intros i c H. destruct (decide (buildID = i)) as [<-|Hne].
    + rewrite lookup_delete_eq in H. discriminate H.
    + rewrite lookup_delete_ne in H by exact Hne.
      rewrite lookup_insert_ne by exact Hne. apply Hslot, H.
  - intros i c wd e H. destruct (decide (buildID = i)) as [<-|Hne].
    + rewrite lookup_insert_eq in H. discriminate H.
    + rewrite lookup_insert_ne in H by exact Hne.
      destruct (Hchan _ _ _ _ H) as [Hb Hu]. split; [exact Hb|].
      intros other wd' e' Hother. destruct (decide (buildID = other)) as [<-|Hne'].
      * rewrite lookup_insert_eq in Hother. discriminate Hother.
      * rewrite lookup_insert_ne in Hother by exact Hne'. eapply Hu, Hother.
  - intros i r H. destruct (decide (buildID = i)) as [<-|Hne].
    + rewrite lookup_insert_eq in H. discriminate H.
    + rewrite lookup_insert_ne in H by exact Hne. eapply Hgot, H.
Qed.

Lemma send_keeps c server request c' err :
  send c server request = (c', err) ->
  pendingBuilds c' = pendingBuilds c /\ chans c' = chans c.
Proof.
  unfold send. destruct (objects c !! server) as [sc|].
  - destruct (Encode (conn sc) request) as [k e]. intros H. injection H as <- _.
    split; reflexivity.
  - intros H. injection H as <- _. split; reflexivity.
Qed.

Lemma fresh_chan (c : Client) : chans c !! fresh (dom (chans c)) = None.
Proof. apply not_elem_of_dom, is_fresh. Qed.

Lemma submitted_unchanged c random err : submitted c c random (Rejected err).
Proof. split; auto. Qed.

(** The common end of both submissions: the request is sent on a
    coordinator [c1] that holds the new slot and channel. *)
Lemma submitted_after_send c c1 c2 random server request err ch :
  ch = fresh (dom (chans c)) ->
  pendingBuilds c1 = <[generateID random := ch]> (pendingBuilds c) ->
  chans c1 = <[ch := []]> (chans c) ->
  send c1 server request = (c2, err) ->
  (forall e, err = Some e ->
     forall msg,
       submitted c
         (setPending (markBusy c2 server false)
            (delete (generateID random) (pendingBuilds (markBusy c2 server false))))
         random (Rejected msg)) /\
  (err = None -> forall env, submitted c c2 random (Sent (generateID random) ch server env)).
Proof.
  intros Hch Hp Hc Hsend. destruct (send_keeps _ _ _ _ _ Hsend) as [Hp2 Hc2].
  assert (Hnew : chans c !! ch = None) by (subst ch; apply fresh_chan).
  split.
  - intros e _ msg. split; cbn.
    + intros buildID x H. rewrite Hp2, Hp in H.
      destruct (decide (generateID random = buildID)) as [<-|Hne].
      * rewrite lookup_delete_eq in H. discriminate H.
      * rewrite lookup_delete_ne, lookup_insert_ne in H by exact Hne. exact H.
    + intros x buf H. rewrite Hc2, Hc.
      rewrite lookup_insert_ne; [exact H | congruence].
  - intros _ env. cbn. rewrite Hp2, Hc2. auto.
Qed.

Section WithRuntime.
Variable rt : Runtime.
Variable globalConfig : Config.

Lemma SubmitBuild_send_submitted c random environment projectDir w w' c' out :
  SubmitBuild_send rt globalConfig c random environment projectDir w = (w', (c', out)) ->
  submitted c c' random out.
Proof.
  unfold SubmitBuild_send. unfold mbind, M_bind, mret, M_ret.
  destruct (readProjectFiles rt projectDir w) as [w1 [files|e]];
    [|intros H; injection H as _ <- <-; apply submitted_unchanged].
  destruct (GetBuildEnvironment globalConfig environment) as [env|];
    [|intros H; injection H as _ <- <-; apply submitted_unchanged].
  destruct (findAvailableServer rt c) as [[server sc]|];
    [|intros H; injection H as _ <- <-; apply submitted_unchanged].
  destruct (negb (String.eqb (info_Version (info sc)) Version));
    [intros H; injection H as _ <- <-; apply submitted_unchanged|].
  cbn [makeChan].
  match goal with
  | |- context [send ?c1 server ?request] =>
      destruct (send c1 server request) as [c2 err] eqn:Hsend;
      pose proof (submitted_after_send c c1 c2 random server request err _
                    eq_refl eq_refl eq_refl Hsend) as [Hfail Hok]
  end.
  destruct err as [e|].
  - intros H. injection H as _ <- <-. eapply Hfail. reflexivity.
  - unfold LogDebugf. intros H. injection H as _ <- <-. apply Hok. reflexivity.
Qed.

Lemma SubmitBuildToServer_send_submitted c random environment projectDir serverAddr
    w w' c' out :
  SubmitBuildToServer_send rt globalConfig c random environment projectDir serverAddr w
  = (w', (c', out)) ->
  submitted c c' random out.
Proof.
  unfold SubmitBuildToServer_send. unfold mbind, M_bind, mret, M_ret.
  destruct (GetBuildEnvironment globalConfig environment) as [env|];
    [|intros H; injection H as _ <- <-; apply submitted_unchanged].
  destruct (readProjectFiles rt projectDir w) as [w1 [files|e]];
    [|intros H; injection H as _ <- <-; apply submitted_unchanged].
  destruct (findServerByAddress rt c serverAddr) as [[server sc]|];
    [|intros H; injection H as _ <- <-; apply submitted_unchanged].
  destruct (negb (String.eqb (info_Version (info sc)) Version));
    [intros H; injection H as _ <- <-; apply submitted_unchanged|].
  destruct (busy sc); [intros H; injection H as _ <- <-; apply submitted_unchanged|].
  cbn [makeChan].
  match goal with
  | |- context [send ?c1 server ?request] =>
      destruct (send c1 server request) as [c2 err] eqn:Hsend;
      pose proof (submitted_after_send c c1 c2 random server request err _
                    eq_refl eq_refl eq_refl Hsend) as [Hfail Hok]
  end.
  destruct err as [e|].
  - intros H. injection H as _ <- <-. eapply Hfail. reflexivity.
  - unfold LogDebugf. intros H. injection H as _ <- <-. apply Hok. reflexivity.
Qed.

Lemma step_consistent sys l sys' :
  consistent sys -> step rt globalConfig sys l sys' -> consistent sys'.
Proof.
  unfold consistent. intros Hinv Hstep.
  destruct Hstep as
    [ sys random environment projectDir w' c' buildID ch server env Hsend Hnew
    | sys random environment projectDir workdir serverAddr w' c' buildID ch server env Hsend Hnew
    | sys random environment projectDir w' c' err Hsend Hnew
    | sys random environment projectDir serverAddr w' c' err Hsend Hnew
    | sys ip port p w' c' started Hprobe
    | sys k serverInfo addr w' c' serverConn Hreg
    | sys serverConn response w' c' Hresp
    | sys serverConn addr err w' c' Hdisc
    | sys buildID ch workdir env response rest w' res Hpark Hbuf Hrecv
    | sys buildID ch workdir env c' res Hpark Htime ]; cbn [client callers].
  - apply SubmitBuild_send_submitted in Hsend as (_ & Hfresh & -> & ->).
    apply Inv_submit; assumption.
  - apply SubmitBuildToServer_send_submitted in Hsend as (_ & Hfresh & -> & ->).
    apply Inv_submit; assumption.
  - apply SubmitBuild_send_submitted in Hsend as [Hp Hc]. eapply Inv_frame; eassumption.
  - apply SubmitBuildToServer_send_submitted in Hsend as [Hp Hc].
    eapply Inv_frame; eassumption.
  - assert (Hsame : pendingBuilds c' = pendingBuilds (client sys) /\
                    chans c' = chans (client sys)).
    { unfold tryConnectToServer in Hprobe. unfold mbind, M_bind, mret, M_ret in Hprobe.
      destruct (bool_decide _); [injection Hprobe as _ <- _; auto|].
      destruct p as [|k [serverInfo|e]]; try (injection Hprobe as _ <- _; auto; fail).
      destruct (negb (Strings.HasPrefix _ _)); [injection Hprobe as _ <- _; auto|].
      destruct (negb (String.eqb _ _)); cbn in Hprobe; injection Hprobe as _ <- _; auto. }
    destruct Hsame as [-> ->]. exact Hinv.
  - unfold register, newObject in Hreg. unfold mbind, M_bind, mret, M_ret in Hreg.
    cbn in Hreg. injection Hreg as _ <- _. exact Hinv.
  - unfold handleResponse in Hresp. unfold mbind, M_bind, mret, M_ret in Hresp.
    cbn in Hresp. injection Hresp as _ <-. cbn.
    destruct (pendingBuilds (client sys) !! resp_ID response) as [ch|] eqn:Hslot;
      [apply Inv_fulfil; assumption | exact Hinv].
  - unfold disconnected in Hdisc. unfold mbind, M_bind, mret, M_ret in Hdisc.
    cbn in Hdisc. injection Hdisc as _ <-. exact Hinv.
  - eapply Inv_deliver; eassumption.
  - unfold timedOut in Htime. injection Htime as <- _. cbn.
    eapply Inv_timeout; eassumption.
Qed.

Lemma run_consistent w tr sys :
  run rt globalConfig (initial w) tr sys -> consistent sys.
Proof.
  remember (initial w) as start eqn:Hstart.
  induction 1 as [sys | sys tr mid l sys' Hrun IH Hstep].
  - subst sys. apply Inv_initial.
  - eapply step_consistent; [apply IH, Hstart | exact Hstep].
Qed.

Lemma outcomes_snoc buildID tr l :
  outcomes buildID (tr ++ [l])
  = outcomes buildID tr ++ (if isOutcome buildID l then [l] else []).
Proof. unfold outcomes. rewrite List.filter_app. reflexivity. Qed.

Lemma settled_snoc buildID tr l who :
  isOutcome buildID l = false ->
  settled buildID tr who -> settled buildID (tr ++ [l]) who.
Proof.
  intros Hl. unfold settled. rewrite outcomes_snoc, Hl, app_nil_r. auto.
Qed.

Lemma settled_end buildID tr l :
  isOutcome buildID l = true ->
  outcomes buildID tr = [] -> outcomes buildID (tr ++ [l]) = [l].
Proof. intros Hl Hnone. rewrite outcomes_snoc, Hl, Hnone. reflexivity. Qed.

Lemma run_settled w tr sys :
  run rt globalConfig (initial w) tr sys ->
  forall buildID, settled buildID tr (callers sys !! buildID).
Proof.
  remember (initial w) as start eqn:Hstart.
  induction 1 as [sys | sys tr mid l sys' Hrun IH Hstep]; intros buildID.
  - subst sys. cbn. reflexivity.
  - specialize (IH Hstart buildID).
    destruct Hstep as
      [ s0 random environment projectDir w' c' b ch server env Hsend Hnew
      | s0 random environment projectDir workdir serverAddr w' c' b ch server env Hsend Hnew
      | | | | | |
      | s0 b ch workdir env response rest w' res Hpark Hbuf Hrecv
      | s0 b ch workdir env c' res Hpark Htime ]; cbn [client callers];
      try (apply settled_snoc; [reflexivity | exact IH]).
    + apply settled_snoc; [reflexivity|]. destruct (decide (b = buildID)) as [->|Hne].
      * rewrite lookup_insert_eq. rewrite Hnew in IH. exact IH.
      * rewrite lookup_insert_ne by exact Hne. exact IH.
    + apply settled_snoc; [reflexivity|]. destruct (decide (b = buildID)) as [->|Hne].
      * rewrite lookup_insert_eq. rewrite Hnew in IH. exact IH.
      * rewrite lookup_insert_ne by exact Hne. exact IH.
    + destruct (decide (b = buildID)) as [->|Hne].
      * rewrite lookup_insert_eq. rewrite Hpark in IH.
        apply settled_end; [apply String.eqb_refl | exact IH].
      * rewrite lookup_insert_ne by exact Hne.
        apply settled_snoc; [apply String.eqb_neq, Hne | exact IH].
    + destruct (decide (b = buildID)) as [->|Hne].
      * rewrite lookup_insert_eq. rewrite Hpark in IH.
        apply settled_end; [apply String.eqb_refl | exact IH].
      * rewrite lookup_insert_ne by exact Hne.
        apply settled_snoc; [apply String.eqb_neq, Hne | exact IH].
Qed.

(** The branch of the loop of [handleServerConnection] for a response
    without a slot. *)
Lemma handleResponse_stray c serverConn response w :
  pendingBuilds c !! resp_ID response = None ->
  exists w',
    handleResponse c serverConn response w = (w', markBusy c serverConn false) /\
    fs w' = fs w.
Proof.
  intros Hnone. unfold handleResponse. unfold mbind, M_bind, mret, M_ret, LogDebugf.
  rewrite Hnone. eexists. split; reflexivity.
Qed.

Lemma markBusy_clears c serverConn : isBusy (markBusy c serverConn false) serverConn = false.
Proof.
  unfold isBusy, markBusy. cbn. rewrite lookup_alter_eq.
  destruct (objects c !! serverConn); reflexivity.
Qed.

(** C1. Correlation exclusivity. In every execution of the
    coordinator, for every correlation id of a submission that reached
    its [select] (slot registered, request sent): the execution holds
    at most one outcome for it, either the delivery of a response to
    the caller or the timeout; while the caller is parked none has
    occurred and the timeout can occur; once the caller has returned
    exactly that one has occurred, the slot is gone, and a delivered
    response carries the id. A response decoded by the loop of
    [handleServerConnection] whose id has no slot (such as one that
    arrives after the timeout) changes neither the pending map nor any
    channel, yields no error, and the busy flag of its connection is
    cleared. Correlation ids are taken to be unique, as [generateID]
    is meant to deliver them. *)
Theorem correlation_exclusive :
  (forall c serverConn response w,
      pendingBuilds c !! resp_ID response = None ->
      exists w' c',
        handleResponse c serverConn response w = (w', c') /\
        fs w' = fs w /\
        pendingBuilds c' = pendingBuilds c /\
        chans c' = chans c /\
        servers c' = servers c /\
        isBusy c' serverConn = false) /\
  (forall w tr sys,
      run rt globalConfig (initial w) tr sys ->
      forall buildID,
        match callers sys !! buildID with
        | None => outcomes buildID tr = []
        | Some (Parked ch workdir env) =>
            outcomes buildID tr = [] /\
            exists sys', step rt globalConfig sys (LTimeout buildID) sys'
        | Some (Delivered r) =>
            outcomes buildID tr = [LDeliver buildID r] /\
            resp_ID r = buildID /\
            pendingBuilds (client sys) !! buildID = None
        | Some Abandoned =>
            outcomes buildID tr = [LTimeout buildID] /\
            pendingBuilds (client sys) !! buildID = None
        end).
Proof.
  split.
  - intros c serverConn response w Hnone.
    destruct (handleResponse_stray c serverConn response w Hnone) as (w' & Heq & Hfs).
    exists w', (markBusy c serverConn false).
    repeat split; try assumption; try reflexivity. apply markBusy_clears.
  - intros w tr sys Hrun buildID.
    pose proof (run_settled w tr sys Hrun buildID) as Hset.
    pose proof (run_consistent w tr sys Hrun) as [Hslot Hchan Hgot].
    destruct (callers sys !! buildID) as [[ch workdir env | r |]|] eqn:Hwho; cbn in Hset.
    + split; [exact Hset|]. eexists. eapply step_timeout; [exact Hwho | reflexivity].
    + split; [exact Hset|]. split; [eapply Hgot, Hwho|].
      destruct (pendingBuilds (client sys) !! buildID) as [c|] eqn:E; [|reflexivity].
      destruct (Hslot _ _ E) as [(wd & e & Hp) _]. congruence.
    + split; [exact Hset|].
      destruct (pendingBuilds (client sys) !! buildID) as [c|] eqn:E; [|reflexivity].
      destruct (Hslot _ _ E) as [(wd & e & Hp) _]. congruence.
    + exact Hset.
Qed.

End WithRuntime.

Lemma correlation_witness :
  let rt := Examples.rt0 in
  let cfg := ClientExamples.cfg in
  let buildID := generateID ClientExamples.random in
  let late :=
    {| resp_ID := buildID; resp_Success := true; resp_Output := "ok"; resp_Error := "";
       resp_Duration := 5; resp_OutputFiles := None |} in
  exists tr sys,
    run rt cfg (initial ClientExamples.w) tr sys /\
    tr = [LRegister "10.0.0.7:8080" 0%nat; LSubmit buildID; LTimeout buildID] /\
    callers sys !! buildID = Some Abandoned /\
    outcomes buildID tr = [LTimeout buildID] /\
    pendingBuilds (client sys) !! buildID = None /\
    isBusy (client sys) 0%nat = true /\
    exists w' c',
      handleResponse (client sys) 0%nat late (world sys) = (w', c') /\
      pendingBuilds c' = pendingBuilds (client sys) /\
      chans c' = chans (client sys) /\
      isBusy c' 0%nat = false.
Proof.
  intros rt cfg buildID late.
  set (link := ClientExamples.link None).
  set (worker := ClientExamples.workerInfo Version).
  set (r1 := register NewClient link worker "10.0.0.7:8080" ClientExamples.w).
  set (s1 := {| client := r1.2.1; world := r1.1; callers := ∅ |}).
  set (r2 := SubmitBuild_send rt cfg (client s1) ClientExamples.random "go" "/src" (world s1)).
  set (s2 := {| client := r2.2.1; world := r2.1;
                callers := <[buildID := Parked 0%nat "/src" ClientExamples.goEnv]> ∅ |}).
  set (s3 := {| client := (timedOut cfg (client s2) buildID).1; world := world s2;
                callers := <[buildID := Abandoned]> (callers s2) |}).
  assert (Hrun : run rt cfg (initial ClientExamples.w)
                   ((([] ++ [LRegister "10.0.0.7:8080" 0%nat]) ++ [LSubmit buildID])
                      ++ [LTimeout buildID]) s3).
  { eapply run_snoc; [eapply run_snoc; [eapply run_snoc; [apply run_nil|]|]|].
    - apply (step_register rt cfg (initial ClientExamples.w) link worker "10.0.0.7:8080"
               r1.1 r1.2.1 0%nat).
      vm_compute. reflexivity.
    - apply (step_submit rt cfg s1 ClientExamples.random "go" "/src" r2.1 r2.2.1 buildID
               0%nat 0%nat ClientExamples.goEnv); vm_compute; reflexivity.
    - apply (step_timeout rt cfg s2 buildID 0%nat "/src" ClientExamples.goEnv
               (timedOut cfg (client s2) buildID).1 (timedOut cfg (client s2) buildID).2);
        vm_compute; reflexivity. }
  pose proof (correlation_exclusive rt cfg) as [Hstray Hruns].
  specialize (Hruns _ _ _ Hrun buildID).
  assert (Hwho : callers s3 !! buildID = Some Abandoned) by (vm_compute; reflexivity).
  rewrite Hwho in Hruns. destruct Hruns as [Hout Hgone].
  exists [LRegister "10.0.0.7:8080" 0%nat; LSubmit buildID; LTimeout buildID], s3.
  split; [exact Hrun|]. split; [reflexivity|]. split; [exact Hwho|].
  split; [exact Hout|]. split; [exact Hgone|]. split; [vm_compute; reflexivity|].
  destruct (Hstray (client s3) 0%nat late (world s3) Hgone)
    as (w' & c' & Heq & _ & Hp & Hc & _ & Hb).
  exists w', c'. repeat split; assumption.
Defined.

End CorrelationFacts.

(** ** Fuel

    The loops of the standard library that are embedded with a fuel
    argument never exhaust it: any larger amount gives the same
    result. *)

Module Fuel.

Lemma skip_length n s : String.length (skip n s) = (String.length s - n)%nat.
Proof.
  revert s. induction n as [|n IH]; intros [|c s]; cbn; try reflexivity.
  - apply IH.
Qed.

(** A rune of a non-empty string has at least one byte. *)
Lemma DecodeRuneInString_size c s :
  (1 <= (Utf8.DecodeRuneInString (String c s)).2)%nat.
Proof.
  unfold Utf8.DecodeRuneInString. cbn [String.length Nat.ltb Nat.leb].
  repeat match goal with
         | |- context [if ?b then _ else _] => destruct b
         | |- context [let '(_, _) := ?p in _] => destruct p
         end; cbn; lia.
Qed.

(** *** MkdirAll *)

Lemma trimTrailingSeps_empty path :
  Filepath.trimTrailingSeps path <> "" -> path <> "".
Proof. intros H ->. apply H. reflexivity. Qed.

Lemma throughLastSep_contains s :
  Strings.containsByte s Filepath.Separator = true -> Filepath.throughLastSep s <> "".
Proof.
  destruct s as [|c s]; cbn [Strings.containsByte Filepath.throughLastSep]; [discriminate|].
  destruct (Strings.containsByte s Filepath.Separator); [discriminate|].
  rewrite orb_false_r. unfold Filepath.isSep. rewrite Ascii.eqb_sym.
  intros ->. discriminate.
Qed.

Lemma parent_shorter path :
  let parent := Filepath.throughLastSep (Filepath.trimTrailingSeps path) in
  parent = "" \/ (String.length parent < String.length path)%nat.
Proof.
  cbn zeta. induction path as [|c rest IH]; [left; reflexivity|].
  cbn [Filepath.trimTrailingSeps].
  destruct (Filepath.trimTrailingSeps rest) as [|c' r] eqn:Htrim.
  - left. destruct (Filepath.isSep c) eqn:Hc; [reflexivity|].
    cbn [Filepath.throughLastSep Strings.containsByte]. rewrite Hc. reflexivity.
  - assert (Hrest : rest <> "").
    { apply trimTrailingSeps_empty. rewrite Htrim. discriminate. }
    remember (String c' r) as t eqn:Ht. clear Ht Htrim c' r.
    cbn [Filepath.throughLastSep].
    destruct (Strings.containsByte t Filepath.Separator) eqn:Hsep.
    + right. cbn [String.length]. destruct IH as [IH | IH].
      * exfalso. eapply throughLastSep_contains; eassumption.
      * lia.
    + destruct (Filepath.isSep c); [right | left; reflexivity].
      destruct rest; [contradiction | cbn [String.length]; lia].
Qed.

Lemma mkdirAll_fuel n :
  forall m fs path,
    (String.length path < n)%nat -> (String.length path < m)%nat ->
    OS.mkdirAll n fs path = OS.mkdirAll m fs path.
Proof.
  induction n as [|n IH]; intros m fs path Hn Hm; [lia|].
  destruct m as [|m]; [lia|]. cbn [OS.mkdirAll].
  destruct (OS.Stat fs path); [reflexivity|].
  destruct (parent_shorter path) as [Hp | Hp]; cbn zeta in Hp.
  - rewrite Hp. reflexivity.
  - rewrite (IH m) by lia. reflexivity.
Qed.

(** [MkdirAll] with any larger fuel. *)
Lemma MkdirAll_fuel n fs path :
  (String.length path < n)%nat -> OS.mkdirAll n fs path = OS.MkdirAll fs path.
Proof. intros H. apply mkdirAll_fuel; [exact H | lia]. Qed.

(** *** Match *)

Lemma getEsc_shorter chunk r nchunk :
  Filepath.getEsc chunk = inl (r, nchunk) ->
  (String.length nchunk < String.length chunk)%nat.
Proof.
  unfold Filepath.getEsc. destruct chunk as [|c rest]; [discriminate|].
  destruct (Ascii.eqb c "-" || Ascii.eqb c "]"); [discriminate|].
  destruct (Ascii.eqb c "\" && String.eqb rest "") eqn:Hesc; [discriminate|].
  assert (Hsize : forall chunk',
             chunk' <> "" ->
             (String.length chunk' <= String.length (String c rest))%nat ->
             (let '(r0, n) := Utf8.DecodeRuneInString chunk' in
              let nchunk0 := skip n chunk' in
              if (r0 =? Utf8.RuneError) && (n =? 1)%nat || String.eqb nchunk0 ""
              then inr Filepath.ErrBadPattern else inl (r0, nchunk0)) = inl (r, nchunk) ->
             (String.length nchunk < String.length (String c rest))%nat).
  { intros [|c0 s0] Hne Hle; [contradiction|].
    pose proof (DecodeRuneInString_size c0 s0) as Hpos.
    destruct (Utf8.DecodeRuneInString (String c0 s0)) as [r0 n]. cbn [snd] in Hpos.
    cbn zeta.
    match goal with
    | |- (if ?b then _ else _) = _ -> _ => destruct b; [discriminate|]
    end.
    intros H. injection H as _ <-.
    rewrite skip_length. cbn [String.length] in *. lia. }
  destruct (Ascii.eqb c "\") eqn:Hc.
  - apply Hsize.
    + intros ->. cbn in Hesc. discriminate Hesc.
    + cbn [String.length]. lia.
  - apply Hsize; [discriminate | lia].
Qed.

Lemma classLoop_shorter n :
  forall chunk r matched nrange rest matched',
    Filepath.classLoop n chunk r matched nrange = inl (rest, matched') ->
    (String.length rest < String.length chunk)%nat.
Proof.
  induction n as [|n IH]; intros chunk r matched nrange rest matched' H; [discriminate H|].
  cbn [Filepath.classLoop] in H. destruct chunk as [|c crest]; [discriminate H|].
  destruct (Ascii.eqb c "]" && (0 <? nrange)%nat).
  { injection H as <- _. cbn [String.length]. lia. }
  destruct (Filepath.getEsc (String c crest)) as [[lo chunk1]|e] eqn:Hlo; [|discriminate H].
  apply getEsc_shorter in Hlo.
  destruct chunk1 as [|d rest1].
  - apply IH in H. cbn [String.length] in *. lia.
  - destruct (Ascii.eqb d "-").
    + destruct (Filepath.getEsc rest1) as [[hi chunk2]|e] eqn:Hhi; [|discriminate H].
      apply getEsc_shorter in Hhi. apply IH in H. cbn [String.length] in *. lia.
    + apply IH in H. cbn [String.length] in *. lia.
Qed.

Lemma classLoop_fuel n :
  forall m chunk r matched nrange,
    (String.length chunk < n)%nat -> (String.length chunk < m)%nat ->
    Filepath.classLoop n chunk r matched nrange = Filepath.classLoop m chunk r matched nrange.
Proof.
  induction n as [|n IH]; intros m chunk r matched nrange Hn Hm; [lia|].
  destruct m as [|m]; [lia|]. cbn [Filepath.classLoop].
  destruct chunk as [|c crest]; [reflexivity|].
  destruct (Ascii.eqb c "]" && (0 <? nrange)%nat); [reflexivity|].
  destruct (Filepath.getEsc (String c crest)) as [[lo chunk1]|e] eqn:Hlo; [|reflexivity].
  apply getEsc_shorter in Hlo.
  destruct chunk1 as [|d rest1].
  - apply IH; cbn [String.length] in *; lia.
  - destruct (Ascii.eqb d "-").
    + destruct (Filepath.getEsc rest1) as [[hi chunk2]|e] eqn:Hhi; [|reflexivity].
      apply getEsc_shorter in Hhi. apply IH; cbn [String.length] in *; lia.
    + apply IH; cbn [String.length] in *; lia.
Qed.

Lemma matchLoop_fuel n :
  forall m chunk s failed,
    (String.length chunk < n)%nat -> (String.length chunk < m)%nat ->
    Filepath.matchLoop n chunk s failed = Filepath.matchLoop m chunk s failed.
Proof.
  induction n as [|n IH]; intros m chunk s failed Hn Hm; [lia|].
  destruct m as [|m]; [lia|]. cbn [Filepath.matchLoop].
  destruct chunk as [|c crest]; [reflexivity|]. cbn [String.length] in Hn, Hm.
  destruct (Ascii.eqb c "[").
  { destruct (if failed || String.eqb s "" then _ else _) as [r s1].
    destruct (match crest with
              | String d rest1 => if Ascii.eqb d "^" then (true, rest1) else (false, crest)
              | EmptyString => (false, crest)
              end) as [negated chunk1] eqn:Hneg.
    assert (Hle : (String.length chunk1 <= String.length crest)%nat).
    { destruct crest as [|d rest1]; [injection Hneg as _ <-; lia|].
      destruct (Ascii.eqb d "^"); injection Hneg as _ <-; cbn [String.length]; lia. }
    destruct (Filepath.classLoop (S (String.length chunk1)) chunk1 r false 0)
      as [[chunk2 matched]|e] eqn:Hclass; [|reflexivity].
    apply classLoop_shorter in Hclass. apply IH; lia. }
  destruct (Ascii.eqb c "?").
  { destruct (failed || String.eqb s ""); [apply IH; lia|].
    destruct (Utf8.DecodeRuneInString s) as [r n0]. apply IH; lia. }
  destruct (Ascii.eqb c "\" && String.eqb crest ""); [reflexivity|].
  destruct (Ascii.eqb c "\").
  - destruct crest as [|lit rest1]; [reflexivity|]. cbn [String.length] in Hn, Hm.
    destruct (failed || String.eqb s ""); [apply IH; lia|].
    destruct s; apply IH; lia.
  - destruct (failed || String.eqb s ""); [apply IH; lia|].
    destruct s; apply IH; lia.
Qed.

Lemma scanLoop_le n :
  forall pattern inrange chunk chunk' rest,
    (String.length pattern <= n)%nat ->
    Filepath.scanLoop pattern inrange chunk = (chunk', rest) ->
    (String.length rest <= String.length pattern)%nat.
Proof.
  induction n as [|n IH]; intros pattern inrange chunk chunk' rest Hn H.
  - destruct pattern; [|cbn in Hn; lia]. injection H as _ <-. cbn. lia.
  - destruct pattern as [|c p]; [injection H as _ <-; cbn; lia|].
    cbn [String.length] in Hn. cbn [Filepath.scanLoop] in H.
    destruct (Ascii.eqb c "\").
    { destruct p as [|c2 p2]; [injection H as _ <-; cbn; lia|].
      cbn [String.length] in *. apply IH in H; lia. }
    destruct (Ascii.eqb c "["); [apply IH in H; cbn [String.length]; lia|].
    destruct (Ascii.eqb c "]"); [apply IH in H; cbn [String.length]; lia|].
    destruct (Ascii.eqb c "*" && negb inrange); [injection H as _ <-; lia|].
    apply IH in H; cbn [String.length]; lia.
Qed.

Lemma scanLoop_lt c p chunk chunk' rest :
  Ascii.eqb c "*" = false ->
  Filepath.scanLoop (String c p) false chunk = (chunk', rest) ->
  (String.length rest < String.length (String c p))%nat.
Proof.
  intros Hc H. cbn [Filepath.scanLoop] in H. rewrite Hc in H. cbn [andb] in H.
  cbn [String.length].
  destruct (Ascii.eqb c "\").
  { destruct p as [|c2 p2]; [injection H as _ <-; cbn; lia|].
    apply (scanLoop_le (String.length p2)) in H; cbn [String.length]; lia. }
  destruct (Ascii.eqb c "[");
    [apply (scanLoop_le (String.length p)) in H; lia|].
  destruct (Ascii.eqb c "]");
    [apply (scanLoop_le (String.length p)) in H; lia|].
  apply (scanLoop_le (String.length p)) in H; lia.
Qed.

Lemma skipStars_spec pattern :
  forall star star' rest,
    Filepath.skipStars pattern star = (star', rest) ->
    (String.length rest <= String.length pattern)%nat /\
    match rest with
    | String c _ => Ascii.eqb c "*" = false
    | EmptyString => True
    end.
Proof.
  induction pattern as [|c p IH]; intros star star' rest H; cbn [Filepath.skipStars] in H.
  - injection H as _ <-. split; [lia | exact I].
  - destruct (Ascii.eqb c "*") eqn:Hc.
    + apply IH in H as [Hle Hhead]. split; [cbn [String.length]; lia | exact Hhead].
    + injection H as _ <-. split; [lia | exact Hc].
Qed.

(** Every chunk that [scanChunk] takes shortens the pattern. *)
Lemma scanChunk_shorter pattern star chunk rest :
  pattern <> "" ->
  Filepath.scanChunk pattern = (star, chunk, rest) ->
  (String.length rest < String.length pattern)%nat.
Proof.
  intros Hne. unfold Filepath.scanChunk.
  destruct (Filepath.skipStars pattern false) as [star0 p1] eqn:Hstars.
  destruct (Filepath.scanLoop p1 false "") as [chunk0 rest0] eqn:Hscan.
  intros H. injection H as _ _ <-.
  apply skipStars_spec in Hstars as [Hle Hhead].
  destruct p1 as [|c p].
  - injection Hscan as _ <-. destruct pattern; [contradiction | cbn; lia].
  - apply scanLoop_lt in Hscan; [lia | exact Hhead].
Qed.

Lemma checkRest_fuel n :
  forall m pattern,
    (String.length pattern < n)%nat -> (String.length pattern < m)%nat ->
    Filepath.checkRest n pattern = Filepath.checkRest m pattern.
Proof.
  induction n as [|n IH]; intros m pattern Hn Hm; [lia|].
  destruct m as [|m]; [lia|]. cbn [Filepath.checkRest].
  destruct (String.eqb_spec pattern "") as [|Hne]; [reflexivity|].
  destruct (Filepath.scanChunk pattern) as [[star chunk] rest] eqn:Hscan.
  apply scanChunk_shorter in Hscan; [|exact Hne].
  destruct (Filepath.matchChunk chunk ""); [|reflexivity].
  apply IH; lia.
Qed.

Lemma matchPattern_fuel n :
  forall m pattern name,
    (String.length pattern < n)%nat -> (String.length pattern < m)%nat ->
    Filepath.matchPattern n pattern name = Filepath.matchPattern m pattern name.
Proof.
  induction n as [|n IH]; intros m pattern name Hn Hm; [lia|].
  destruct m as [|m]; [lia|]. cbn [Filepath.matchPattern].
  destruct (String.eqb_spec pattern "") as [|Hne]; [reflexivity|].
  destruct (Filepath.scanChunk pattern) as [[star chunk] rest] eqn:Hscan.
  apply scanChunk_shorter in Hscan; [|exact Hne].
  destruct (star && String.eqb chunk ""); [reflexivity|].
  assert (Hrec : forall t, Filepath.matchPattern n rest t = Filepath.matchPattern m rest t)
    by (intros t; apply IH; lia).
  assert (Hcheck : Filepath.checkRest n rest = Filepath.checkRest m rest)
    by (apply checkRest_fuel; lia).
  rewrite Hcheck.
  destruct (Filepath.matchChunk chunk name) as [[t [|]]|e]; [| |reflexivity].
  - destruct (String.eqb t "" || negb (String.eqb rest "")); [apply Hrec|].
    destruct star; [|reflexivity].
    destruct (Filepath.starLoop chunk name (String.eqb rest "")); [apply Hrec | |]; reflexivity.
  - destruct star; [|reflexivity].
    destruct (Filepath.starLoop chunk name (String.eqb rest "")); [apply Hrec | |]; reflexivity.
Qed.

(** [Match] with any larger fuel; in particular the default case of
    the fuel is never reached. *)
Lemma Match_fuel n pattern name :
  (String.length pattern < n)%nat ->
  Filepath.matchPattern n pattern name = Filepath.Match pattern name.
Proof. intros H. apply matchPattern_fuel; [exact H | lia]. Qed.

(** [matchChunk] with any larger fuel. *)
Lemma matchChunk_fuel n chunk s :
  (String.length chunk < n)%nat ->
  Filepath.matchLoop n chunk s false = Filepath.matchChunk chunk s.
Proof. intros H. apply matchLoop_fuel; [exact H | lia]. Qed.

(** *** Rel *)

Lemma splitElem_le base :
  forall be brest,
    Filepath.splitElem base = (be, brest) ->
    (String.length brest <= String.length base)%nat.
Proof.
  induction base as [|c rest IH]; intros be brest H; cbn [Filepath.splitElem] in H.
  - injection H as _ <-. lia.
  - destruct (Filepath.isSep c); [injection H as _ <-; cbn [String.length]; lia|].
    destruct (Filepath.splitElem rest) as [e r]. injection H as _ <-.
    specialize (IH e r eq_refl). cbn [String.length]. lia.
Qed.

Lemma splitElem_shorter base be brest :
  base <> "" ->
  Filepath.splitElem base = (be, brest) ->
  (String.length brest < String.length base)%nat.
Proof.
  destruct base as [|c rest]; [contradiction|]. intros _ H.
  cbn [Filepath.splitElem] in H.
  destruct (Filepath.isSep c); [injection H as _ <-; cbn [String.length]; lia|].
  destruct (Filepath.splitElem rest) as [e r] eqn:Hrest. injection H as _ <-.
  apply splitElem_le in Hrest. cbn [String.length]. lia.
Qed.

Lemma relLoop_fuel n :
  forall m base targ,
    (String.length base < n)%nat -> (String.length base < m)%nat ->
    Filepath.relLoop n base targ = Filepath.relLoop m base targ.
Proof.
  induction n as [|n IH]; intros m base targ Hn Hm; [lia|].
  destruct m as [|m]; [lia|]. cbn [Filepath.relLoop].
  destruct (String.eqb_spec base "") as [|Hne]; [reflexivity|]. cbn [orb].
  destruct (String.eqb targ ""); [reflexivity|].
  destruct (Filepath.splitElem base) as [be brest] eqn:Hbase.
  destruct (Filepath.splitElem targ) as [te trest].
  destruct (negb (String.eqb te be)); [reflexivity|].
  apply splitElem_shorter in Hbase; [|exact Hne]. apply IH; lia.
Qed.

(** *** base64 *)

Lemma skipNewlines_le src :
  (List.length (Base64.skipNewlines src) <= List.length src)%nat.
Proof.
  induction src as [|c rest IH]; cbn [Base64.skipNewlines]; [lia|].
  destruct (Base64.isNewline c); cbn [List.length] in *; lia.
Qed.

(** The character loop of [decodeQuantum] consumes input. *)
Lemma scanQuantum_rest src :
  forall j dbuf rest dbuf' dlen trailing,
    Base64.scanQuantum src j dbuf = Base64.ScanOk rest dbuf' dlen trailing ->
    (List.length rest <= List.length src)%nat /\
    ((j < 4)%nat -> (List.length rest < List.length src)%nat).
Proof.
  induction src as [|c src' IH]; intros j dbuf rest dbuf' dlen trailing H.
  - cbn [Base64.scanQuantum] in H. destruct (4 <=? j)%nat eqn:Hj.
    + injection H as <- _ _ _. apply Nat.leb_le in Hj. split; [lia | lia].
    + destruct j; discriminate H.
  - cbn [Base64.scanQuantum] in H. destruct (4 <=? j)%nat eqn:Hj.
    { injection H as <- _ _ _. apply Nat.leb_le in Hj. split; [lia | lia]. }
    cbn [List.length].
    destruct (negb (Base64.decodeMap c =? 255)).
    { apply IH in H as [Hle _]. split; lia. }
    destruct (Base64.isNewline c).
    { apply IH in H as [Hle _]. split; lia. }
    destruct (negb (Ascii.eqb c Base64.padChar)); [discriminate H|].
    destruct j as [|[|[|j]]]; try discriminate H.
    + pose proof (skipNewlines_le src') as Hskip.
      destruct (Base64.skipNewlines src') as [|c2 src2]; [discriminate H|].
      destruct (negb (Ascii.eqb c2 Base64.padChar)); [discriminate H|].
      injection H as <- _ _ _. pose proof (skipNewlines_le src2).
      cbn [List.length] in *. split; lia.
    + injection H as <- _ _ _. pose proof (skipNewlines_le src'). split; lia.
Qed.

Lemma decodeQuantum_shorter c src rest out err :
  Base64.decodeQuantum (c :: src) = (rest, out, err) ->
  (List.length rest < List.length (c :: src))%nat.
Proof.
  unfold Base64.decodeQuantum.
  destruct (Base64.scanQuantum (c :: src) 0 []) as [| |rest' dbuf dlen trailing] eqn:Hscan.
  - intros H. injection H as <- _ _. cbn. lia.
  - intros H. injection H as <- _ _. cbn. lia.
  - intros H. injection H as <- _ _.
    apply scanQuantum_rest in Hscan as [_ Hlt]. apply Hlt. lia.
Qed.

Lemma decodeLoop_fuel n :
  forall m src,
    (List.length src < n)%nat -> (List.length src < m)%nat ->
    Base64.decodeLoop n src = Base64.decodeLoop m src.
Proof.
  induction n as [|n IH]; intros m src Hn Hm; [lia|].
  destruct m as [|m]; [lia|]. cbn [Base64.decodeLoop].
  destruct src as [|c src]; [reflexivity|].
  destruct (Base64.decodeQuantum (c :: src)) as [[rest out] err] eqn:Hq.
  apply decodeQuantum_shorter in Hq.
  destruct err; [reflexivity|]. rewrite (IH m) by lia. reflexivity.
Qed.

End Fuel.

(** ** Strings *)

Module StringFacts.

Lemma app_String c (s t : string) : (String c s ++ t = String c (s ++ t))%string.
Proof. reflexivity. Qed.

Lemma app_empty (t : string) : ("" ++ t = t)%string.
Proof. reflexivity. Qed.

Lemma append_assoc (a b c : string) : ((a ++ b) ++ c = a ++ (b ++ c))%string.
Proof. induction a as [|x a IH]; [reflexivity|]. rewrite !app_String, IH. reflexivity. Qed.

Lemma append_empty_r (a : string) : (a ++ "" = a)%string.
Proof. induction a as [|x a IH]; [reflexivity|]. rewrite app_String, IH. reflexivity. Qed.

Lemma snoc_app out c (n : string) : (snoc out c ++ n = out ++ String c n)%string.
Proof. unfold snoc. rewrite append_assoc. reflexivity. Qed.

Lemma length_app (a b : string) :
  String.length (a ++ b) = (String.length a + String.length b)%nat.
Proof. induction a as [|x a IH]; [reflexivity|]. rewrite app_String. cbn. rewrite IH. reflexivity. Qed.

Lemma prefix_app (a b : string) : String.prefix a (a ++ b) = true.
Proof.
  induction a as [|x a IH]; [destruct b; reflexivity|].
  rewrite app_String. cbn. rewrite IH. destruct (ascii_dec x x); [reflexivity|congruence].
Qed.

Lemma containsByte_app (a b : string) c :
  Strings.containsByte (a ++ b) c = Strings.containsByte a c || Strings.containsByte b c.
Proof.
  induction a as [|x a IH]; [reflexivity|]. rewrite app_String. cbn [Strings.containsByte].
  rewrite IH. apply orb_assoc.
Qed.

Lemma containsByte_In s c : Strings.containsByte s c = true -> In c (list_ascii_of_string s).
Proof.
  induction s as [|x s IH]; cbn; [discriminate|].
  intros [H|H]%orb_true_iff; [left; symmetry; apply Ascii.eqb_eq, H | right; apply IH, H].
Qed.

Lemma countByte_app (a b : string) c :
  Strings.countByte (a ++ b) c = (Strings.countByte a c + Strings.countByte b c)%nat.
Proof.
  induction a as [|x a IH]; [reflexivity|]. rewrite app_String. cbn [Strings.countByte].
  rewrite IH. lia.
Qed.

Lemma countByte_none s c : Strings.containsByte s c = false -> Strings.countByte s c = 0%nat.
Proof.
  induction s as [|x s IH]; [reflexivity|]. cbn.
  intros [Hx Hs]%orb_false_iff. rewrite Hx, IH by exact Hs. reflexivity.
Qed.

Lemma countByte_le s c : (Strings.countByte s c <= String.length s)%nat.
Proof. induction s as [|x s IH]; cbn; [lia|]. destruct (Ascii.eqb c x); lia. Qed.

End StringFacts.

(** ** Cleaning a path that ends in a separator or in one more element *)

Module PathFacts.
Import Filepath Statements.
Import StringFacts.

Lemma isDot_app c rest q :
  isDot c (rest ++ String Separator q) = isDot c rest.
Proof. unfold isDot. destruct rest; reflexivity. Qed.

Lemma isDot_sep q : isDot Separator q = false.
Proof. reflexivity. Qed.

(** The equation of [cleanLoop] at the start of a path element. *)
Lemma cleanLoop_start c rest rooted out dotdot :
  cleanLoop (String c rest) false rooted out dotdot
  = if isSep c then cleanLoop rest false rooted out dotdot
    else if isDot c rest then cleanLoop rest false rooted out dotdot
    else
      let w := String.length out in
      let real :=
        let out1 :=
          if (rooted && negb (w =? 1)%nat) || (negb rooted && negb (w =? 0)%nat)
          then snoc out Separator else out in
        cleanLoop rest true rooted (snoc out1 c) dotdot in
      match rest with
      | String c2 rest2 =>
          if Ascii.eqb c "."%char && isDot c2 rest2 then
            if (dotdot <? w)%nat then
              cleanLoop rest2 false rooted
                (truncate (backtrack out (w - 1) dotdot) out) dotdot
            else if negb rooted then
              let out1 := if (0 <? w)%nat then snoc out Separator else out in
              let out2 := snoc (snoc out1 ".") "." in
              cleanLoop rest2 false rooted out2 (String.length out2)
            else cleanLoop rest2 false rooted out dotdot
          else real
      | EmptyString => real
      end.
Proof. reflexivity. Qed.

(** Its equation inside a path element. *)
Lemma cleanLoop_inside c rest rooted out dotdot :
  cleanLoop (String c rest) true rooted out dotdot
  = if isSep c then cleanLoop rest false rooted out dotdot
    else cleanLoop rest true rooted (snoc out c) dotdot.
Proof. reflexivity. Qed.

Lemma cleanLoop_sep q inElem rooted out dotdot :
  cleanLoop (String Separator q) inElem rooted out dotdot = cleanLoop q false rooted out dotdot.
Proof. destruct inElem; reflexivity. Qed.

(** Reading [p], a separator and [q] is reading [p] and then, from
    the buffer this gives, [q]; provided that reading [q] does not
    depend on where [..] must stop. *)
Lemma cleanLoop_app_sep q rooted :
  (forall out d d', cleanLoop q false rooted out d = cleanLoop q false rooted out d') ->
  forall n p, (String.length p <= n)%nat ->
  forall inElem out dotdot,
    cleanLoop (p ++ String Separator q) inElem rooted out dotdot
    = cleanLoop q false rooted (cleanLoop p inElem rooted out dotdot) 0.
Proof.
  intros Hq. induction n as [|n IH]; intros p Hlen inElem out dotdot.
  - destruct p; [|cbn in Hlen; lia]. rewrite app_empty. rewrite cleanLoop_sep. apply Hq.
  - destruct p as [|c rest]; [rewrite app_empty, cleanLoop_sep; apply Hq|].
    cbn [String.length] in Hlen. rewrite app_String.
    destruct inElem.
    { rewrite !cleanLoop_inside. destruct (isSep c); apply IH; lia. }
    rewrite !cleanLoop_start, isDot_app.
    destruct (isSep c); [apply IH; lia|].
    destruct (isDot c rest); [apply IH; lia|].
    cbv zeta.
    destruct rest as [|c2 rest2].
    + rewrite app_empty. rewrite isDot_sep, andb_false_r, cleanLoop_sep. apply Hq.
    + rewrite app_String, isDot_app. cbn [String.length] in Hlen.
      destruct (Ascii.eqb c "." && isDot c2 rest2).
      * destruct (dotdot <? String.length out)%nat; [apply IH; lia|].
        destruct (negb rooted); apply IH; lia.
      * rewrite <- app_String. apply IH. cbn. lia.
Qed.

Lemma skip_one_app t q : t <> "" -> skip 1 (t ++ q) = (skip 1 t ++ q)%string.
Proof. destruct t; [congruence|reflexivity]. Qed.

(** A trailing separator does not change the cleaned path. *)
Lemma Clean_trailing_sep t : t <> "" -> Clean (t ++ "/") = Clean t.
Proof.
  intros Ht. unfold Clean.
  destruct t as [|c t']; [congruence|]. rewrite app_String.
  cbn [String.eqb startsWithSep]. rewrite <- app_String.
  rewrite skip_one_app by discriminate.
  change "/"%string with (String Separator "").
  rewrite !(cleanLoop_app_sep "" _ (fun _ _ _ => eq_refl) _ _ (le_n _)).
  reflexivity.
Qed.

Lemma Join_empty t : t <> "" -> Join t "" = Clean t.
Proof.
  intros Ht. unfold Join. cbn [JoinList joinSep].
  destruct (String.eqb_spec t "") as [E|_]; [contradiction|].
  apply Clean_trailing_sep, Ht.
Qed.

(** *** One more element *)

(** Inside an element, bytes are copied up to the next separator. *)
Lemma cleanLoop_copy n :
  forall rooted out dotdot,
    Strings.containsByte n Separator = false ->
    cleanLoop n true rooted out dotdot = (out ++ n)%string.
Proof.
  induction n as [|c n IH]; intros rooted out dotdot Hn.
  - cbn. rewrite append_empty_r. reflexivity.
  - cbn [Strings.containsByte] in Hn. apply orb_false_iff in Hn as [Hc Hn].
    rewrite cleanLoop_inside. unfold isSep. rewrite Ascii.eqb_sym, Hc.
    rewrite IH by exact Hn. apply snoc_app.
Qed.

Lemma cleanLoop_plain n rooted out dotdot :
  plainElem n -> cleanLoop n false rooted out dotdot = pushElem rooted out n.
Proof.
  destruct n as [|c n]; [intros []|]. intros [Hdot Hsep].
  cbn [Strings.containsByte] in Hsep. apply orb_false_iff in Hsep as [Hc Hn].
  rewrite cleanLoop_start. unfold isSep. rewrite Ascii.eqb_sym, Hc.
  assert (Hd : Ascii.eqb c "." = false) by (apply Ascii.eqb_neq, Hdot).
  unfold isDot. rewrite Hd. cbn [andb]. cbv zeta.
  assert (Hreal : forall o, cleanLoop n true rooted (snoc o c) dotdot = (o ++ String c n)%string).
  { intros o. rewrite cleanLoop_copy by exact Hn. apply snoc_app. }
  unfold pushElem. destruct n; apply Hreal.
Qed.

Lemma Clean_app_plain t n :
  t <> "" -> plainElem n ->
  Clean (t ++ "/" ++ n)
  = let rooted := startsWithSep t in
    let out :=
      if rooted then cleanLoop (skip 1 t) false true "/" 1
      else cleanLoop t false false "" 0 in
    pushElem rooted out n.
Proof.
  intros Ht Hn. unfold Clean.
  destruct t as [|c t']; [congruence|]. rewrite app_String.
  cbn [String.eqb startsWithSep]. rewrite <- app_String.
  rewrite skip_one_app by discriminate.
  change ("/" ++ n)%string with (String Separator n).
  assert (Hq : forall rooted out d d',
             cleanLoop n false rooted out d = cleanLoop n false rooted out d').
  { intros. rewrite !cleanLoop_plain by exact Hn. reflexivity. }
  rewrite !(cleanLoop_app_sep n _ (Hq _) _ _ (le_n _)).
  rewrite !cleanLoop_plain by exact Hn. cbv zeta.
  assert (Hne : forall rooted out, String.eqb (pushElem rooted out n) "" = false).
  { intros rooted out. unfold pushElem. destruct n as [|x n]; [destruct Hn|].
    match goal with |- context [if ?b then _ else _] => destruct b end;
      [destruct (snoc out Separator) | destruct out]; reflexivity. }
  cbn [startsWithSep].
  destruct (isSep c); cbv iota; rewrite ?cleanLoop_plain by exact Hn; rewrite Hne; reflexivity.
Qed.

(** *** Rooted paths stay rooted *)

Lemma backtrack_ge out dotdot :
  forall w, (dotdot <= w)%nat -> (dotdot <= backtrack out w dotdot)%nat.
Proof.
  induction w as [|w IH]; intros Hle; [exact Hle|].
  cbn [backtrack]. destruct (dotdot <? S w)%nat eqn:Hlt; cbn [andb]; [|exact Hle].
  destruct (negb (sepAt out (S w))); [|exact Hle].
  apply IH. apply Nat.ltb_lt in Hlt. lia.
Qed.

Lemma startsWithSep_snoc out c : startsWithSep out = true -> startsWithSep (snoc out c) = true.
Proof. destruct out; [discriminate|]. intros H. exact H. Qed.

Lemma startsWithSep_truncate out w :
  (1 <= w)%nat -> startsWithSep out = true -> startsWithSep (truncate w out) = true.
Proof.
  destruct out as [|c out]; [discriminate|]. destruct w as [|w]; [lia|].
  intros _ H. exact H.
Qed.

Lemma cleanLoop_rooted :
  forall n p, (String.length p <= n)%nat ->
  forall inElem out dotdot,
    (1 <= dotdot)%nat -> startsWithSep out = true ->
    startsWithSep (cleanLoop p inElem true out dotdot) = true.
Proof.
  induction n as [|n IH]; intros p Hlen inElem out dotdot Hdd Hout.
  - destruct p; [|cbn in Hlen; lia]. exact Hout.
  - destruct p as [|c rest]; [exact Hout|]. cbn [String.length] in Hlen.
    destruct inElem.
    { rewrite cleanLoop_inside.
      destruct (isSep c); apply IH; auto using startsWithSep_snoc; lia. }
    rewrite cleanLoop_start.
    destruct (isSep c); [apply IH; auto; lia|].
    destruct (isDot c rest); [apply IH; auto; lia|].
    cbv zeta. cbn [andb negb orb].
    assert (Hreal : startsWithSep
                      (cleanLoop rest true true
                         (snoc (if negb (String.length out =? 1)%nat || false
                                then snoc out Separator else out) c) dotdot) = true).
    { apply IH; [lia | exact Hdd |].
      destruct (negb _ || false); auto using startsWithSep_snoc. }
    destruct rest as [|c2 rest2]; [exact Hreal|].
    destruct (Ascii.eqb c "." && isDot c2 rest2); [|exact Hreal].
    cbn [String.length] in Hlen.
    destruct (dotdot <? String.length out)%nat eqn:Hlt; [|apply IH; auto; lia].
    apply IH; [lia | exact Hdd |].
    apply startsWithSep_truncate; [|exact Hout].
    apply Nat.ltb_lt in Hlt.
    pose proof (backtrack_ge out dotdot (String.length out - 1)). lia.
Qed.

End PathFacts.

(** ** The file system: what directory creation and writes keep *)

Module FileSystemFacts.

Lemma resolve_cwd fs fs' path : OS.cwd fs' = OS.cwd fs -> OS.resolve fs' path = OS.resolve fs path.
Proof. intros H. unfold OS.resolve. rewrite H. reflexivity. Qed.

(** [Mkdir] adds at most one node, at a path that held none. *)
Lemma Mkdir_grows fs path fs' err :
  OS.Mkdir fs path = (fs', err) -> OS.cwd fs' = OS.cwd fs /\ OS.nodes fs ⊆ OS.nodes fs'.
Proof.
  unfold OS.Mkdir.
  destruct (OS.nodes fs !! OS.resolve fs path) eqn:Hp; [intros [= <- <-]; auto|].
  destruct (OS.nodes fs !! Filepath.Dir (OS.resolve fs path)) as [parent|];
    [|intros [= <- <-]; auto].
  destruct (OS.isDir parent); intros [= <- <-]; auto.
  split; [reflexivity|]. cbn. apply insert_subseteq, Hp.
Qed.

(** [MkdirAll] only adds nodes, whether it succeeds or not. *)
Lemma mkdirAll_grows fuel :
  forall fs path fs' err,
    OS.mkdirAll fuel fs path = (fs', err) -> OS.cwd fs' = OS.cwd fs /\ OS.nodes fs ⊆ OS.nodes fs'.
Proof.
  induction fuel as [|fuel IH]; intros fs path fs' err; cbn [OS.mkdirAll].
  - intros [= <- <-]. auto.
  - destruct (OS.Stat fs path) as [dir|e0].
    + destruct (OS.isDir dir); intros [= <- <-]; auto.
    + destruct (if (0 <? String.length _)%nat then _ else _) as [fs1 err1] eqn:Hparent.
      assert (H1 : OS.cwd fs1 = OS.cwd fs /\ OS.nodes fs ⊆ OS.nodes fs1).
      { destruct (0 <? String.length _)%nat.
        - eapply IH, Hparent.
        - injection Hparent as <- <-. auto. }
      destruct H1 as [Hc1 Hs1].
      destruct err1 as [e1|]; [intros [= <- <-]; auto|].
      destruct (OS.Mkdir fs1 path) as [fs2 err2] eqn:Hmk.
      apply Mkdir_grows in Hmk as [Hc2 Hs2].
      assert (OS.cwd fs2 = OS.cwd fs /\ OS.nodes fs ⊆ OS.nodes fs2) as Hres.
      { split; [congruence | etransitivity; eassumption]. }
      destruct err2 as [e2|]; [|intros [= <- <-]; exact Hres].
      destruct (OS.Stat fs2 path) as [dir|e3];
        [destruct (OS.isDir dir)|]; intros [= <- <-]; exact Hres.
Qed.

Lemma MkdirAll_grows fs path fs' err :
  OS.MkdirAll fs path = (fs', err) -> OS.cwd fs' = OS.cwd fs /\ OS.nodes fs ⊆ OS.nodes fs'.
Proof. apply mkdirAll_grows. Qed.

(** [WriteFile] changes the node of its path, or nothing. *)
Lemma WriteFile_spec fs path content fs' err :
  OS.WriteFile fs path content = (fs', err) ->
  OS.cwd fs' = OS.cwd fs /\
  match err with
  | None => OS.nodes fs' = <[OS.resolve fs path := OS.fileNode content]> (OS.nodes fs)
  | Some _ => fs' = fs
  end.
Proof.
  unfold OS.WriteFile.
  destruct (OS.nodes fs !! Filepath.Dir (OS.resolve fs path)) as [parent|];
    [|intros [= <- <-]; auto].
  destruct (OS.isDir parent); cbn [negb]; [|intros [= <- <-]; auto].
  destruct (OS.nodes fs !! OS.resolve fs path) as [n|].
  - destruct (OS.isDir n); intros [= <- <-]; auto.
  - intros [= <- <-]; auto.
Qed.

(** The node that [ReadFile] reads. *)
Lemma ReadFile_fileNode fs path content :
  OS.nodes fs !! OS.resolve fs path = Some (OS.fileNode content) ->
  OS.ReadFile fs path = Ok content.
Proof. intros H. unfold OS.ReadFile. rewrite H. reflexivity. Qed.

(** One round of "create the directory, write the file". *)
Lemma write_round fs dir path content fs1 fs2 :
  OS.MkdirAll fs dir = (fs1, None) ->
  OS.WriteFile fs1 path content = (fs2, None) ->
  OS.cwd fs2 = OS.cwd fs /\
  OS.nodes fs2 !! OS.resolve fs path = Some (OS.fileNode content) /\
  forall p n, p <> OS.resolve fs path -> OS.nodes fs !! p = Some n -> OS.nodes fs2 !! p = Some n.
Proof.
  intros Hmk Hwr. apply MkdirAll_grows in Hmk as [Hc1 Hs1].
  apply WriteFile_spec in Hwr as [Hc2 Hn2].
  rewrite (resolve_cwd _ _ _ Hc1) in Hn2.
  split; [congruence|]. rewrite Hn2. split.
  - apply lookup_insert_eq.
  - intros p n Hp Hn. rewrite lookup_insert_ne by congruence.
    eapply lookup_weaken; eassumption.
Qed.

End FileSystemFacts.

(** ** The worker: responses, connections, clean-up *)

Module WorkerFacts.
Import Server Spec Statements.
Import ServerFacts.

Section WithRuntime.
Variable rt : Runtime.
Variable globalConfig : Config.

Lemma buildIn_wellFormed request projectDir w w' response :
  buildIn rt request projectDir
    {| resp_ID := req_ID request; resp_Success := false; resp_Output := "";
       resp_Error := ""; resp_Duration := 0; resp_OutputFiles := None |} w = (w', response) ->
  wellFormed rt request response.
Proof.
  unfold buildIn, wellFormed.
  unfold mbind at 1, M_bind at 1.
  destruct (writeProjectFiles rt projectDir (req_Files request) w) as [w2 [e|]].
  { cbn. intros [= <- <-]. cbn. repeat split; intros; congruence. }
  unfold mbind at 1, M_bind at 1.
  destruct (buildCommand rt request projectDir w2) as [w3 [cmd|e]].
  2: { cbn. intros [= <- <-]. cbn. repeat split; intros; congruence. }
  unfold mbind at 1, M_bind at 1.
  destruct (CombinedOutput rt cmd w3) as [w4 [output [e|]]]; cbn [fst snd].
  { unfold_monad. cbn. intros [= <- <-]. cbn. repeat split; intros; congruence. }
  unfold mbind at 1, M_bind at 1. unfold mbind at 1, M_bind at 1.
  destruct (collectOutputFiles projectDir request w4) as [w5 [outputFiles|e]];
    unfold_monad; cbn; intros [= <- <-]; cbn; repeat split; intros; congruence.
Qed.

Lemma processBuildRequest_wellFormed request w :
  wellFormed rt request (processBuildRequest rt globalConfig request w).2.
Proof.
  destruct (processBuildRequest rt globalConfig request w) as [w' response] eqn:H.
  cbn [snd]. revert H. unfold processBuildRequest.
  unfold mbind at 1, M_bind at 1.
  destruct (createProjectDirectory rt globalConfig request w) as [w1 [projectDir|e]].
  2: { cbn. intros [= <- <-]. unfold wellFormed. cbn. repeat split; intros; congruence. }
  unfold mbind at 1, M_bind at 1.
  destruct (buildIn rt request projectDir _ w1) as [w2 r] eqn:Hin.
  apply buildIn_wellFormed in Hin.
  destruct (cfg_TempDeletion globalConfig); unfold_monad; cbn; intros [= <- <-]; exact Hin.
Qed.

Lemma serve_outbox clientAddr requests :
  forall conn w w' conn',
    serve rt globalConfig clientAddr requests conn w = (w', conn') ->
    exists responses,
      outbox conn' = outbox conn ++ (MsgResponse <$> responses) /\
      Forall2 (wellFormed rt) (take (List.length responses) requests) responses /\
      List.length responses
      = match writesLeft conn with
        | None => List.length requests
        | Some n => Nat.min n (List.length requests)
        end /\
      remoteAddr conn' = remoteAddr conn /\
      closed conn' = closed conn.
Proof.
  induction requests as [|request rest IH]; intros conn w w' conn'.
  - cbn. unfold_monad. intros [= <- <-]. exists []. cbn. rewrite app_nil_r.
    repeat split; [constructor | destruct (writesLeft conn); lia].
  - cbn [serve]. unfold mbind at 1, M_bind at 1.
    destruct (LogDebugf _ _ w) as [w1 []].
    unfold mbind at 1, M_bind at 1.
    pose proof (processBuildRequest_wellFormed request w1) as Hwf.
    destruct (processBuildRequest rt globalConfig request w1) as [w2 response].
    cbn [snd] in Hwf. unfold Encode.
    destruct (writesLeft conn) as [[|n]|] eqn:Hleft.
    + unfold_monad. intros [= <- <-]. exists []. cbn. rewrite app_nil_r.
      repeat split. constructor.
    + intros Hserve. apply IH in Hserve as (responses & Hout & Hall & Hlen & Haddr & Hclosed).
      cbn in Hout, Hlen, Haddr, Hclosed.
      exists (response :: responses). cbn [List.length take fmap list_fmap].
      rewrite Hout, <- app_assoc. cbn.
      repeat split; [constructor; assumption | lia | assumption ..].
    + intros Hserve. apply IH in Hserve as (responses & Hout & Hall & Hlen & Haddr & Hclosed).
      cbn in Hout, Hlen, Haddr, Hclosed.
      exists (response :: responses). cbn [List.length take fmap list_fmap].
      rewrite Hout, <- app_assoc. cbn.
      repeat split; [constructor; assumption | lia | assumption ..].
Qed.

Lemma handleClientConnection_spec s conn requests w w' s' conn' :
  handleClientConnection rt globalConfig s conn requests w = (w', (s', conn')) ->
  let clientAddr := remoteAddr conn in
  let serverInfo :=
    {| info_ID := id s; info_Address := rt_LocalIP rt; info_Port := port s;
       info_Capacity := capacity s; info_Version := Version |} in
  closed conn' = true /\
  id s' = id s /\
  (writesLeft conn <> Some O ->
   clients s' = delete clientAddr (clients s) /\
   exists responses,
     outbox conn' = outbox conn ++ MsgInfo serverInfo :: (MsgResponse <$> responses) /\
     Forall2 (wellFormed rt) (take (List.length responses) requests) responses) /\
  (writesLeft conn = Some O ->
   clients s' = <[clientAddr := {| cc_addr := clientAddr |}]> (clients s) /\
   outbox conn' = outbox conn /\
   fs w' = fs w).
Proof.
  unfold handleClientConnection. unfold mbind at 1, M_bind at 1.
  destruct (LogInfof _ _ w) as [w1 []] eqn:Hlog.
  assert (Hfs : fs w1 = fs w) by (unfold LogInfof in Hlog; injection Hlog as <-; reflexivity).
  unfold Encode at 1.
  destruct (writesLeft conn) as [[|n]|] eqn:Hleft.
  - unfold_monad. intros [= <- <- <-]. cbn.
    repeat split; try congruence.
  - unfold mbind at 1, M_bind at 1.
    destruct (serve _ _ _ _ _ w1) as [w2 conn2] eqn:Hserve.
    apply serve_outbox in Hserve as (responses & Hout & Hall & _ & _ & _).
    cbn in Hout. unfold_monad. intros [= <- <- <-]. cbn.
    repeat split; try congruence.
    + rewrite delete_insert_eq. reflexivity.
    + exists responses. rewrite Hout, <- app_assoc. split; [reflexivity|assumption].
  - unfold mbind at 1, M_bind at 1.
    destruct (serve _ _ _ _ _ w1) as [w2 conn2] eqn:Hserve.
    apply serve_outbox in Hserve as (responses & Hout & Hall & _ & _ & _).
    cbn in Hout. unfold_monad. intros [= <- <- <-]. cbn.
    repeat split; try congruence.
    + rewrite delete_insert_eq. reflexivity.
    + exists responses. rewrite Hout, <- app_assoc. split; [reflexivity|assumption].
Qed.

Lemma command_failure request w w1 w2 w3 w4 projectDir cmd output err :
  createProjectDirectory rt globalConfig request w = (w1, Ok projectDir) ->
  writeProjectFiles rt projectDir (req_Files request) w1 = (w2, None) ->
  buildCommand rt request projectDir w2 = (w3, Ok cmd) ->
  CombinedOutput rt cmd w3 = (w4, (output, Some err)) ->
  exists w',
    processBuildRequest rt globalConfig request w
    = (w', {| resp_ID := req_ID request; resp_Success := false;
              resp_Output := string_of_list_byte output; resp_Error := Error err;
              resp_Duration := rt_Since rt; resp_OutputFiles := None |}) /\
    fs w' = (if cfg_TempDeletion globalConfig then OS.RemoveAll (fs w4) projectDir else fs w4) /\
    log w'
    = log w4
      ++ [{| level := LogLevelDebug;
             message := Sprintf "Build %s completed in %v, success: %v (files: %d, output: %d)"
                          [req_ID request; itoa (rt_Since rt); "false";
                           itoa (Z.of_nat (size (req_Files request))); "0"] |}]
      ++ (if cfg_TempDeletion globalConfig then []
          else [{| level := LogLevelDebug;
                   message := Sprintf "Temporary directory preserved: %s" [projectDir] |}]).
Proof.
  intros Hdir Hwrite Hcmd Hrun.
  unfold processBuildRequest, buildIn.
  unfold mbind at 1, M_bind at 1. rewrite Hdir.
  unfold mbind at 1, M_bind at 1. unfold mbind at 1, M_bind at 1. rewrite Hwrite.
  unfold mbind at 1, M_bind at 1. rewrite Hcmd.
  unfold mbind at 1, M_bind at 1. rewrite Hrun. cbn [fst snd].
  unfold_monad. cbn.
  destruct (cfg_TempDeletion globalConfig); cbn;
    (eexists; split; [reflexivity|]); cbn; (split; [reflexivity|]);
    rewrite <- ?app_assoc; reflexivity.
Qed.

Lemma RemoveAll_under fs path k :
  OS.under (OS.resolve fs path) k = true -> OS.nodes (OS.RemoveAll fs path) !! k = None.
Proof.
  intros Hunder. unfold OS.RemoveAll. cbn.
  apply map_lookup_filter_None. right. intros n _. cbn. congruence.
Qed.

Lemma RemoveAll_cwd fs path : OS.cwd (OS.RemoveAll fs path) = OS.cwd fs.
Proof. reflexivity. Qed.

Lemma temp_deletion request w w1 projectDir :
  createProjectDirectory rt globalConfig request w = (w1, Ok projectDir) ->
  let built := (buildIn rt request projectDir
                  {| resp_ID := req_ID request; resp_Success := false; resp_Output := "";
                     resp_Error := ""; resp_Duration := 0; resp_OutputFiles := None |} w1).1 in
  let w' := (processBuildRequest rt globalConfig request w).1 in
  (cfg_TempDeletion globalConfig = true ->
   log w' = log built /\
   forall k, OS.under (OS.resolve (fs w') projectDir) k = true -> OS.nodes (fs w') !! k = None) /\
  (cfg_TempDeletion globalConfig = false ->
   fs w' = fs built /\
   log w' = log built ++ [{| level := LogLevelDebug;
                             message := Sprintf "Temporary directory preserved: %s" [projectDir] |}]).
Proof.
  intros Hdir built w'. subst built w'.
  destruct (processBuildRequest rt globalConfig request w) as [w' r] eqn:H.
  revert H. unfold processBuildRequest.
  unfold mbind at 1, M_bind at 1. rewrite Hdir.
  unfold mbind at 1, M_bind at 1.
  destruct (buildIn rt request projectDir _ w1) as [w2 response]. cbn [fst].
  split; intros Ht; rewrite Ht in H; revert H; unfold_monad; cbn; intros [= <- <-]; cbn.
  - split; [reflexivity|]. intros k Hk. apply RemoveAll_under. exact Hk.
  - split; reflexivity.
Qed.

(** X1. Every response that [processBuildRequest] returns carries the
    id of its request and the measured duration; a response that
    reports success has no error text, and one that reports failure
    has no output files. *)
Theorem response_well_formed :
  forall request w,
    wellFormed rt request (processBuildRequest rt globalConfig request w).2.
Proof. exact processBuildRequest_wellFormed. Qed.

(** X2. The request loop of [handleClientConnection] answers the
    requests in the order they arrive, each with the response of
    [processBuildRequest] for it, and writes nothing else; it answers
    all of them on a transport that accepts every write, and as many
    as the transport accepts otherwise. *)
Theorem responses_follow_requests :
  forall clientAddr requests conn w,
    let conn' := (serve rt globalConfig clientAddr requests conn w).2 in
    exists responses,
      outbox conn' = outbox conn ++ (MsgResponse <$> responses) /\
      Forall2 (wellFormed rt) (take (List.length responses) requests) responses /\
      List.length responses
      = match writesLeft conn with
        | None => List.length requests
        | Some n => Nat.min n (List.length requests)
        end /\
      remoteAddr conn' = remoteAddr conn /\
      closed conn' = closed conn.
Proof.
  intros clientAddr requests conn w conn'. subst conn'.
  destruct (serve rt globalConfig clientAddr requests conn w) as [w' conn'] eqn:H.
  eapply serve_outbox, H.
Qed.

(** X3. [handleClientConnection] always closes the connection. When
    the server information can be written it is the first message,
    with the worker's own [Version], the responses follow it, and the
    client is taken out of the registry at the end. When it cannot be
    written, nothing else is written, no request is processed, and
    the client stays in the registry. *)
Theorem connection_registry :
  forall s conn requests,
    let clientAddr := remoteAddr conn in
    let serverInfo :=
      {| info_ID := id s; info_Address := rt_LocalIP rt; info_Port := port s;
         info_Capacity := capacity s; info_Version := Version |} in
    forall w,
      let r := handleClientConnection rt globalConfig s conn requests w in
      closed r.2.2 = true /\
      (writesLeft conn <> Some O ->
       clients r.2.1 = delete clientAddr (clients s) /\
       exists responses,
         outbox r.2.2 = outbox conn ++ MsgInfo serverInfo :: (MsgResponse <$> responses) /\
         Forall2 (wellFormed rt) (take (List.length responses) requests) responses) /\
      (writesLeft conn = Some O ->
       clients r.2.1 = <[clientAddr := {| cc_addr := clientAddr |}]> (clients s) /\
       outbox r.2.2 = outbox conn /\
       fs r.1 = fs w).
Proof.
  intros s conn requests clientAddr serverInfo w r. subst r.
  destruct (handleClientConnection rt globalConfig s conn requests w) as [w' [s' conn']] eqn:H.
  apply handleClientConnection_spec in H as (Hclosed & _ & Hok & Hfail).
  cbn [fst snd]. auto.
Qed.

(** X4. When the build command fails, the response says so: it has
    [success = false], the error of the command as error text, the
    output of the command, and no output files. The project directory
    is not searched for output files: the file system is what the
    command left (less the project directory, when temporary
    directories are deleted) and the log gains the completion line
    only (and the line about the preserved directory). *)
Theorem command_failure_reported :
  forall request w w1 w2 w3 w4 projectDir cmd output err,
    createProjectDirectory rt globalConfig request w = (w1, Ok projectDir) ->
    writeProjectFiles rt projectDir (req_Files request) w1 = (w2, None) ->
    buildCommand rt request projectDir w2 = (w3, Ok cmd) ->
    CombinedOutput rt cmd w3 = (w4, (output, Some err)) ->
    exists w',
      processBuildRequest rt globalConfig request w
      = (w', {| resp_ID := req_ID request; resp_Success := false;
                resp_Output := string_of_list_byte output; resp_Error := Error err;
                resp_Duration := rt_Since rt; resp_OutputFiles := None |}) /\
      fs w' = (if cfg_TempDeletion globalConfig then OS.RemoveAll (fs w4) projectDir
               else fs w4) /\
      log w'
      = log w4
        ++ [{| level := LogLevelDebug;
               message := Sprintf "Build %s completed in %v, success: %v (files: %d, output: %d)"
                            [req_ID request; itoa (rt_Since rt); "false";
                             itoa (Z.of_nat (size (req_Files request))); "0"] |}]
        ++ (if cfg_TempDeletion globalConfig then []
            else [{| level := LogLevelDebug;
                     message := Sprintf "Temporary directory preserved: %s" [projectDir] |}]).
Proof. exact command_failure. Qed.

(** X5. The deferred clean-up of [processBuildRequest]. With
    [temp_deletion] set, nothing is left at or below the project
    directory when the request returns, and nothing is logged about
    it. Without it the file system is left as the build left it and
    the directory is named in the log. *)
Theorem temp_directory_cleanup :
  forall request w w1 projectDir,
    createProjectDirectory rt globalConfig request w = (w1, Ok projectDir) ->
    let built := (buildIn rt request projectDir
                    {| resp_ID := req_ID request; resp_Success := false; resp_Output := "";
                       resp_Error := ""; resp_Duration := 0; resp_OutputFiles := None |} w1).1 in
    let w' := (processBuildRequest rt globalConfig request w).1 in
    (cfg_TempDeletion globalConfig = true ->
     log w' = log built /\
     forall k, OS.under (OS.resolve (fs w') projectDir) k = true ->
               OS.nodes (fs w') !! k = None) /\
    (cfg_TempDeletion globalConfig = false ->
     fs w' = fs built /\
     log w' = log built ++ [{| level := LogLevelDebug;
                               message := Sprintf "Temporary directory preserved: %s"
                                            [projectDir] |}]).
Proof. exact temp_deletion. Qed.

(** X6. A request without a project name has the temporary directory
    itself as project directory; with [temp_deletion] set, the
    temporary directory and everything in it are gone when the request
    returns. *)
Theorem empty_project_name_removes_temp_dir :
  forall request w w1 projectDir,
    req_ProjectName request = "" ->
    GetTempDir rt globalConfig <> "" ->
    cfg_TempDeletion globalConfig = true ->
    createProjectDirectory rt globalConfig request w = (w1, Ok projectDir) ->
    let tempDir := Filepath.Clean (GetTempDir rt globalConfig) in
    let w' := (processBuildRequest rt globalConfig request w).1 in
    projectDir = tempDir /\
    forall k, OS.under (OS.resolve (fs w') tempDir) k = true -> OS.nodes (fs w') !! k = None.
Proof.
  intros request w w1 projectDir Hname Htemp Hdel Hdir tempDir w'.
  assert (Hpd : projectDir = tempDir).
  { revert Hdir. unfold createProjectDirectory. rewrite Hname.
    rewrite (PathFacts.Join_empty _ Htemp). unfold_monad.
    destruct (OS.MkdirAll (fs w) _) as [fs1 [e|]]; intros [= _ <-]. reflexivity. }
  split; [exact Hpd|]. subst tempDir. rewrite <- Hpd.
  apply (proj1 (temp_deletion _ _ _ _ Hdir) Hdel).
Qed.

End WithRuntime.

Lemma connection_registry_witness :
  let conn := {| remoteAddr := "10.0.0.9:50000"; outbox := []; writesLeft := Some O;
                 closed := false |} in
  let s := Worker.NewServer (Ok "builder") [] 8080 4 in
  let r := handleClientConnection Examples.rt0 Examples.cfg0 s conn [Examples.build]
             Examples.w0 in
  writesLeft conn = Some O /\
  clients r.2.1 = <["10.0.0.9:50000" := {| cc_addr := "10.0.0.9:50000" |}]> ∅ /\
  outbox r.2.2 = [] /\
  fs r.1 = fs Examples.w0.
Proof.
  intros conn s r. split; [reflexivity|].
  exact (proj2 (proj2 (connection_registry Examples.rt0 Examples.cfg0 s conn [Examples.build]
                         Examples.w0)) eq_refl).
Defined.

Lemma command_failure_witness :
  let rt := Samples.rtFailing in
  let r := processBuildRequest rt Examples.cfg0 Examples.build Examples.w0 in
  r.2 = {| resp_ID := "1"; resp_Success := false;
           resp_Output := "main.go:1: syntax error"; resp_Error := "exit status 1";
           resp_Duration := 5; resp_OutputFiles := None |} /\
  OS.nodes (fs r.1) !! "/tmp/project_1" = None.
Proof.
  intros rt r.
  pose (x1 := createProjectDirectory rt Examples.cfg0 Examples.build Examples.w0).
  pose (x2 := writeProjectFiles rt "/tmp/project_1" (req_Files Examples.build) x1.1).
  pose (x3 := buildCommand rt Examples.build "/tmp/project_1" x2.1).
  pose (cmd := {| cmd_Path := "go"; cmd_Args := ["go"; "build"; "-o"; "out/app.exe"; "."];
                  cmd_Dir := "/tmp/project_1"; cmd_Env := None |}).
  pose (x4 := CombinedOutput rt cmd x3.1).
  assert (H1 : x1 = (x1.1, Ok "/tmp/project_1")) by (vm_compute; reflexivity).
  assert (H2 : x2 = (x2.1, None)) by (vm_compute; reflexivity).
  assert (H3 : x3 = (x3.1, Ok cmd)) by (vm_compute; reflexivity).
  assert (H4 : x4 = (x4.1, (list_byte_of_string "main.go:1: syntax error",
                            Some (ExecError "exit status 1")))) by (vm_compute; reflexivity).
  destruct (command_failure_reported rt Examples.cfg0 Examples.build Examples.w0
              _ _ _ _ _ _ _ _ H1 H2 H3 H4) as (w' & Hr & Hfs & _).
  subst r. rewrite Hr. split; [vm_compute; reflexivity|].
  cbn [fst]. rewrite Hfs. vm_compute. reflexivity.
Defined.

Lemma temp_directory_witness :
  let r := processBuildRequest Examples.rt0 Examples.cfg0 Examples.build Examples.w0 in
  cfg_TempDeletion Examples.cfg0 = true /\
  OS.under (OS.resolve (fs r.1) "/tmp/project_1") "/tmp/project_1/out/app.exe" = true /\
  OS.nodes (fs r.1) !! "/tmp/project_1/out/app.exe" = None.
Proof.
  intros r.
  pose (x1 := createProjectDirectory Examples.rt0 Examples.cfg0 Examples.build Examples.w0).
  assert (H1 : x1 = (x1.1, Ok "/tmp/project_1")) by (vm_compute; reflexivity).
  assert (Hunder : OS.under (OS.resolve (fs r.1) "/tmp/project_1")
                     "/tmp/project_1/out/app.exe" = true) by (vm_compute; reflexivity).
  split; [reflexivity|]. split; [exact Hunder|].
  exact (proj2 (proj1 (temp_directory_cleanup Examples.rt0 Examples.cfg0 Examples.build
                         Examples.w0 _ _ H1) eq_refl) _ Hunder).
Defined.

Lemma empty_project_name_witness :
  let r := processBuildRequest Examples.rt0 Examples.cfg0 Samples.unnamed Examples.w0 in
  req_ProjectName Samples.unnamed = "" /\
  OS.nodes (fs Examples.w0) !! "/tmp" = Some OS.dirNode /\
  OS.nodes (fs r.1) !! "/tmp" = None.
Proof.
  intros r.
  pose (x1 := createProjectDirectory Examples.rt0 Examples.cfg0 Samples.unnamed Examples.w0).
  assert (H1 : x1 = (x1.1, Ok "/tmp")) by (vm_compute; reflexivity).
  assert (Htemp : GetTempDir Examples.rt0 Examples.cfg0 <> "") by (vm_compute; discriminate).
  assert (Hunder : OS.under (OS.resolve (fs r.1)
                               (Filepath.Clean (GetTempDir Examples.rt0 Examples.cfg0)))
                     "/tmp" = true) by (vm_compute; reflexivity).
  split; [reflexivity|]. split; [vm_compute; reflexivity|].
  exact (proj2 (empty_project_name_removes_temp_dir Examples.rt0 Examples.cfg0 Samples.unnamed
                  Examples.w0 _ _ eq_refl Htemp eq_refl H1) _ Hunder).
Defined.

End WorkerFacts.

(** ** Materialization of the project files on the worker *)

Module MaterializeFacts.
Import Server Statements.
Import ServerFacts FileSystemFacts.

Lemma writeEach_files projectDir entries :
  forall w w',
    writeEach projectDir entries w = (w', None) ->
    OS.cwd (fs w') = OS.cwd (fs w) /\
    (forall p n,
        OS.nodes (fs w) !! p = Some n ->
        OS.nodes (fs w') !! p = Some n \/
        exists key content,
          In (key, content) entries /\ target (fs w) projectDir key = p /\
          OS.nodes (fs w') !! p = Some (OS.fileNode (list_byte_of_string content))) /\
    (forall key content,
        In (key, content) entries ->
        exists key' content',
          In (key', content') entries /\
          target (fs w) projectDir key' = target (fs w) projectDir key /\
          OS.nodes (fs w') !! target (fs w) projectDir key
          = Some (OS.fileNode (list_byte_of_string content'))).
Proof.
  induction entries as [|[relativePath content] rest IH]; intros w w'.
  - cbn. unfold_monad. intros [= <-]. repeat split; auto. intros ? ? [].
  - cbn [writeEach]. unfold mbind at 1, M_bind at 1. unfold onFS at 1.
    destruct (OS.MkdirAll (fs w) _) as [fs1 [e|]] eqn:Hmk; [unfold_monad; discriminate|].
    unfold mbind at 1, M_bind at 1. unfold onFS at 1. cbn [fs].
    destruct (OS.WriteFile fs1 _ _) as [fs2 [e|]] eqn:Hwr; [unfold_monad; discriminate|].
    intros Hrest. apply IH in Hrest as (Hcwd & Hkeep & Hall). cbn [fs] in *.
    destruct (write_round _ _ _ _ _ _ Hmk Hwr) as (Hc2 & Hhere & Hother).
    assert (Htarget : forall key, target fs2 projectDir key = target (fs w) projectDir key).
    { intros key. apply resolve_cwd, Hc2. }
    split; [congruence|]. split.
    + intros p n Hp.
      destruct (decide (p = target (fs w) projectDir relativePath)) as [->|Hne].
      * right.
        destruct (Hkeep _ _ Hhere) as [Hstill | (key & content' & Hin & Ht & Hn)].
        -- exists relativePath, content. split; [left; reflexivity|]. split; [reflexivity|].
           exact Hstill.
        -- exists key, content'. rewrite Htarget in Ht.
           split; [right; exact Hin|]. split; assumption.
      * destruct (Hkeep p n (Hother p n Hne Hp)) as [Hstill | (key & content' & Hin & Ht & Hn)].
        -- left. exact Hstill.
        -- right. exists key, content'. rewrite Htarget in Ht.
           split; [right; exact Hin|]. split; assumption.
    + intros key content' [[= <- <-] | Hin].
      * destruct (Hkeep _ _ Hhere) as [Hstill | (key & content' & Hin & Ht & Hn)].
        -- exists relativePath, content. split; [left; reflexivity|]. split; [reflexivity|].
           exact Hstill.
        -- exists key, content'. rewrite Htarget in Ht.
           split; [right; exact Hin|]. split; assumption.
      * destruct (Hall _ _ Hin) as (key' & content'' & Hin' & Ht & Hn).
        rewrite !Htarget in Ht. rewrite Htarget in Hn.
        exists key', content''. split; [right; exact Hin'|]. split; assumption.
Qed.

Lemma faithful_In rt {V} (m : gmap string V) k v :
  Ranges.faithful rt -> In (k, v) (rt_range rt m) <-> m !! k = Some v.
Proof.
  intros Hrt. rewrite <- list_elem_of_In, (Hrt V m). apply elem_of_map_to_list.
Qed.

Lemma faithful_NoDup rt {V} (m : gmap string V) :
  Ranges.faithful rt -> NoDup (rt_range rt m).*1.
Proof.
  intros Hrt. rewrite (Hrt V m). apply NoDup_fst_map_to_list.
Qed.

Lemma writeProjectFiles_files rt projectDir files w w' :
  Ranges.faithful rt ->
  writeProjectFiles rt projectDir files w = (w', None) ->
  (forall key content,
      files !! key = Some content ->
      exists key' content',
        files !! key' = Some content' /\
        target (fs w) projectDir key' = target (fs w) projectDir key /\
        OS.ReadFile (fs w') (Filepath.Join projectDir (Filepath.FromSlash key))
        = Ok (list_byte_of_string content')) /\
  ((forall key key',
       is_Some (files !! key) -> is_Some (files !! key') ->
       target (fs w) projectDir key' = target (fs w) projectDir key -> key' = key) ->
   forall key content,
     files !! key = Some content ->
     OS.ReadFile (fs w') (Filepath.Join projectDir (Filepath.FromSlash key))
     = Ok (list_byte_of_string content)).
Proof.
  intros Hrt Hwrite. unfold writeProjectFiles in Hwrite.
  apply writeEach_files in Hwrite as (Hcwd & _ & Hall).
  assert (Hfirst : forall key content,
             files !! key = Some content ->
             exists key' content',
               files !! key' = Some content' /\
               target (fs w) projectDir key' = target (fs w) projectDir key /\
               OS.ReadFile (fs w') (Filepath.Join projectDir (Filepath.FromSlash key))
               = Ok (list_byte_of_string content')).
  { intros key content Hkey. apply (faithful_In rt) in Hkey; [|exact Hrt].
    destruct (Hall _ _ Hkey) as (key' & content' & Hin & Ht & Hn).
    exists key', content'. split; [apply (faithful_In rt) in Hin; assumption|].
    split; [exact Ht|]. apply ReadFile_fileNode.
    unfold target in Hn. rewrite (resolve_cwd _ _ _ Hcwd). exact Hn. }
  split; [exact Hfirst|].
  intros Hinj key content Hkey.
  destruct (Hfirst _ _ Hkey) as (key' & content' & Hkey' & Ht & Hread).
  assert (key' = key) as -> by (apply Hinj; [eexists; eauto .. | exact Ht]).
  congruence.
Qed.

(** X7. When [writeProjectFiles] succeeds, every key of the files
    mapping names a regular file of the project directory, and that
    file holds the content of a key that names the same file (two keys
    such as [a] and [./a] name one file, and the one that [range]
    visits last wins). If no two keys name the same file, every file
    holds the content of its own key. *)
Theorem project_files_materialized :
  forall rt projectDir files w w',
    Ranges.faithful rt ->
    writeProjectFiles rt projectDir files w = (w', None) ->
    (forall key content,
        files !! key = Some content ->
        exists key' content',
          files !! key' = Some content' /\
          target (fs w) projectDir key' = target (fs w) projectDir key /\
          OS.ReadFile (fs w') (Filepath.Join projectDir (Filepath.FromSlash key))
          = Ok (list_byte_of_string content')) /\
    ((forall key key',
         is_Some (files !! key) -> is_Some (files !! key') ->
         target (fs w) projectDir key' = target (fs w) projectDir key -> key' = key) ->
     forall key content,
       files !! key = Some content ->
       OS.ReadFile (fs w') (Filepath.Join projectDir (Filepath.FromSlash key))
       = Ok (list_byte_of_string content)).
Proof. exact writeProjectFiles_files. Qed.

Lemma faithful_rt0 : Ranges.faithful Examples.rt0.
Proof. intros V m. reflexivity. Qed.

Lemma project_files_materialized_witness :
  let rt := Examples.rt0 in
  let w := (createProjectDirectory rt Examples.cfg0 Examples.build Examples.w0).1 in
  let w' := (writeProjectFiles rt "/tmp/project_1" Examples.sources w).1 in
  Examples.sources !! "main.go" = Some "package main" /\
  exists key' content',
    Examples.sources !! key' = Some content' /\
    target (fs w) "/tmp/project_1" key' = target (fs w) "/tmp/project_1" "main.go" /\
    OS.ReadFile (fs w') (Filepath.Join "/tmp/project_1" (Filepath.FromSlash "main.go"))
    = Ok (list_byte_of_string content').
Proof.
  intros rt w w'.
  assert (Hwrite : writeProjectFiles rt "/tmp/project_1" Examples.sources w = (w', None))
    by (vm_compute; reflexivity).
  assert (Hkey : Examples.sources !! "main.go" = Some "package main")
    by (vm_compute; reflexivity).
  split; [exact Hkey|].
  exact (proj1 (project_files_materialized rt "/tmp/project_1" Examples.sources w w'
                  faithful_rt0 Hwrite) "main.go" "package main" Hkey).
Defined.

End MaterializeFacts.

(** ** Saving the output files on the coordinator *)

Module SaveFacts.
Import Client Statements.
Import ServerFacts FileSystemFacts MaterializeFacts.

Lemma LogDebugf_eq format args w :
  LogDebugf format args w = ({| fs := fs w; log := log w ++ [warning format args] |}, tt).
Proof. reflexivity. Qed.

Lemma handled_cons fs0 fs1 fs' workdir entry rest first added key encoded :
  OS.cwd fs1 = OS.cwd fs0 ->
  handled fs1 fs' workdir rest added key encoded ->
  handled fs0 fs' workdir (entry :: rest) (first ++ added) key encoded.
Proof.
  intros Hcwd. unfold handled, target. rewrite !(resolve_cwd fs0 fs1) by exact Hcwd.
  destruct (Base64.DecodeString encoded) as [content [e|]].
  - intros H. apply in_or_app. right. exact H.
  - intros [(key' & encoded' & content' & Hin & Hd & Ht & Hr)|[[e He]|[e He]]].
    + left. exists key', encoded', content'.
      rewrite !(resolve_cwd fs0 fs1) in Ht by exact Hcwd. auto using in_cons.
    + right. left. exists e. apply in_or_app. right. exact He.
    + right. right. exists e. apply in_or_app. right. exact He.
Qed.

Lemma keptOrSaved_cons fs0 fs1 fs' workdir entry rest :
  OS.cwd fs1 = OS.cwd fs0 ->
  OS.nodes fs0 ⊆ OS.nodes fs1 ->
  keptOrSaved fs1 fs' workdir rest ->
  keptOrSaved fs0 fs' workdir (entry :: rest).
Proof.
  intros Hcwd Hsub Hkeep p n Hp.
  destruct (Hkeep p n (lookup_weaken _ _ _ _ Hp Hsub))
    as [H|(key & encoded & content & Hin & Hd & Ht & Hn)]; [left; exact H|].
  right. exists key, encoded, content. unfold target in *.
  rewrite (resolve_cwd fs0 fs1) in Ht by exact Hcwd. auto using in_cons.
Qed.

Lemma saveEach_files workdir entries :
  forall w w' u,
    saveEach workdir entries w = (w', u) ->
    OS.cwd (fs w') = OS.cwd (fs w) /\
    keptOrSaved (fs w) (fs w') workdir entries /\
    exists added,
      log w' = log w ++ added /\
      forall key encoded,
        In (key, encoded) entries -> handled (fs w) (fs w') workdir entries added key encoded.
Proof.
  induction entries as [|[relPath encodedContent] rest IH]; intros w w' u.
  - cbn. unfold_monad. intros [= <-]. split; [reflexivity|]. split; [left; assumption|].
    exists []. rewrite app_nil_r. split; [reflexivity|]. intros ? ? [].
  - cbn [saveEach].
    destruct (Base64.DecodeString encodedContent) as [content [e|]] eqn:Hdec.
    + (* not decodable *)
      unfold mbind at 1, M_bind at 1. rewrite LogDebugf_eq.
      intros Hrest. apply IH in Hrest as (Hcwd & Hkeep & added & Hlog & Hall). cbn [fs log] in *.
      split; [exact Hcwd|].
      split; [apply (keptOrSaved_cons _ (fs w)); [reflexivity .. | exact Hkeep]|].
      eexists. split; [rewrite Hlog, <- app_assoc; reflexivity|].
      intros key enc [[= <- <-]|Hin]; [|apply (handled_cons _ (fs w)); auto].
      unfold handled. rewrite Hdec. apply in_or_app. left. left. reflexivity.
    + unfold mbind at 1, M_bind at 1. unfold onFS at 1.
      destruct (OS.MkdirAll (fs w) _) as [fs1 [e|]] eqn:Hmk.
      * (* the directory cannot be created *)
        unfold mbind at 1, M_bind at 1. rewrite LogDebugf_eq.
        intros Hrest. apply IH in Hrest as (Hcwd & Hkeep & added & Hlog & Hall).
        cbn [fs log] in *.
        apply MkdirAll_grows in Hmk as [Hc1 Hs1].
        split; [congruence|]. split; [apply (keptOrSaved_cons _ fs1); assumption|].
        eexists. split; [rewrite Hlog, <- app_assoc; reflexivity|].
        intros key enc [[= <- <-]|Hin]; [|apply (handled_cons _ fs1); auto].
        unfold handled. rewrite Hdec. right. left. exists e.
        apply in_or_app. left. left. reflexivity.
      * unfold mbind at 1, M_bind at 1. unfold onFS at 1. cbn [fs log].
        destruct (OS.WriteFile fs1 _ _) as [fs2 [e|]] eqn:Hwr.
        -- (* the file cannot be written *)
           unfold mbind at 1, M_bind at 1. rewrite LogDebugf_eq.
           intros Hrest. apply IH in Hrest as (Hcwd & Hkeep & added & Hlog & Hall).
           cbn [fs log] in *.
           apply MkdirAll_grows in Hmk as [Hc1 Hs1].
           apply WriteFile_spec in Hwr as [Hc2 ->].
           split; [congruence|]. split; [apply (keptOrSaved_cons _ fs1); assumption|].
           eexists. split; [rewrite Hlog, <- app_assoc; reflexivity|].
           intros key enc [[= <- <-]|Hin]; [|apply (handled_cons _ fs1); auto].
           unfold handled. rewrite Hdec. right. right. exists e.
           apply in_or_app. left. left. reflexivity.
        -- (* saved *)
           unfold mbind at 1, M_bind at 1. rewrite LogDebugf_eq.
           intros Hrest. apply IH in Hrest as (Hcwd & Hkeep & added & Hlog & Hall).
           cbn [fs log] in *.
           destruct (write_round _ _ _ _ _ _ Hmk Hwr) as (Hc2 & Hhere & Hother).
           assert (Htarget : forall key, target fs2 workdir key = target (fs w) workdir key).
           { intros key. apply resolve_cwd, Hc2. }
           assert (Hmine :
                     exists key' encoded' content',
                       In (key', encoded') ((relPath, encodedContent) :: rest) /\
                       Base64.DecodeString encoded' = (content', None) /\
                       target (fs w) workdir key' = target (fs w) workdir relPath /\
                       OS.nodes (fs w') !! target (fs w) workdir relPath
                       = Some (OS.fileNode content')).
           { destruct (Hkeep _ _ Hhere) as [Hstill|(key & enc & c & Hin & Hd & Ht & Hn)].
             - exists relPath, encodedContent, content. split; [left; reflexivity|]. auto.
             - exists key, enc, c. rewrite Htarget in Ht. auto using in_cons. }
           split; [congruence|]. split.
           ++ intros p n Hp.
              destruct (decide (p = target (fs w) workdir relPath)) as [->|Hne].
              ** right. destruct Hmine as (key & enc & c & Hin & Hd & Ht & Hn).
                 exists key, enc, c. auto.
              ** destruct (Hkeep p n (Hother p n Hne Hp))
                   as [H|(key & enc & c & Hin & Hd & Ht & Hn)]; [left; exact H|].
                 right. exists key, enc, c. rewrite Htarget in Ht. auto using in_cons.
           ++ eexists. split; [rewrite Hlog, <- app_assoc; reflexivity|].
              intros key enc [[= <- <-]|Hin]; [|apply (handled_cons _ fs2); auto].
              unfold handled. rewrite Hdec. left.
              destruct Hmine as (key & enc & c & Hin & Hd & Ht & Hn).
              exists key, enc, c. split; [exact Hin|]. split; [exact Hd|].
              split; [exact Ht|]. apply ReadFile_fileNode.
              rewrite (resolve_cwd (fs w) (fs w')) by congruence. exact Hn.
Qed.

Section WithRuntime.
Variable rt : Runtime.

Lemma saveOutputFiles_handled workdir outputFiles w :
  Ranges.faithful rt ->
  exists w' added,
    saveOutputFiles rt workdir outputFiles w = (w', None) /\
    OS.cwd (fs w') = OS.cwd (fs w) /\
    log w' = log w ++ added /\
    forall key encoded,
      outputFiles !! key = Some encoded ->
      handled (fs w) (fs w') workdir (map_to_list outputFiles) added key encoded.
Proof.
  intros Hrt. unfold saveOutputFiles.
  unfold mbind at 1, M_bind at 1.
  destruct (saveEach workdir (rt_range rt outputFiles) w) as [w1 u] eqn:Hsave.
  apply saveEach_files in Hsave as (Hcwd & _ & added & Hlog & Hall).
  unfold mbind at 1, M_bind at 1. rewrite LogDebugf_eq. unfold_monad.
  eexists _, _. split; [reflexivity|]. cbn [fs log].
  split; [exact Hcwd|]. split; [rewrite Hlog, <- app_assoc; reflexivity|].
  intros key encoded Hkey. apply (faithful_In rt) in Hkey; [|exact Hrt].
  specialize (Hall _ _ Hkey). unfold handled in *.
  destruct (Base64.DecodeString encoded) as [c [e|]].
  - apply in_or_app. left. exact Hall.
  - destruct Hall as [(key' & enc' & c' & Hin & Hd & Ht & Hr)|[[e He]|[e He]]].
    + left. exists key', enc', c'. split; [|auto].
      apply list_elem_of_In. rewrite <- (Hrt _ outputFiles). apply list_elem_of_In, Hin.
    + right. left. exists e. apply in_or_app. left. exact He.
    + right. right. exists e. apply in_or_app. left. exact He.
Qed.

(** X9. [saveOutputFiles] never fails, and it accounts for every
    entry of the mapping: an entry that is not base64 is reported in
    the log; every other one is in its file below the work directory
    when the call returns (with the content of an entry that names
    the same file, should there be several), unless the log reports
    that its directory could not be created or that it could not be
    written. *)
Theorem artifacts_saved_or_reported :
  forall workdir outputFiles w,
    Ranges.faithful rt ->
    exists w' added,
      saveOutputFiles rt workdir outputFiles w = (w', None) /\
      OS.cwd (fs w') = OS.cwd (fs w) /\
      log w' = log w ++ added /\
      forall key encoded,
        outputFiles !! key = Some encoded ->
        handled (fs w) (fs w') workdir (map_to_list outputFiles) added key encoded.
Proof. exact saveOutputFiles_handled. Qed.

End WithRuntime.

Lemma artifacts_saved_witness :
  let r := saveOutputFiles Examples.rt0 "/src" Samples.artifacts ClientExamples.w in
  OS.ReadFile (fs r.1) "/src/out/app.exe" = Ok (list_byte_of_string "BIN") /\
  In (warning "Warning: Failed to decode file %s: %v" ["./broken"; Error CorruptInput])
     (log r.1) /\
  exists w' added,
    r = (w', None) /\
    handled (fs ClientExamples.w) (fs w') "/src" (map_to_list Samples.artifacts) added
      "./out/app.exe" "QklO".
Proof.
  intros r.
  destruct (artifacts_saved_or_reported Examples.rt0 "/src" Samples.artifacts ClientExamples.w
              faithful_rt0) as (w' & added & Hr & _ & _ & Hall).
  split; [vm_compute; reflexivity|]. split; [vm_compute; tauto|].
  exists w', added. split; [exact Hr|].
  apply Hall. vm_compute. reflexivity.
Defined.

End SaveFacts.

(** ** Collection of the output files on the worker *)

Module CollectFacts.
Import Server Statements.
Import ServerFacts WalkFacts Base64RoundTrip.

Lemma DecodeString_EncodeToString B :
  Base64.DecodeString (Base64.EncodeToString B) = (B, None).
Proof.
  unfold Base64.DecodeString, Base64.EncodeToString.
  rewrite list_ascii_of_string_of_list_ascii.
  apply decodeLoop_Encode.
  rewrite <- (list_ascii_of_string_of_list_ascii (Base64.Encode B)) at 1.
  assert (Hlen : forall s, List.length (list_ascii_of_string s) = String.length s).
  { induction s as [|c s IHs]; [reflexivity|]. cbn. rewrite IHs. reflexivity. }
  rewrite Hlen. lia.
Qed.

Lemma findFiles_calls calls :
  forall files0 files,
    OS.foldCalls findFilesVisit calls files0 = (files, None) ->
    files = files0 ++ omap regular calls.
Proof.
  induction calls as [|[[path d] err] calls IH]; intros files0 files; cbn [OS.foldCalls].
  - intros [= <-]. cbn. rewrite app_nil_r. reflexivity.
  - unfold findFilesVisit at 1. destruct err as [e|]; [discriminate|].
    destruct d as [d|]; cbn [omap list_omap regular].
    + destruct (OS.IsDir d); cbn [negb]; intros H; apply IH in H as ->.
      * reflexivity.
      * rewrite <- app_assoc. reflexivity.
    + intros H; apply IH in H as ->. reflexivity.
Qed.

Lemma regular_In calls file :
  In file (omap regular calls) <->
  exists d, In (file, Some d, None) calls /\ OS.IsDir d = false.
Proof.
  rewrite <- list_elem_of_In, list_elem_of_omap. split.
  - intros ([[path d] err] & Hin & Hreg). apply list_elem_of_In in Hin.
    destruct d as [d|]; [|discriminate]. destruct err; [discriminate|]. cbn in Hreg.
    destruct (OS.IsDir d) eqn:Hd; [discriminate|]. injection Hreg as ->.
    exists d. auto.
  - intros (d & Hin & Hd). exists (file, Some d, None).
    split; [apply list_elem_of_In, Hin|]. cbn. rewrite Hd. reflexivity.
Qed.

Lemma collectEach_spec projectDir request files :
  forall outputFiles0 w w' outputFiles,
    collectEach projectDir request files outputFiles0 w = (w', outputFiles) ->
    fs w' = fs w /\
    (forall key value,
        outputFiles !! key = Some value ->
        outputFiles0 !! key = Some value \/
        exists file,
          In file files /\
          collected (fs w) projectDir (req_OutputPaths request) file key value) /\
    (forall key, is_Some (outputFiles0 !! key) -> is_Some (outputFiles !! key)) /\
    (forall file key value,
        In file files ->
        collected (fs w) projectDir (req_OutputPaths request) file key value ->
        is_Some (outputFiles !! key)).
Proof.
  induction files as [|file rest IH]; intros outputFiles0 w w' outputFiles.
  - cbn. unfold_monad. intros [= <- <-]. repeat split; auto. intros ? ? ? [].
  - cbn [collectEach].
    (* the cases in which this file adds nothing *)
    assert (Hskip : forall w1,
               fs w1 = fs w ->
               (forall key value,
                   ~ collected (fs w) projectDir (req_OutputPaths request) file key value) ->
               collectEach projectDir request rest outputFiles0 w1 = (w', outputFiles) ->
               fs w' = fs w /\
               (forall key value,
                   outputFiles !! key = Some value ->
                   outputFiles0 !! key = Some value \/
                   exists file0,
                     In file0 (file :: rest) /\
                     collected (fs w) projectDir (req_OutputPaths request) file0 key value) /\
               (forall key, is_Some (outputFiles0 !! key) -> is_Some (outputFiles !! key)) /\
               (forall file0 key value,
                   In file0 (file :: rest) ->
                   collected (fs w) projectDir (req_OutputPaths request) file0 key value ->
                   is_Some (outputFiles !! key))).
    { intros w1 Hfs Hnot Hrest. apply IH in Hrest as (Hfs' & Hsound & Hmono & Hcompl).
      rewrite Hfs in *. split; [exact Hfs'|]. split; [|split; [exact Hmono|]].
      - intros key value Hkey. destruct (Hsound _ _ Hkey) as [H|(file0 & Hin & Hc)];
          [left; exact H|]. right. exists file0. auto using in_cons.
      - intros file0 key value [<-|Hin] Hc; [destruct (Hnot _ _ Hc)|].
        eapply Hcompl; eassumption. }
    destruct (Filepath.Rel projectDir file) as [relativePath|] eqn:Hrel.
    2: { unfold mbind at 1, M_bind at 1. rewrite SaveFacts.LogDebugf_eq.
         apply Hskip; [reflexivity|]. intros key value (rel & content & Hr & _). congruence. }
    unfold mbind at 1, M_bind at 1. unfold readFS at 1.
    destruct (OS.Stat (fs w) file) as [info|e] eqn:Hstat.
    2: { unfold mbind at 1, M_bind at 1. rewrite SaveFacts.LogDebugf_eq.
         apply Hskip; [reflexivity|].
         intros key value (rel & content & _ & _ & _ & Hread & _).
         unfold OS.Stat in Hstat. unfold OS.ReadFile in Hread.
         destruct (OS.nodes (fs w) !! OS.resolve (fs w) file); discriminate. }
    unfold mbind at 1, M_bind at 1. rewrite SaveFacts.LogDebugf_eq.
    destruct (isOutputFileNormalized _ _) eqn:Hout.
    2: { unfold mbind at 1, M_bind at 1. rewrite SaveFacts.LogDebugf_eq.
         apply Hskip; [reflexivity|].
         intros key value (rel & content & Hr & -> & Hm & _).
         assert (rel = relativePath) as -> by congruence. congruence. }
    unfold mbind at 1, M_bind at 1. unfold readFS at 1. cbn [fs].
    destruct (OS.ReadFile (fs w) file) as [content|e] eqn:Hread.
    2: { unfold mbind at 1, M_bind at 1. rewrite SaveFacts.LogDebugf_eq.
         apply Hskip; [reflexivity|].
         intros key value (rel & content & _ & _ & _ & Hr & _). congruence. }
    unfold mbind at 1, M_bind at 1. rewrite SaveFacts.LogDebugf_eq.
    intros Hrest. apply IH in Hrest as (Hfs' & Hsound & Hmono & Hcompl). cbn [fs] in *.
    assert (Hthis : collected (fs w) projectDir (req_OutputPaths request) file
                      ("./" ++ Filepath.ToSlash relativePath)
                      (Base64.EncodeToString content)).
    { exists relativePath, content. repeat split; auto using DecodeString_EncodeToString. }
    split; [exact Hfs'|]. split; [|split].
    + intros key value Hkey. destruct (Hsound _ _ Hkey) as [H|(file0 & Hin & Hc)].
      * destruct (decide (key = "./" ++ Filepath.ToSlash relativePath)%string) as [->|Hne].
        -- rewrite lookup_insert_eq in H. injection H as <-.
           right. exists file. split; [left; reflexivity | exact Hthis].
        -- rewrite lookup_insert_ne in H by congruence. left. exact H.
      * right. exists file0. auto using in_cons.
    + intros key [v Hv]. apply Hmono.
      destruct (decide (key = "./" ++ Filepath.ToSlash relativePath)%string) as [->|Hne].
      * rewrite lookup_insert_eq. eauto.
      * rewrite lookup_insert_ne by congruence. eauto.
    + intros file0 key value [<-|Hin] Hc.
      * destruct Hc as (rel & content0 & Hr & -> & _).
        assert (rel = relativePath) as -> by congruence.
        apply Hmono. rewrite lookup_insert_eq. eauto.
      * eapply Hcompl; eassumption.
Qed.

Lemma collectOutputFiles_spec projectDir request w w' outputFiles :
  collectOutputFiles projectDir request w = (w', Ok outputFiles) ->
  fs w' = fs w /\
  (forall key value,
      outputFiles !! key = Some value ->
      exists file d,
        In (file, Some d, None) (OS.WalkCalls (fs w) projectDir) /\ OS.IsDir d = false /\
        collected (fs w) projectDir (req_OutputPaths request) file key value) /\
  (forall file d key value,
      In (file, Some d, None) (OS.WalkCalls (fs w) projectDir) -> OS.IsDir d = false ->
      collected (fs w) projectDir (req_OutputPaths request) file key value ->
      is_Some (outputFiles !! key)).
Proof.
  unfold collectOutputFiles. unfold mbind at 1, M_bind at 1.
  unfold findFiles, readFS. rewrite WalkDir_foldCalls.
  destruct (OS.foldCalls findFilesVisit _ []) as [files [e|]] eqn:Hfind; cbn [fst snd].
  { unfold_monad. discriminate. }
  apply findFiles_calls in Hfind. cbn in Hfind. subst files.
  unfold mbind at 1, M_bind at 1. rewrite SaveFacts.LogDebugf_eq.
  unfold mbind at 1, M_bind at 1.
  destruct (collectEach _ _ _ _ _) as [w1 out] eqn:Hcollect.
  apply collectEach_spec in Hcollect as (Hfs & Hsound & _ & Hcompl). cbn [fs] in *.
  unfold mbind at 1, M_bind at 1. rewrite SaveFacts.LogDebugf_eq.
  unfold_monad. intros [= <- <-]. cbn [fs].
  split; [exact Hfs|]. split.
  - intros key value Hkey. destruct (Hsound _ _ Hkey) as [H|(file & Hin & Hc)].
    + rewrite lookup_empty in H. discriminate.
    + apply regular_In in Hin as (d & Hin & Hd). exists file, d. auto.
  - intros file d key value Hin Hd Hc. eapply Hcompl; [|exact Hc].
    apply regular_In. exists d. auto.
Qed.

(** X8. When [collectOutputFiles] succeeds it leaves the file system
    as it is, and its mapping holds exactly the output files: every
    entry is stored for a regular file that the walk of the project
    directory visits, under [./] followed by the path of the file
    relative to the project directory, which the output patterns
    accept, with the base64 encoding of the content of the file as
    value, from which [DecodeString] gives the content back; and
    every such file that can be read has an entry under its key. *)
Theorem output_files_collected :
  forall projectDir request w w' outputFiles,
    collectOutputFiles projectDir request w = (w', Ok outputFiles) ->
    fs w' = fs w /\
    (forall key value,
        outputFiles !! key = Some value ->
        exists file d,
          In (file, Some d, None) (OS.WalkCalls (fs w) projectDir) /\ OS.IsDir d = false /\
          collected (fs w) projectDir (req_OutputPaths request) file key value) /\
    (forall file d key value,
        In (file, Some d, None) (OS.WalkCalls (fs w) projectDir) -> OS.IsDir d = false ->
        collected (fs w) projectDir (req_OutputPaths request) file key value ->
        is_Some (outputFiles !! key)).
Proof. exact collectOutputFiles_spec. Qed.

Lemma output_files_collected_witness :
  let r := collectOutputFiles "/tmp/project_1" Examples.build Samples.built in
  r.2 = Ok (<["./out/app.exe" := "QklO"]> ∅) /\
  fs r.1 = fs Samples.built /\
  exists file d,
    In (file, Some d, None) (OS.WalkCalls (fs Samples.built) "/tmp/project_1") /\
    OS.IsDir d = false /\
    collected (fs Samples.built) "/tmp/project_1" (req_OutputPaths Examples.build)
      file "./out/app.exe" "QklO".
Proof.
  intros r.
  assert (H : r = (r.1, Ok (<["./out/app.exe" := "QklO"]> ∅))) by (vm_compute; reflexivity).
  destruct (output_files_collected _ _ _ _ _ H) as (Hfs & Hsound & _).
  split; [rewrite H; reflexivity|]. split; [exact Hfs|].
  apply Hsound. vm_compute. reflexivity.
Defined.

End CollectFacts.

(** ** Output patterns that name a directory *)

Module DirectoryPatternFacts.
Import Filepath Server Statements.
Import StringFacts.

Lemma ordinary_spec c :
  ordinary c = true ->
  Ascii.eqb c "*" = false /\ Ascii.eqb c "?" = false /\ Ascii.eqb c "[" = false /\
  Ascii.eqb c "]" = false /\ Ascii.eqb c "\" = false /\ Ascii.eqb c "/" = false.
Proof.
  unfold ordinary. rewrite negb_true_iff, !orb_false_iff. tauto.
Qed.

(** Once the match has failed, the rest of the chunk is only checked. *)
Lemma matchLoop_failed fuel :
  forall chunk s t, matchLoop fuel chunk s true <> inl (t, true).
Proof.
  induction fuel as [|fuel IH]; intros chunk s t; [discriminate|].
  cbn [matchLoop]. destruct chunk as [|c crest]; [discriminate|].
  cbn [orb].
  destruct (Ascii.eqb c "[").
  { destruct crest as [|d rest1]; [|destruct (Ascii.eqb d "^")];
      (destruct (classLoop _ _ _ _ _) as [[chunk2 matched]|e]; [apply IH | discriminate]). }
  destruct (Ascii.eqb c "?"); [apply IH|].
  destruct (Ascii.eqb c "\" && String.eqb crest ""); [discriminate|].
  destruct (if Ascii.eqb c "\" then crest else String c crest) as [|lit rest1];
    [discriminate | apply IH].
Qed.

(** An ordinary byte of the chunk against a name, while the match has
    not failed. *)
Lemma matchLoop_ordinary fuel c crest s :
  ordinary c = true \/ c = Separator ->
  matchLoop (S fuel) (String c crest) s false
  = match s with
    | String c0 s' => matchLoop fuel crest s' (negb (Ascii.eqb c c0))
    | EmptyString => matchLoop fuel crest s true
    end.
Proof.
  intros Hc.
  assert (H : Ascii.eqb c "[" = false /\ Ascii.eqb c "?" = false /\ Ascii.eqb c "\" = false).
  { destruct Hc as [Hc| ->]; [apply ordinary_spec in Hc; tauto | auto]. }
  destruct H as (H1 & H2 & H3).
  cbn [matchLoop]. rewrite H1, H2, H3. cbn [andb orb].
  destruct s as [|c0 s']; reflexivity.
Qed.

(** A chunk that starts with the name of a directory does not match
    a name without separator. *)
Lemma matchLoop_dir dir :
  forall fuel crest s failed t,
    allOrdinary dir = true ->
    Strings.containsByte s Separator = false ->
    matchLoop fuel (dir ++ String Separator crest) s failed <> inl (t, true).
Proof.
  induction dir as [|c dir IH]; intros fuel crest s failed t Hdir Hs;
    (destruct failed; [apply matchLoop_failed|]);
    (destruct fuel as [|fuel]; [discriminate|]).
  - rewrite app_empty, matchLoop_ordinary by (right; reflexivity).
    destruct s as [|c0 s']; [apply matchLoop_failed|].
    cbn [Strings.containsByte] in Hs. apply orb_false_iff in Hs as [Hc0 _].
    rewrite Hc0. apply matchLoop_failed.
  - cbn [allOrdinary] in Hdir. apply andb_true_iff in Hdir as [Hc Hdir].
    rewrite app_String, matchLoop_ordinary by (left; exact Hc).
    destruct s as [|c0 s']; [apply matchLoop_failed|].
    cbn [Strings.containsByte] in Hs. apply orb_false_iff in Hs as [_ Hs].
    apply IH; assumption.
Qed.

(** A chunk that starts with an ordinary byte does not match a name
    that starts with another byte, or is empty. *)
Lemma matchLoop_first fuel c crest s t :
  ordinary c = true ->
  match s with String c0 _ => c0 <> c | EmptyString => True end ->
  matchLoop fuel (String c crest) s false <> inl (t, true).
Proof.
  intros Hc Hs. destruct fuel as [|fuel]; [discriminate|].
  rewrite matchLoop_ordinary by (left; exact Hc).
  destruct s as [|c0 s']; [apply matchLoop_failed|].
  destruct (Ascii.eqb_spec c c0) as [->|_]; [contradiction|]. apply matchLoop_failed.
Qed.

(** The chunk that [scanLoop] returns extends the one it was given. *)
Lemma scanLoop_extends pattern :
  forall inrange chunk, exists more, (scanLoop pattern inrange chunk).1 = (chunk ++ more)%string.
Proof.
  induction pattern as [pattern IH] using (induction_ltof1 _ String.length).
  unfold ltof in IH. intros inrange chunk.
  destruct pattern as [|c rest]; [exists ""; cbn; rewrite append_empty_r; reflexivity|].
  cbn [scanLoop].
  assert (Hnext : forall p b, (String.length p < String.length (String c rest))%nat ->
                              exists more, (scanLoop p b (snoc chunk c)).1 = (chunk ++ more)%string).
  { intros p b Hp. destruct (IH p Hp b (snoc chunk c)) as [more ->].
    exists (String c more). apply snoc_app. }
  destruct (Ascii.eqb c "\").
  { destruct rest as [|c2 rest2]; [exists (String c ""); reflexivity|].
    destruct (IH rest2 ltac:(cbn; lia) inrange (snoc (snoc chunk c) c2)) as [more ->].
    exists (String c (String c2 more)). rewrite !snoc_app. reflexivity. }
  destruct (Ascii.eqb c "["); [apply Hnext; cbn; lia|].
  destruct (Ascii.eqb c "]"); [apply Hnext; cbn; lia|].
  destruct (Ascii.eqb c "*" && negb inrange);
    [exists ""; cbn; rewrite append_empty_r; reflexivity|].
  apply Hnext. cbn. lia.
Qed.

Lemma scanLoop_ordinary c rest inrange chunk :
  ordinary c = true \/ c = Separator ->
  scanLoop (String c rest) inrange chunk = scanLoop rest inrange (snoc chunk c).
Proof.
  intros Hc. cbn [scanLoop].
  assert (H : Ascii.eqb c "\" = false /\ Ascii.eqb c "[" = false /\
              Ascii.eqb c "]" = false /\ Ascii.eqb c "*" = false).
  { destruct Hc as [Hc| ->]; [apply ordinary_spec in Hc; tauto | auto]. }
  destruct H as (-> & -> & -> & ->). reflexivity.
Qed.

(** The first chunk of a pattern that starts with the name of a
    directory starts with that name and the separator. *)
Lemma scanLoop_dir dir :
  forall rest chunk,
    allOrdinary dir = true ->
    exists more,
      (scanLoop (dir ++ String Separator rest) false chunk).1
      = (chunk ++ dir ++ String Separator more)%string.
Proof.
  induction dir as [|c dir IH]; intros rest chunk Hdir.
  - rewrite app_empty, scanLoop_ordinary by (right; reflexivity).
    destruct (scanLoop_extends rest false (snoc chunk Separator)) as [more ->].
    exists more. rewrite snoc_app, app_empty. reflexivity.
  - cbn [allOrdinary] in Hdir. apply andb_true_iff in Hdir as [Hc Hdir].
    rewrite app_String, scanLoop_ordinary by (left; exact Hc).
    destruct (IH rest (snoc chunk c) Hdir) as [more ->].
    exists more. rewrite snoc_app, app_String. reflexivity.
Qed.

(** [Match] with a pattern whose first chunk cannot match at the
    start of the name, and that does not start with a star. *)
Lemma Match_first_chunk pattern name :
  (exists c rest, pattern = String c rest /\ Ascii.eqb c "*" = false) ->
  (forall fuel t, matchLoop fuel (scanLoop pattern false "").1 name false <> inl (t, true)) ->
  (Match pattern name).1 = false.
Proof.
  intros (c & rest & -> & Hstar) Hchunk. unfold Match. cbn [matchPattern String.eqb].
  unfold scanChunk. cbn [skipStars]. rewrite Hstar.
  specialize (Hchunk (S (String.length (scanLoop (String c rest) false "").1))).
  destruct (scanLoop (String c rest) false "") as [chunk rest']. cbn [fst] in *.
  cbn [andb]. unfold matchChunk.
  destruct (matchLoop _ chunk name false) as [[t [|]]|e]; [|reflexivity ..].
  destruct (Hchunk t eq_refl).
Qed.

Lemma afterLastSep_no_sep s : Strings.containsByte (afterLastSep s) Separator = false.
Proof.
  induction s as [|c s IH]; [reflexivity|]. cbn [afterLastSep].
  destruct (Strings.containsByte s Separator) eqn:Hs; [exact IH|].
  destruct (isSep c) eqn:Hc; [exact Hs|].
  cbn [Strings.containsByte]. unfold isSep in Hc. rewrite Ascii.eqb_sym, Hc, Hs. reflexivity.
Qed.

Lemma Base_cases path : Base path = "/" \/ Strings.containsByte (Base path) Separator = false.
Proof.
  unfold Base. destruct (String.eqb path ""); [right; reflexivity|].
  destruct (String.eqb_spec (afterLastSep (trimTrailingSeps path)) "") as [_|_];
    [left; reflexivity | right; apply afterLastSep_no_sep].
Qed.

Lemma dirPattern_no_match pattern rel :
  dirPattern pattern ->
  (Match pattern ("./" ++ rel)).1 = false /\
  (Match pattern (Base ("./" ++ rel))).1 = false.
Proof.
  intros (c & dir & rest & -> & Hdot & Hdir).
  assert (Hc : ordinary c = true) by (cbn in Hdir; apply andb_true_iff in Hdir; tauto).
  assert (Hstar : Ascii.eqb c "*" = false) by (apply ordinary_spec in Hc; tauto).
  assert (Hsep : c <> Separator).
  { intros ->. apply ordinary_spec in Hc. destruct Hc as (_ & _ & _ & _ & _ & Hc). discriminate Hc. }
  destruct (scanLoop_dir (String c dir) rest "" Hdir) as [more Hchunk].
  rewrite app_empty in Hchunk. rewrite app_String in *.
  split.
  - apply Match_first_chunk; [eauto|]. intros fuel t. rewrite Hchunk, app_String.
    apply matchLoop_first; [exact Hc|].
    change ("./" ++ rel)%string with (String "." (String "/" rel)).
    intros E. apply Hdot. symmetry. exact E.
  - apply Match_first_chunk; [eauto|]. intros fuel t. rewrite Hchunk.
    destruct (Base_cases ("./" ++ rel)) as [-> | Hbase].
    + rewrite app_String. apply matchLoop_first; [exact Hc|].
      intros E. apply Hsep. symmetry. exact E.
    + apply matchLoop_dir; assumption.
Qed.

Lemma matchesAny_dir rel patterns :
  Forall dirPattern patterns -> matchesAny ("./" ++ rel) patterns = false.
Proof.
  induction 1 as [|pattern patterns Hp _ IH]; [reflexivity|].
  cbn [matchesAny]. unfold ToSlash.
  destruct (dirPattern_no_match pattern rel Hp) as [H1 H2].
  destruct (Match pattern ("./" ++ rel)) as [m1 e1]. cbn in H1. subst m1.
  rewrite andb_false_r.
  destruct (Match pattern (Base ("./" ++ rel))) as [m2 e2]. cbn in H2. subst m2.
  rewrite andb_false_r. exact IH.
Qed.

Lemma isOutputFileNormalized_dir rel patterns :
  patterns <> [] -> Forall dirPattern patterns ->
  isOutputFileNormalized ("./" ++ rel) patterns = false.
Proof.
  intros Hne Hall. unfold isOutputFileNormalized.
  destruct patterns as [|p0 ps]; [congruence|]. apply matchesAny_dir, Hall.
Qed.

Lemma collectOutputFiles_dir projectDir request w w' outputFiles :
  req_OutputPaths request <> [] ->
  Forall dirPattern (req_OutputPaths request) ->
  collectOutputFiles projectDir request w = (w', Ok outputFiles) ->
  outputFiles = ∅.
Proof.
  intros Hne Hall Hrun.
  apply CollectFacts.collectOutputFiles_spec in Hrun as (_ & Hsound & _).
  apply map_eq. intros key. rewrite lookup_empty.
  destruct (outputFiles !! key) as [value|] eqn:Hkey; [|reflexivity].
  destruct (Hsound _ _ Hkey) as (file & d & _ & _ & rel & content & _ & -> & Hacc & _).
  rewrite isOutputFileNormalized_dir in Hacc by assumption. discriminate Hacc.
Qed.

(** X25. Output patterns that start with the name of a directory
    collect nothing: when the list of output patterns is not empty
    and each pattern starts with ordinary bytes, the first of them not
    a dot, followed by a separator (as [out/*.exe] does), then no
    path [./rel] is accepted by [isOutputFileNormalized], and a
    successful [collectOutputFiles] returns the empty mapping,
    whatever the project directory holds. *)
Theorem directory_patterns_collect_nothing :
  forall patterns,
    patterns <> [] -> Forall dirPattern patterns ->
    (forall rel, isOutputFileNormalized ("./" ++ rel) patterns = false) /\
    (forall projectDir request w w' outputFiles,
        req_OutputPaths request = patterns ->
        collectOutputFiles projectDir request w = (w', Ok outputFiles) ->
        outputFiles = ∅).
Proof.
  intros patterns Hne Hall. split.
  - intros rel. apply isOutputFileNormalized_dir; assumption.
  - intros projectDir request w w' outputFiles <-. apply collectOutputFiles_dir; assumption.
Qed.

Lemma directory_patterns_witness :
  let r := collectOutputFiles "/tmp/project_1" Samples.byDirectory Samples.built in
  OS.ReadFile (fs Samples.built) "/tmp/project_1/out/app.exe" = Ok (list_byte_of_string "BIN") /\
  isOutputFileNormalized "./out/app.exe" ["out/*.exe"] = false /\
  forall outputFiles, r.2 = Ok outputFiles -> outputFiles = ∅.
Proof.
  intros r.
  assert (Hne : ["out/*.exe"] <> @nil string) by discriminate.
  assert (Hall : Forall dirPattern ["out/*.exe"]).
  { repeat constructor. exists "o"%char, "ut", "*.exe".
    split; [reflexivity|]. split; [discriminate | reflexivity]. }
  destruct (directory_patterns_collect_nothing _ Hne Hall) as [Hpath Hrun].
  split; [vm_compute; reflexivity|]. split; [exact (Hpath "out/app.exe")|].
  intros outputFiles Hr.
  apply (Hrun "/tmp/project_1" Samples.byDirectory Samples.built r.1 outputFiles eq_refl).
  rewrite <- Hr. exact (surjective_pairing r).
Defined.

End DirectoryPatternFacts.

(** ** From the worker's project directory to the coordinator's *)

Module TransportFacts.
Import Server Client Statements.
Import MaterializeFacts SaveFacts CollectFacts.

Lemma transport rt projectDir request ws ws1 outputFiles workdir wc :
  Ranges.faithful rt ->
  collectOutputFiles projectDir request ws = (ws1, Ok outputFiles) ->
  exists wc' added,
    saveOutputFiles rt workdir outputFiles wc = (wc', None) /\
    log wc' = log wc ++ added /\
    forall key value,
      outputFiles !! key = Some value ->
      let outputPath := Filepath.Join workdir (Filepath.FromSlash key) in
      (exists file d content,
          In (file, Some d, None) (OS.WalkCalls (fs ws) projectDir) /\ OS.IsDir d = false /\
          OS.ReadFile (fs ws) file = Ok content /\
          OS.ReadFile (fs wc') outputPath = Ok content) \/
      (exists e,
          In (warning "Warning: Failed to create directory %s: %v"
                [Filepath.Dir outputPath; Error e]) added) \/
      (exists e,
          In (warning "Warning: Failed to write file %s: %v" [outputPath; Error e]) added).
Proof.
  intros Hrt Hcollect.
  apply collectOutputFiles_spec in Hcollect as (_ & Hsound & _).
  destruct (saveOutputFiles_handled rt workdir outputFiles wc Hrt)
    as (wc' & added & Hsave & _ & Hlog & Hall).
  exists wc', added. split; [exact Hsave|]. split; [exact Hlog|].
  intros key value Hkey outputPath. specialize (Hall _ _ Hkey). unfold handled in Hall.
  destruct (Hsound _ _ Hkey) as (file & d & _ & _ & rel & content & _ & _ & _ & _ & _ & Hdec).
  rewrite Hdec in Hall.
  destruct Hall as [(key' & encoded' & content' & Hin & Hdec' & _ & Hread)|[H|H]];
    [left | right; left; exact H | right; right; exact H].
  apply list_elem_of_In, elem_of_map_to_list in Hin.
  destruct (Hsound _ _ Hin)
    as (file' & d' & Hwalk & Hd & rel' & content'' & _ & _ & _ & Hsrc & _ & Hdec'').
  assert (content'' = content') as -> by congruence.
  exists file', d', content'. auto.
Qed.

(** X10. From the worker to the coordinator. Every output file that
    [collectOutputFiles] has put into a response and that
    [saveOutputFiles] then saves is, below the work directory of the
    coordinator, a byte-for-byte copy of a regular file of the
    project directory of the worker; the only other outcome for an
    entry is a report in the log that its directory could not be
    created or that it could not be written. No entry fails to
    decode. *)
Theorem artifact_transport :
  forall rt projectDir request ws ws1 outputFiles workdir wc,
    Ranges.faithful rt ->
    collectOutputFiles projectDir request ws = (ws1, Ok outputFiles) ->
    exists wc' added,
      saveOutputFiles rt workdir outputFiles wc = (wc', None) /\
      log wc' = log wc ++ added /\
      forall key value,
        outputFiles !! key = Some value ->
        let outputPath := Filepath.Join workdir (Filepath.FromSlash key) in
        (exists file d content,
            In (file, Some d, None) (OS.WalkCalls (fs ws) projectDir) /\ OS.IsDir d = false /\
            OS.ReadFile (fs ws) file = Ok content /\
            OS.ReadFile (fs wc') outputPath = Ok content) \/
        (exists e,
            In (warning "Warning: Failed to create directory %s: %v"
                  [Filepath.Dir outputPath; Error e]) added) \/
        (exists e,
            In (warning "Warning: Failed to write file %s: %v" [outputPath; Error e]) added).
Proof. exact transport. Qed.

Lemma artifact_transport_witness :
  let collect := collectOutputFiles "/tmp/project_1" Examples.build Samples.built in
  let outputFiles : gmap string string := <["./out/app.exe" := "QklO"]> ∅ in
  let save := saveOutputFiles Examples.rt0 "/src" outputFiles ClientExamples.w in
  collect.2 = Ok outputFiles /\
  OS.ReadFile (fs Samples.built) "/tmp/project_1/out/app.exe" = Ok (list_byte_of_string "BIN") /\
  OS.ReadFile (fs save.1) "/src/out/app.exe" = Ok (list_byte_of_string "BIN") /\
  exists wc' added, save = (wc', None) /\ log wc' = log ClientExamples.w ++ added.
Proof.
  intros collect outputFiles save.
  assert (H : collect = (collect.1, Ok outputFiles)) by (vm_compute; reflexivity).
  destruct (artifact_transport Examples.rt0 _ _ _ _ _ "/src" ClientExamples.w faithful_rt0 H)
    as (wc' & added & Hsave & Hlog & _).
  split; [rewrite H; reflexivity|]. split; [vm_compute; reflexivity|].
  split; [vm_compute; reflexivity|]. exists wc', added. auto.
Defined.

End TransportFacts.

(** ** Correlation ids *)

Module IdentFacts.
Import Client.

(** A byte is read back from its two hexadecimal digits. *)
Lemma hex_pair_inv :
  exists f : ascii -> ascii -> byte,
    forall b, f (hexDigit (Z.shiftr (u8 b) 4)) (hexDigit (Z.land (u8 b) 0x0F)) = b.
Proof.
  exists (fun h l =>
            let value c := default 0 (Base64.index_from c "0123456789abcdef" 0) in
            byte_of_Z (16 * value h + value l)).
  intros b. destruct b; reflexivity.
Qed.

Lemma hexEncode_inj r : forall r', hexEncode r = hexEncode r' -> r = r'.
Proof.
  destruct hex_pair_inv as [f Hf].
  induction r as [|b r IH]; intros [|b' r']; cbn; try discriminate; [reflexivity|].
  intros [= Hh Hl Hrest]. f_equal; [|apply IH, Hrest].
  rewrite <- (Hf b), <- (Hf b'), Hh, Hl. reflexivity.
Qed.

Lemma hexEncode_length r : String.length (hexEncode r) = (2 * List.length r)%nat.
Proof. induction r as [|b r IH]; cbn; [reflexivity|]. rewrite IH. lia. Qed.

Lemma hexDigit_alphabet b :
  In (hexDigit (Z.shiftr (u8 b) 4)) (list_ascii_of_string "0123456789abcdef") /\
  In (hexDigit (Z.land (u8 b) 0x0F)) (list_ascii_of_string "0123456789abcdef").
Proof. destruct b; cbn; tauto. Qed.

Lemma hexEncode_alphabet r c :
  In c (list_ascii_of_string (hexEncode r)) ->
  In c (list_ascii_of_string "0123456789abcdef").
Proof.
  induction r as [|b r IH]; cbn [hexEncode list_ascii_of_string]; [intros []|].
  destruct (hexDigit_alphabet b) as [Hh Hl].
  intros [<-|[<-|Hin]]; auto.
Qed.

(** X11. The correlation ids that [generateID] makes are the bytes it
    has read, two lower-case hexadecimal digits each: different bytes
    give different ids, and an id has twice as many characters as
    there were bytes, sixteen for the eight that are read. *)
Theorem correlation_ids_injective :
  (forall random random', generateID random = generateID random' -> random = random') /\
  (forall random, String.length (generateID random) = (2 * List.length random)%nat) /\
  (forall random c,
      In c (list_ascii_of_string (generateID random)) ->
      In c (list_ascii_of_string "0123456789abcdef")).
Proof.
  split; [exact hexEncode_inj|]. split; [exact hexEncode_length | exact hexEncode_alphabet].
Qed.

Lemma correlation_ids_witness :
  generateID ClientExamples.random = "0001020304050607" /\
  (generateID ClientExamples.random = generateID [x00; x01; x02; x03; x04; x05; x06; x07] ->
   ClientExamples.random = [x00; x01; x02; x03; x04; x05; x06; x07]) /\
  In "7"%char (list_ascii_of_string "0123456789abcdef").
Proof.
  destruct correlation_ids_injective as (Hinj & _ & Halpha).
  split; [reflexivity|]. split; [apply Hinj|].
  apply (Halpha ClientExamples.random). vm_compute. tauto.
Defined.

End IdentFacts.

(** ** Where the sandbox of a request lies *)

Module SandboxFacts.
Import Filepath Statements.
Import StringFacts PathFacts IdentFacts.

Lemma hexEncode_no_sep r : Strings.containsByte (Client.hexEncode r) Separator = false.
Proof.
  destruct (Strings.containsByte _ _) eqn:H; [|reflexivity].
  apply containsByte_In, hexEncode_alphabet in H. cbn in H.
  repeat (destruct H as [H|H]; [discriminate H|]). destruct H.
Qed.

Lemma project_name_plain random :
  Sprintf "project_%s" [Client.generateID random] = ("project_" ++ Client.hexEncode random)%string /\
  plainElem ("project_" ++ Client.hexEncode random).
Proof.
  split.
  - cbn. rewrite append_empty_r. reflexivity.
  - split; [discriminate|]. rewrite containsByte_app, hexEncode_no_sep. reflexivity.
Qed.

(** A plain element joined to an absolute directory lies just below
    the cleaned directory. *)
Lemma Join_plain t n :
  IsAbs t = true -> plainElem n ->
  Join t n = ((if (String.length (Clean t) =? 1)%nat then Clean t else Clean t ++ "/") ++ n)%string /\
  OS.under (Clean t) (Join t n) = true /\
  Join t n <> Clean t.
Proof.
  intros Habs Hn.
  destruct t as [|c t']; [discriminate|].
  assert (Hc : isSep c = true).
  { unfold IsAbs, Strings.HasPrefix in Habs. cbn [String.prefix] in Habs.
    destruct (ascii_dec "/" c) as [<-|]; [reflexivity|discriminate Habs]. }
  assert (Hout : startsWithSep (cleanLoop t' false true "/" 1) = true).
  { apply (cleanLoop_rooted _ _ (le_n _)); [lia | reflexivity]. }
  assert (Hclean : Clean (String c t') = cleanLoop t' false true "/" 1).
  { unfold Clean. cbn [String.eqb startsWithSep skip]. rewrite Hc.
    destruct (cleanLoop t' false true "/" 1); [discriminate|reflexivity]. }
  assert (Hjoin : Join (String c t') n = pushElem true (cleanLoop t' false true "/" 1) n).
  { unfold Join. cbn [JoinList joinSep String.eqb].
    rewrite Clean_app_plain by (discriminate || exact Hn).
    cbn [startsWithSep skip]. rewrite Hc. reflexivity. }
  rewrite Hjoin, Hclean. clear Hjoin Hclean.
  set (out := cleanLoop t' false true "/" 1) in *.
  unfold pushElem. cbn [andb negb orb]. rewrite orb_false_r.
  assert (Hlen : (0 < String.length n)%nat) by (destruct n; [destruct Hn | cbn; lia]).
  destruct (String.length out =? 1)%nat eqn:Hone; cbn [negb].
  - apply Nat.eqb_eq in Hone. destruct out as [|s [|? ?]]; try discriminate.
    cbn in Hout. assert (s = Separator) as -> by (apply Ascii.eqb_eq, Hout).
    split; [reflexivity|]. split.
    + unfold OS.under.
      change (if (String Separator "" =? "/")%string then _ else _) with (String Separator "").
      unfold Strings.HasPrefix. rewrite prefix_app. apply orb_true_r.
    + intros E. apply (f_equal String.length) in E. rewrite length_app in E. cbn in E. lia.
  - unfold snoc. split; [reflexivity|]. split.
    + unfold OS.under.
      destruct (String.eqb_spec out "/") as [E|_];
        [rewrite E in Hone; discriminate Hone|].
      unfold Strings.HasPrefix. rewrite prefix_app. apply orb_true_r.
    + intros E. apply (f_equal String.length) in E. rewrite !length_app in E. cbn in E. lia.
Qed.

(** X12. The project directory of a request that the coordinator has
    built lies just below the worker's temporary directory. The
    project name of such a request is [project_] followed by the
    correlation id, which holds no separator and is not [..]; so, for
    an absolute temporary directory, [createProjectDirectory] makes
    the directory of that name in the cleaned temporary directory. *)
Theorem coordinator_sandbox_below_temp_dir :
  forall rt globalConfig random environment env files w w1 projectDir,
    let request := Client.requestFor (Client.generateID random) environment env files in
    let tempDir := Filepath.Clean (GetTempDir rt globalConfig) in
    Filepath.IsAbs (GetTempDir rt globalConfig) = true ->
    Server.createProjectDirectory rt globalConfig request w = (w1, Ok projectDir) ->
    projectDir
    = ((if (String.length tempDir =? 1)%nat then tempDir else tempDir ++ "/")
       ++ "project_" ++ Client.generateID random)%string /\
    OS.under tempDir projectDir = true /\
    projectDir <> tempDir.
Proof.
  intros rt globalConfig random environment env files w w1 projectDir request tempDir Habs.
  unfold Server.createProjectDirectory. subst request. cbn [req_ProjectName Client.requestFor].
  destruct (project_name_plain random) as [-> Hplain].
  destruct (Join_plain _ _ Habs Hplain) as (Hjoin & Hunder & Hne).
  ServerFacts.unfold_monad.
  destruct (OS.MkdirAll (fs w) _) as [fs1 [e|]]; intros [= _ <-].
  subst tempDir. auto.
Qed.

Lemma coordinator_sandbox_witness :
  let request :=
    Client.requestFor (Client.generateID ClientExamples.random) "go" ClientExamples.goEnv ∅ in
  let r := Server.createProjectDirectory Examples.rt0 Examples.cfg0 request Examples.w0 in
  Filepath.IsAbs (GetTempDir Examples.rt0 Examples.cfg0) = true /\
  r.2 = Ok "/tmp/project_0001020304050607" /\
  OS.under (Filepath.Clean (GetTempDir Examples.rt0 Examples.cfg0))
    "/tmp/project_0001020304050607" = true.
Proof.
  intros request r.
  assert (Habs : Filepath.IsAbs (GetTempDir Examples.rt0 Examples.cfg0) = true)
    by (vm_compute; reflexivity).
  assert (H : r = (r.1, Ok "/tmp/project_0001020304050607")) by (vm_compute; reflexivity).
  split; [exact Habs|]. split; [rewrite H; reflexivity|].
  exact (proj1 (proj2 (coordinator_sandbox_below_temp_dir Examples.rt0 Examples.cfg0
                         ClientExamples.random "go" ClientExamples.goEnv ∅ Examples.w0
                         _ _ Habs H))).
Defined.

End SandboxFacts.

(** ** Which workers are available *)

Module AvailabilityFacts.
Import Client Discovery.
Import ClientFacts MaterializeFacts.

Lemma pointees_In c entries server sc :
  In (server, sc) (pointees c entries) <->
  exists addr, In (addr, server) entries /\ objects c !! server = Some sc.
Proof.
  unfold pointees. rewrite <- list_elem_of_In, list_elem_of_omap. split.
  - intros ([addr ref] & Hin & H). cbn in H.
    destruct (objects c !! ref) as [sc'|] eqn:E; [|discriminate H].
    cbn in H. injection H as <- <-. exists addr. split; [apply list_elem_of_In, Hin | exact E].
  - intros (addr & Hin & Hobj). exists (addr, server).
    split; [apply list_elem_of_In, Hin|]. cbn. rewrite Hobj. reflexivity.
Qed.

Section WithRuntime.
Variable rt : Runtime.
Hypothesis Hrt : Ranges.faithful rt.

Lemma findAvailableServer_None c :
  findAvailableServer rt c = None <->
  forall addr server sc,
    servers c !! addr = Some server -> objects c !! server = Some sc -> busy sc = true.
Proof.
  unfold findAvailableServer. split.
  - intros Hnone addr server sc Haddr Hobj.
    assert (Hin : In (server, sc) (pointees c (rt_range rt (servers c)))).
    { apply pointees_In. exists addr. split; [apply (faithful_In rt); assumption | exact Hobj]. }
    pose proof (find_none _ _ Hnone _ Hin) as H. cbn in H.
    destruct (busy sc); [reflexivity | discriminate H].
  - intros Hall. destruct (List.find _ _) as [[server sc]|] eqn:Hfind; [|reflexivity].
    apply find_some in Hfind as [Hin Hidle]. cbn in Hidle.
    apply pointees_In in Hin as (addr & Hin & Hobj).
    apply (faithful_In rt) in Hin; [|exact Hrt].
    rewrite (Hall _ _ _ Hin Hobj) in Hidle. discriminate Hidle.
Qed.

Lemma findAvailableServer_Some c server sc :
  findAvailableServer rt c = Some (server, sc) ->
  objects c !! server = Some sc /\ busy sc = false /\
  exists addr, servers c !! addr = Some server.
Proof.
  intros H. destruct (findAvailableServer_idle _ _ _ _ H) as [Hobj Hidle].
  split; [exact Hobj|]. split; [exact Hidle|].
  unfold findAvailableServer in H. apply find_some in H as [Hin _].
  apply pointees_In in Hin as (addr & Hin & _). exists addr.
  apply (faithful_In rt) in Hin; assumption.
Qed.

(** The loop of [GetServerStatus] over entries with distinct keys. *)
Lemma status_loop c (l : list (string * nat)) :
  forall (status : gmap string ServerStatusInfo) addr,
    NoDup l.*1 ->
    foldl (fun status kv =>
             match objects c !! kv.2 with
             | Some server => <[kv.1 := statusOf server]> status
             | None => status
             end) status l !! addr
    = match List.find (fun kv => String.eqb kv.1 addr) l with
      | Some kv =>
          match objects c !! kv.2 with
          | Some server => Some (statusOf server)
          | None => status !! addr
          end
      | None => status !! addr
      end.
Proof.
  induction l as [|[key ref] l IH]; intros status addr Hnd; [reflexivity|].
  rewrite fmap_cons in Hnd. apply NoDup_cons in Hnd as [Hnot Hnd].
  cbn [foldl List.find]. rewrite IH by exact Hnd. cbn beta. cbn [fst snd].
  destruct (String.eqb_spec key addr) as [->|Hne]; cbn [fst snd].
  - assert (Hfind : List.find (fun kv : string * nat => String.eqb kv.1 addr) l = None).
    { destruct (List.find _ l) as [[k r]|] eqn:E; [|reflexivity].
      apply find_some in E as [Hin Hk]. cbn in Hk. apply String.eqb_eq in Hk as ->.
      exfalso. apply Hnot. cbn [fst]. apply list_elem_of_fmap. exists (addr, r).
      split; [reflexivity | apply list_elem_of_In, Hin]. }
    rewrite Hfind. destruct (objects c !! ref); [apply lookup_insert_eq | reflexivity].
  - assert (Hkeep : (match objects c !! ref with
                     | Some server => <[key := statusOf server]> status
                     | None => status
                     end) !! addr = status !! addr).
    { destruct (objects c !! ref); [apply lookup_insert_ne; exact Hne | reflexivity]. }
    rewrite Hkeep. reflexivity.
Qed.

Lemma GetServerStatus_lookup c addr :
  GetServerStatus rt c !! addr
  = servers c !! addr ≫= fun ref => statusOf <$> objects c !! ref.
Proof.
  unfold GetServerStatus. rewrite status_loop by (apply faithful_NoDup, Hrt).
  rewrite lookup_empty.
  destruct (List.find _ _) as [[k r]|] eqn:Hfind.
  - apply find_some in Hfind as [Hin Hk]. cbn in Hk. apply String.eqb_eq in Hk as ->.
    apply (faithful_In rt) in Hin; [|exact Hrt]. rewrite Hin. cbn.
    destruct (objects c !! r); reflexivity.
  - destruct (servers c !! addr) as [ref|] eqn:Haddr; [|reflexivity].
    apply (faithful_In rt) in Haddr; [|exact Hrt].
    pose proof (find_none _ _ Hfind _ Haddr) as H. cbn in H.
    rewrite String.eqb_refl in H. discriminate H.
Qed.

Lemma available_iff_status c :
  is_Some (findAvailableServer rt c) <->
  exists addr st, GetServerStatus rt c !! addr = Some st /\ status_Available st = true.
Proof.
  split.
  - intros [[server sc] H]. apply findAvailableServer_Some in H as (Hobj & Hidle & addr & Haddr).
    exists addr, (statusOf sc). rewrite GetServerStatus_lookup, Haddr. cbn. rewrite Hobj.
    split; [reflexivity|]. cbn. rewrite Hidle. reflexivity.
  - intros (addr & st & Hst & Hav). rewrite GetServerStatus_lookup in Hst.
    destruct (servers c !! addr) as [ref|] eqn:Haddr; [|discriminate Hst]. cbn in Hst.
    destruct (objects c !! ref) as [sc|] eqn:Hobj; [|discriminate Hst].
    cbn in Hst. injection Hst as <-. cbn in Hav.
    destruct (findAvailableServer rt c) eqn:Hfind; [eauto|].
    rewrite (proj1 (findAvailableServer_None c) Hfind _ _ _ Haddr Hobj) in Hav.
    discriminate Hav.
Qed.

(** X13. [findAvailableServer] finds a worker exactly when there is
    one to find: it returns nil if and only if every connected worker
    is busy, and the worker it returns is connected and not busy. *)
Theorem available_server_found :
  forall c,
    (findAvailableServer rt c = None <->
     forall addr server sc,
       servers c !! addr = Some server -> objects c !! server = Some sc -> busy sc = true) /\
    (forall server sc,
        findAvailableServer rt c = Some (server, sc) ->
        objects c !! server = Some sc /\ busy sc = false /\
        exists addr, servers c !! addr = Some server).
Proof.
  intros c. split; [apply findAvailableServer_None | apply findAvailableServer_Some].
Qed.

(** X14. [GetServerStatus] reports every connected worker under the
    address it is connected at, with the identity it announced and
    [available] set when it is not busy, whatever the order in which
    the map is visited; and some worker is reported available exactly
    when [findAvailableServer] would return one. *)
Theorem server_status_reflects_state :
  forall c,
    (forall addr,
        GetServerStatus rt c !! addr
        = servers c !! addr ≫= fun ref => statusOf <$> objects c !! ref) /\
    (is_Some (findAvailableServer rt c) <->
     exists addr st, GetServerStatus rt c !! addr = Some st /\ status_Available st = true).
Proof.
  intros c. split; [apply GetServerStatus_lookup | apply available_iff_status].
Qed.

End WithRuntime.

Lemma available_server_witness :
  let c := ClientExamples.current in
  let sc := {| info := ClientExamples.workerInfo Version; conn := ClientExamples.link None;
               busy := false |} in
  findAvailableServer Examples.rt0 c = Some (0%nat, sc) /\
  objects c !! 0%nat = Some sc /\ busy sc = false /\
  exists addr, servers c !! addr = Some 0%nat.
Proof.
  intros c sc.
  assert (H : findAvailableServer Examples.rt0 c = Some (0%nat, sc)) by (vm_compute; reflexivity).
  split; [exact H|].
  exact (proj2 (available_server_found Examples.rt0 faithful_rt0 c) _ _ H).
Defined.

Lemma server_status_witness :
  let c := ClientExamples.current in
  GetServerStatus Examples.rt0 c !! "10.0.0.7:8080"
  = Some {| status_ID := "server-a"; status_Address := "10.0.0.7"; status_Port := 8080;
            status_Capacity := 4; status_Available := true; status_Version := Version |} /\
  is_Some (findAvailableServer Examples.rt0 c).
Proof.
  intros c.
  destruct (server_status_reflects_state Examples.rt0 faithful_rt0 c) as [Hlookup Hiff].
  assert (H : GetServerStatus Examples.rt0 c !! "10.0.0.7:8080"
              = Some {| status_ID := "server-a"; status_Address := "10.0.0.7";
                        status_Port := 8080; status_Capacity := 4; status_Available := true;
                        status_Version := Version |}).
  { rewrite Hlookup. vm_compute. reflexivity. }
  split; [exact H|]. apply Hiff. eexists _, _. split; [exact H | reflexivity].
Defined.

End AvailabilityFacts.

(** ** The busy flag across a submission *)

Module BusyFacts.
Import Client Spec.
Import ClientFacts.

Lemma send_busy c server request c' err :
  send c server request = (c', err) -> isBusy c' server = isBusy c server.
Proof.
  unfold send, isBusy. destruct (objects c !! server) as [sc|] eqn:Hobj.
  - destruct (Encode (conn sc) request) as [k e]. intros [= <- _]. cbn.
    rewrite lookup_insert_eq. reflexivity.
  - intros [= <- _]. rewrite Hobj. reflexivity.
Qed.

Lemma isBusy_markBusy c server sc b :
  objects c !! server = Some sc -> isBusy (markBusy c server b) server = b.
Proof.
  intros H. unfold isBusy. rewrite (markBusy_objects _ _ _ _ H), lookup_insert_eq. reflexivity.
Qed.

Section WithRuntime.
Variable rt : Runtime.
Variable globalConfig : Config.

(** A submission that has sent its request leaves the worker marked
    busy. *)
Lemma SubmitBuild_send_busy c random environment projectDir w w' c' buildID ch server env :
  SubmitBuild_send rt globalConfig c random environment projectDir w
  = (w', (c', Sent buildID ch server env)) ->
  isBusy c' server = true.
Proof.
  unfold SubmitBuild_send. unfold mbind, M_bind, mret, M_ret.
  destruct (readProjectFiles rt projectDir w) as [w1 [files|e]]; [|discriminate].
  destruct (GetBuildEnvironment globalConfig environment) as [env0|]; [|discriminate].
  destruct (findAvailableServer rt c) as [[server0 sc]|] eqn:Hfind; [|discriminate].
  apply findAvailableServer_idle in Hfind as [Hobj _].
  destruct (negb (String.eqb (info_Version (info sc)) Version)); [discriminate|].
  cbn [makeChan].
  match goal with
  | |- context [send ?c1 server0 ?request] =>
      destruct (send c1 server0 request) as [c2 err] eqn:Hsend
  end.
  apply send_busy in Hsend.
  destruct err as [e|]; [discriminate|].
  unfold LogDebugf. intros [= _ <- _ _ <- _].
  rewrite Hsend. apply (isBusy_markBusy _ _ sc). exact Hobj.
Qed.

Lemma SubmitBuildToServer_send_busy c random environment projectDir serverAddr w w' c'
    buildID ch server env :
  SubmitBuildToServer_send rt globalConfig c random environment projectDir serverAddr w
  = (w', (c', Sent buildID ch server env)) ->
  isBusy c' server = true.
Proof.
  unfold SubmitBuildToServer_send. unfold mbind, M_bind, mret, M_ret.
  destruct (GetBuildEnvironment globalConfig environment) as [env0|]; [|discriminate].
  destruct (readProjectFiles rt projectDir w) as [w1 [files|e]]; [|discriminate].
  destruct (findServerByAddress rt c serverAddr) as [[server0 sc]|] eqn:Hfind; [|discriminate].
  apply findServerByAddress_live in Hfind as Hobj.
  destruct (negb (String.eqb (info_Version (info sc)) Version)); [discriminate|].
  destruct (busy sc); [discriminate|].
  cbn [makeChan].
  match goal with
  | |- context [send ?c1 server0 ?request] =>
      destruct (send c1 server0 request) as [c2 err] eqn:Hsend
  end.
  apply send_busy in Hsend.
  destruct err as [e|]; [discriminate|].
  unfold LogDebugf. intros [= _ <- _ _ <- _].
  rewrite Hsend. unfold isBusy. cbn.
  rewrite (alter_alt_Some (fun x => setBusy x true) _ _ _ Hobj), lookup_insert_eq. reflexivity.
Qed.

(** The timeout branch removes the slot and nothing else: a worker
    that was busy stays busy, and is not handed out again. *)
Lemma timedOut_keeps_busy c buildID server :
  isBusy c server = true ->
  let c' := (timedOut globalConfig c buildID).1 in
  (timedOut globalConfig c buildID).2
  = Err (Errorf (Sprintf "build timeout after %v" [cfg_BuildTimeout globalConfig])) /\
  pendingBuilds c' = delete buildID (pendingBuilds c) /\
  objects c' = objects c /\ servers c' = servers c /\ chans c' = chans c /\
  isBusy c' server = true /\
  (forall r sc, findAvailableServer rt c' = Some (r, sc) -> r <> server).
Proof.
  intros Hbusy. cbn. repeat split; try assumption.
  intros r sc Hfind ->. apply findAvailableServer_idle in Hfind as [Hobj Hidle].
  cbn in Hobj. unfold isBusy in Hbusy. rewrite Hobj in Hbusy. congruence.
Qed.

(** X15. A build that times out does not release its worker. Once a
    submission, in either mode, has sent its request, the worker is
    marked busy; the timeout branch removes the correlation slot and
    returns the timeout error, and touches nothing else: the worker
    is still marked busy and [findAvailableServer] does not hand it
    out. (Only a response read from the connection clears the
    flag.) *)
Theorem timeout_leaves_worker_busy :
  forall c random environment projectDir w w1 c1 buildID ch server env,
    (SubmitBuild_send rt globalConfig c random environment projectDir w
     = (w1, (c1, Sent buildID ch server env)) \/
     exists serverAddr,
       SubmitBuildToServer_send rt globalConfig c random environment projectDir serverAddr w
       = (w1, (c1, Sent buildID ch server env))) ->
    let c2 := (timedOut globalConfig c1 buildID).1 in
    (timedOut globalConfig c1 buildID).2
    = Err (Errorf (Sprintf "build timeout after %v" [cfg_BuildTimeout globalConfig])) /\
    pendingBuilds c2 = delete buildID (pendingBuilds c1) /\
    objects c2 = objects c1 /\ servers c2 = servers c1 /\ chans c2 = chans c1 /\
    isBusy c2 server = true /\
    (forall r sc, findAvailableServer rt c2 = Some (r, sc) -> r <> server).
Proof.
  intros c random environment projectDir w w1 c1 buildID ch server env Hsent.
  apply timedOut_keeps_busy.
  destruct Hsent as [H|[serverAddr H]].
  - eapply SubmitBuild_send_busy, H.
  - eapply SubmitBuildToServer_send_busy, H.
Qed.

End WithRuntime.

Lemma timeout_witness :
  let rt := Examples.rt0 in
  let cfg := ClientExamples.cfg in
  let sent := SubmitBuild_send rt cfg ClientExamples.current ClientExamples.random "go" "/src"
                ClientExamples.w in
  let c2 := (timedOut cfg sent.2.1 "0001020304050607").1 in
  sent.2.2 = Sent "0001020304050607" 0%nat 0%nat ClientExamples.goEnv /\
  isBusy c2 0%nat = true /\
  findAvailableServer rt c2 = None.
Proof.
  intros rt cfg sent c2.
  assert (H : sent = (sent.1, (sent.2.1, Sent "0001020304050607" 0%nat 0%nat
                                           ClientExamples.goEnv)))
    by (vm_compute; reflexivity).
  split; [rewrite H; reflexivity|].
  destruct (timeout_leaves_worker_busy rt cfg ClientExamples.current ClientExamples.random
              "go" "/src" ClientExamples.w _ _ _ _ _ _ (or_introl H))
    as (_ & _ & _ & _ & _ & Hbusy & _).
  split; [exact Hbusy|]. vm_compute. reflexivity.
Defined.

End BusyFacts.

(** ** Connections: discovery, registration, loss *)

Module ConnectionFacts.
Import Client Discovery.
Import ServerFacts MaterializeFacts WorkerFacts.

Section WithRuntime.
Variable rt : Runtime.
Variable globalConfig : Config.

(** The addresses that a pass of [manageConnections] dials again. *)
Lemma manageConnections_In c addr serverInfo :
  Ranges.faithful rt ->
  In (addr, serverInfo) (manageConnections rt c) <->
  discoveredServers c !! addr = Some serverInfo /\ servers c !! addr = None.
Proof.
  intros Hrt. unfold manageConnections. rewrite filter_In, (faithful_In rt) by exact Hrt.
  cbn. rewrite negb_true_iff, bool_decide_eq_false, <- eq_None_not_Some. reflexivity.
Qed.

Lemma disconnected_spec c serverConn addr err w :
  let c' := (disconnected c serverConn addr err w).2 in
  servers c' = delete addr (servers c) /\
  discoveredServers c' = delete addr (discoveredServers c) /\
  pendingBuilds c' = pendingBuilds c /\
  chans c' = chans c /\
  objects c' = objects c.
Proof. cbn. repeat split. Qed.

(** The information that a worker sends when a connection opens is
    accepted by [tryConnectToServer]. *)
Lemma handshake_accepted hostname random port capacity c ip p k w0 :
  let s := Worker.NewServer hostname random port capacity in
  let serverInfo :=
    {| info_ID := Server.id s; info_Address := rt_LocalIP rt; info_Port := Server.port s;
       info_Capacity := Server.capacity s; info_Version := Version |} in
  let addr := Sprintf "%s:%d" [ip; itoa p] in
  servers c !! addr = None ->
  tryConnectToServer c ip p (Handshake k (Ok serverInfo)) w0
  = ({| fs := fs w0;
        log := log w0 ++
               [{| level := LogLevelInfo;
                   message := Sprintf "Discovered build server %s at %s (capacity: %d, version: %s)"
                                [Server.id s; addr; itoa capacity; Version] |}] |},
     (setDiscovered c (<[addr := serverInfo]> (discoveredServers c)),
      Some (k, serverInfo, addr))).
Proof.
  intros s serverInfo addr Hnew. unfold tryConnectToServer. fold addr.
  rewrite bool_decide_eq_false_2 by (rewrite Hnew; intros [? ?]; discriminate).
  assert (Hprefix : Strings.HasPrefix (info_ID serverInfo) "server-" = true).
  { subst serverInfo s. cbn [info_ID Server.id Worker.NewServer].
    unfold Worker.generateServerID, Strings.HasPrefix.
    destruct hostname as [h|e];
      match goal with
      | |- String.prefix _ (Sprintf _ [?x]) = true =>
          change (Sprintf "server-%s" [x]) with ("server-" ++ (x ++ ""))%string
      end; apply StringFacts.prefix_app. }
  rewrite Hprefix. cbn [negb]. cbn [info_Version serverInfo].
  unfold_monad. reflexivity.
Qed.

(** X16. A worker whose connection is lost is forgotten. The end of
    [handleServerConnection] removes its address from the connected
    and from the discovered servers and leaves the correlation slots
    and the channels as they are: a build in flight on the lost
    connection keeps its slot. A pass of [manageConnections] dials the
    discovered servers that are not connected, and only those; so it
    does not dial the address that was just lost. *)
Theorem lost_connection_forgotten :
  forall c serverConn addr err w,
    Ranges.faithful rt ->
    let c' := (disconnected c serverConn addr err w).2 in
    servers c' = delete addr (servers c) /\
    discoveredServers c' = delete addr (discoveredServers c) /\
    pendingBuilds c' = pendingBuilds c /\
    chans c' = chans c /\
    objects c' = objects c /\
    (forall other serverInfo,
        In (other, serverInfo) (manageConnections rt c') <->
        discoveredServers c' !! other = Some serverInfo /\ servers c' !! other = None) /\
    (forall serverInfo, ~ In (addr, serverInfo) (manageConnections rt c')).
Proof.
  intros c serverConn addr err w Hrt c'.
  destruct (disconnected_spec c serverConn addr err w) as (Hs & Hd & Hp & Hc & Ho).
  fold c' in Hs, Hd, Hp, Hc, Ho.
  repeat (split; [assumption|]). split.
  - intros other serverInfo. apply manageConnections_In, Hrt.
  - intros serverInfo Hin. apply manageConnections_In in Hin as [Hin _]; [|exact Hrt].
    rewrite Hd, lookup_delete_eq in Hin. discriminate Hin.
Qed.

(** X17. A coordinator accepts the workers of this program. The
    first message that [handleClientConnection] writes is the server
    information of a worker made by [NewServer]; [tryConnectToServer],
    reading it from an address it is not connected to, records the
    worker as discovered and starts [handleServerConnection] for it,
    and logs the discovery only: the id starts with [server-]
    whether or not the host name is known, and the version is the
    coordinator's own. *)
Theorem handshake_accepted_by_coordinator :
  forall hostname random port capacity conn requests w c ip p k w0,
    let s := Worker.NewServer hostname random port capacity in
    let addr := Sprintf "%s:%d" [ip; itoa p] in
    Server.writesLeft conn <> Some O ->
    servers c !! addr = None ->
    exists serverInfo rest,
      Server.outbox (Server.handleClientConnection rt globalConfig s conn requests w).2.2
      = Server.outbox conn ++ Server.MsgInfo serverInfo :: rest /\
      tryConnectToServer c ip p (Handshake k (Ok serverInfo)) w0
      = ({| fs := fs w0;
            log := log w0 ++
                   [{| level := LogLevelInfo;
                       message :=
                         Sprintf "Discovered build server %s at %s (capacity: %d, version: %s)"
                           [Server.id s; addr; itoa capacity; Version] |}] |},
         (setDiscovered c (<[addr := serverInfo]> (discoveredServers c)),
          Some (k, serverInfo, addr))).
Proof.
  intros hostname random port capacity conn requests w c ip p k w0 s addr Hwrite Hnew.
  destruct (Server.handleClientConnection rt globalConfig s conn requests w)
    as [w' [s' conn']] eqn:H.
  apply handleClientConnection_spec in H as (_ & _ & Hok & _).
  destruct (Hok Hwrite) as (_ & responses & Hout & _).
  eexists _, _. split; [exact Hout|].
  apply (handshake_accepted hostname random port capacity c ip p k w0 Hnew).
Qed.

End WithRuntime.

Lemma lost_connection_witness :
  let c := ClientExamples.current in
  let c' := (disconnected c 0%nat "10.0.0.7:8080" (NetError "EOF") ClientExamples.w).2 in
  manageConnections Examples.rt0 c' = [] /\
  servers c' !! "10.0.0.7:8080" = None /\
  forall serverInfo, ~ In ("10.0.0.7:8080", serverInfo) (manageConnections Examples.rt0 c').
Proof.
  intros c c'.
  destruct (lost_connection_forgotten Examples.rt0 c 0%nat "10.0.0.7:8080" (NetError "EOF")
              ClientExamples.w faithful_rt0) as (_ & _ & _ & _ & _ & _ & Hnot).
  split; [vm_compute; reflexivity|]. split; [vm_compute; reflexivity | exact Hnot].
Defined.

Lemma handshake_witness :
  let conn := {| Server.remoteAddr := "10.0.0.9:50000"; Server.outbox := [];
                 Server.writesLeft := None; Server.closed := false |} in
  let s := Worker.NewServer (Err (NetError "no hostname")) ClientExamples.random 8080 4 in
  Server.id s = "server-0001020304050607" /\
  exists serverInfo rest,
    Server.outbox (Server.handleClientConnection Examples.rt0 Examples.cfg0 s conn []
                     Examples.w0).2.2
    = Server.MsgInfo serverInfo :: rest /\
    (tryConnectToServer NewClient "10.0.0.7" 8080
       (Handshake (ClientExamples.link None) (Ok serverInfo)) ClientExamples.w).2.2
    = Some (ClientExamples.link None, serverInfo, "10.0.0.7:8080").
Proof.
  intros conn s. split; [vm_compute; reflexivity|].
  assert (Hwrite : Server.writesLeft conn <> Some O) by discriminate.
  assert (Hnew : servers NewClient !! Sprintf "%s:%d" ["10.0.0.7"; itoa 8080] = None)
    by (vm_compute; reflexivity).
  destruct (handshake_accepted_by_coordinator Examples.rt0 Examples.cfg0
              (Err (NetError "no hostname")) ClientExamples.random 8080 4 conn []
              Examples.w0 NewClient "10.0.0.7" 8080 (ClientExamples.link None)
              ClientExamples.w Hwrite Hnew) as (serverInfo & rest & Hout & Htry).
  exists serverInfo, rest. split; [exact Hout|]. rewrite Htry. reflexivity.
Defined.

End ConnectionFacts.

(** ** Discovery: which addresses are probed *)

Module DiscoveryFacts.
Import Discovery ConfigFile.
Import StringFacts.

Lemma cutByte_app a rest c :
  Strings.containsByte a c = false ->
  Strings.cutByte (a ++ String c rest) c = Some (a, rest).
Proof.
  induction a as [|x a IH]; intros Ha.
  - rewrite app_empty. cbn. rewrite Ascii.eqb_refl. reflexivity.
  - cbn in Ha. apply orb_false_iff in Ha as [Hx Ha].
    rewrite app_String. cbn [Strings.cutByte]. rewrite Hx, IH by exact Ha. reflexivity.
Qed.

Lemma countByte_cut a rest c :
  Strings.containsByte a c = false ->
  Strings.countByte (a ++ String c rest) c = S (Strings.countByte rest c).
Proof.
  intros Ha. rewrite countByte_app, (countByte_none a) by exact Ha.
  cbn. rewrite Ascii.eqb_refl. reflexivity.
Qed.

Lemma splitLoop_length n : forall s c, (List.length (Strings.splitLoop n s c) <= n + 1)%nat.
Proof.
  induction n as [|n IH]; intros s c; cbn; [lia|].
  destruct (Strings.cutByte s c) as [[a rest]|]; cbn; [|lia].
  specialize (IH rest c). lia.
Qed.

Lemma SplitByte_eq s c : Strings.SplitByte s c = Strings.splitLoop (Strings.countByte s c) s c.
Proof.
  unfold Strings.SplitByte. pose proof (countByte_le s c).
  replace (Nat.min _ _ - 1)%nat with (Strings.countByte s c) by lia. reflexivity.
Qed.

(** Fewer than two dots: the fallback prefix. *)
Lemma getNetworkPrefix_fallback ip :
  (Strings.countByte ip "." < 2)%nat -> getNetworkPrefix ip = "192.168.1".
Proof.
  intros H. unfold getNetworkPrefix. rewrite SplitByte_eq.
  pose proof (splitLoop_length (Strings.countByte ip ".") ip ".").
  destruct (Nat.leb_spec 3 (List.length (Strings.splitLoop (Strings.countByte ip ".") ip ".")));
    [lia | reflexivity].
Qed.

(** At least two dots: what precedes the third one. *)
Lemma getNetworkPrefix_three a b c rest :
  Strings.containsByte a "." = false ->
  Strings.containsByte b "." = false ->
  Strings.containsByte c "." = false ->
  rest = "" \/ (exists r, rest = String "." r) ->
  getNetworkPrefix (a ++ "." ++ b ++ "." ++ c ++ rest) = (a ++ "." ++ b ++ "." ++ c)%string.
Proof.
  intros Ha Hb Hc Hrest.
  change (a ++ "." ++ b ++ "." ++ c ++ rest)%string
    with (a ++ String "." (b ++ String "." (c ++ rest)))%string.
  change (a ++ "." ++ b ++ "." ++ c)%string
    with (a ++ String "." (b ++ String "." c))%string.
  unfold getNetworkPrefix. rewrite SplitByte_eq.
  rewrite !countByte_cut by assumption. cbn [Strings.splitLoop].
  rewrite (cutByte_app a), (cutByte_app b) by assumption.
  destruct Hrest as [->|[r ->]].
  - rewrite append_empty_r, (countByte_none c) by exact Hc. reflexivity.
  - rewrite countByte_cut by exact Hc. cbn [Strings.splitLoop].
    rewrite (cutByte_app c) by exact Hc. reflexivity.
Qed.

(** X18. [getNetworkPrefix] keeps what precedes the third dot of an
    address, which is the first three numbers of a dotted IPv4
    address; an address with fewer than two dots (the textual form of
    an IPv6 address, for one) gives the prefix [192.168.1], and so
    does the value that [getLocalIP] returns when its dial fails. *)
Theorem network_prefix :
  (forall ip, (Strings.countByte ip "." < 2)%nat -> getNetworkPrefix ip = "192.168.1") /\
  (forall a b c rest,
      Strings.containsByte a "." = false ->
      Strings.containsByte b "." = false ->
      Strings.containsByte c "." = false ->
      rest = "" \/ (exists r, rest = String "." r) ->
      getNetworkPrefix (a ++ "." ++ b ++ "." ++ c ++ rest) = (a ++ "." ++ b ++ "." ++ c)%string) /\
  getNetworkPrefix (getLocalIP None) = "192.168.1".
Proof.
  split; [exact getNetworkPrefix_fallback|]. split; [exact getNetworkPrefix_three|].
  apply (getNetworkPrefix_three "192" "168" "1" ""); auto.
Qed.

Lemma network_prefix_witness :
  getNetworkPrefix "10.0.0.7" = "10.0.0" /\
  getNetworkPrefix "fe80::1" = "192.168.1" /\
  getNetworkPrefix (getLocalIP None) = "192.168.1".
Proof.
  destruct network_prefix as (Hfallback & Hthree & Hnone).
  split; [|split].
  - apply (Hthree "10" "0" "0" ".7"); try reflexivity. right. exists "7". reflexivity.
  - apply Hfallback. vm_compute. lia.
  - exact Hnone.
Defined.

End DiscoveryFacts.

(** ** The configuration *)

Module ConfigFacts.
Import ConfigFile Statements.
Import ServerFacts FileSystemFacts MaterializeFacts.

Lemma portInvalid_false port : portInvalid port = false <-> portValid port.
Proof. unfold portInvalid, portValid. rewrite orb_false_iff, Z.leb_gt, Z.ltb_ge. lia. Qed.

Lemma find_portInvalid ports :
  List.find portInvalid ports = None <-> Forall portValid ports.
Proof.
  induction ports as [|p ports IH]; cbn; [split; auto|].
  destruct (portInvalid p) eqn:Hp.
  - split; [discriminate|]. intros H. apply Forall_cons in H as [H _].
    apply portInvalid_false in H. congruence.
  - rewrite IH, Forall_cons, <- portInvalid_false. tauto.
Qed.

Lemma checkNetworkRange_None r : checkNetworkRange r = None <-> rangeValid r.
Proof.
  unfold checkNetworkRange, rangeValid.
  destruct (range_Auto r); [split; [discriminate | reflexivity]|].
  destruct (String.eqb_spec (range_Subnet r) "") as [E|E].
  { split; [discriminate|]. intros H. destruct (H eq_refl) as [H' _]. contradiction. }
  destruct ((range_StartIP r <? 1) || (254 <? range_StartIP r)) eqn:Hs.
  { split; [discriminate|]. intros H. destruct (H eq_refl) as (_ & H' & _).
    apply orb_true_iff in Hs as [Hs|Hs]; apply Z.ltb_lt in Hs; lia. }
  destruct ((range_EndIP r <? 1) || (254 <? range_EndIP r)) eqn:He.
  { split; [discriminate|]. intros H. destruct (H eq_refl) as (_ & _ & H' & _).
    apply orb_true_iff in He as [He|He]; apply Z.ltb_lt in He; lia. }
  apply orb_false_iff in Hs as [Hs1 Hs2]. apply orb_false_iff in He as [He1 He2].
  apply Z.ltb_ge in Hs1, Hs2, He1, He2.
  destruct (Z.ltb_spec (range_EndIP r) (range_StartIP r)).
  - split; [discriminate|]. intros H'. destruct (H' eq_refl) as (_ & _ & _ & ?). lia.
  - split; [|reflexivity]. intros _ _. repeat split; (assumption || lia).
Qed.

Lemma checkEnvironment_None name env :
  checkEnvironment name env = None <-> environmentValid env.
Proof.
  unfold checkEnvironment, environmentValid.
  destruct (String.eqb_spec (env_Name env) ""); [split; [discriminate | tauto]|].
  destruct (String.eqb_spec (env_Command env) ""); [split; [discriminate | tauto]|].
  destruct (String.eqb_spec (env_ProjectDir env) ""); [split; [discriminate | tauto]|].
  destruct (String.eqb_spec (env_ExecutionDir env) ""); [split; [discriminate | tauto]|].
  tauto.
Qed.

Lemma firstError_None {A} (check : A -> option error) l :
  firstError check l = None <-> forall a, In a l -> check a = None.
Proof.
  induction l as [|a l IH]; cbn; [split; [intros _ ? [] | reflexivity]|].
  destruct (check a) eqn:Ha.
  - split; [discriminate|]. intros H. rewrite <- Ha. apply H. left. reflexivity.
  - rewrite IH. split.
    + intros H b [<-|Hb]; auto.
    + intros H b Hb. apply H. right. exact Hb.
Qed.

Section WithRuntime.
Variable rt : Runtime.
Variable showDuration : Z -> string.
Variable Marshal : Config -> result (list byte).
Variable Unmarshal : list byte -> Config -> result Config.

Lemma checkTimeouts_None t : checkTimeouts showDuration t = None <-> timeoutsValid t.
Proof.
  unfold checkTimeouts, timeoutsValid.
  destruct (Z.leb_spec (timeout_Build t) 0); [split; [discriminate | lia]|].
  destruct (Z.leb_spec (timeout_Reconnect t) 0); [split; [discriminate | lia]|].
  destruct (Z.leb_spec (timeout_HealthCheck t) 0); [split; [discriminate | lia]|].
  split; auto.
Qed.

Lemma Validate_valid c :
  Ranges.faithful rt -> Validate rt showDuration c = None <-> valid c.
Proof.
  intros Hrt. unfold Validate, valid.
  destruct (portInvalid (server_Port (conf_Server c))) eqn:Hsp.
  { split; [discriminate|]. intros (H & _). apply portInvalid_false in H. congruence. }
  apply portInvalid_false in Hsp.
  destruct (Z.leb_spec (server_Capacity (conf_Server c)) 0) as [Hcap|Hcap].
  { split; [discriminate|]. intros (_ & H & _). lia. }
  destruct (portInvalid (web_Port (conf_Web c))) eqn:Hwp.
  { split; [discriminate|]. intros (_ & _ & H & _). apply portInvalid_false in H. congruence. }
  apply portInvalid_false in Hwp.
  destruct (disc_Ports (client_Discovery (conf_Client c))) as [|p ports] eqn:Hports.
  { cbn. split; [discriminate|]. intros (_ & _ & _ & H & _). congruence. }
  cbn [List.length Nat.eqb]. rewrite <- Hports.
  destruct (List.find portInvalid _) as [bad|] eqn:Hfind.
  { split; [discriminate|]. intros (_ & _ & _ & _ & H & _).
    apply find_portInvalid in H. congruence. }
  apply find_portInvalid in Hfind.
  destruct (checkNetworkRange _) as [e|] eqn:Hrange.
  { split; [discriminate|]. intros (_ & _ & _ & _ & _ & H & _).
    apply checkNetworkRange_None in H. congruence. }
  apply checkNetworkRange_None in Hrange.
  destruct (checkTimeouts _ _) as [e|] eqn:Htime.
  { split; [discriminate|]. intros (_ & _ & _ & _ & _ & _ & H & _).
    apply checkTimeouts_None in H. congruence. }
  apply checkTimeouts_None in Htime.
  rewrite firstError_None. split.
  - intros Henv. split; [exact Hsp|]. split; [exact Hcap|]. split; [exact Hwp|].
    split; [rewrite Hports; discriminate|]. split; [exact Hfind|].
    split; [exact Hrange|]. split; [exact Htime|].
    intros name env Hname. apply (faithful_In rt) in Hname; [|exact Hrt].
    apply (checkEnvironment_None name), (Henv (name, env)), Hname.
  - intros (_ & _ & _ & _ & _ & _ & _ & Henv) [name env] Hin. cbn.
    apply checkEnvironment_None. eapply Henv. apply (faithful_In rt); eassumption.
Qed.

Lemma DefaultConfig_valid : valid DefaultConfig.
Proof.
  unfold valid, DefaultConfig, portValid, timeoutsValid, rangeValid, Second. cbn.
  repeat split; try lia; try discriminate; repeat constructor; lia.
Qed.

Lemma SaveConfig_written config filename w w' :
  SaveConfig Marshal config filename w = (w', None) ->
  exists data,
    Marshal config = Ok data /\
    OS.cwd (fs w') = OS.cwd (fs w) /\
    OS.nodes (fs w') !! OS.resolve (fs w) filename = Some (OS.fileNode data) /\
    log w' = log w.
Proof.
  unfold SaveConfig. unfold mbind at 1, M_bind at 1. unfold onFS at 1.
  destruct (OS.MkdirAll (fs w) _) as [fs1 [e|]] eqn:Hmk; [unfold_monad; discriminate|].
  destruct (Marshal config) as [data|e]; [|unfold_monad; discriminate].
  unfold mbind at 1, M_bind at 1. unfold onFS at 1. cbn [fs log].
  destruct (OS.WriteFile fs1 filename data) as [fs2 [e|]] eqn:Hwr; [unfold_monad; discriminate|].
  unfold_monad. intros [= <-]. cbn [fs log].
  destruct (write_round _ _ _ _ _ _ Hmk Hwr) as (Hcwd & Hnode & _).
  exists data. auto.
Qed.

Lemma LoadConfig_result filename w w' c :
  Ranges.faithful rt ->
  LoadConfig rt showDuration Marshal Unmarshal filename w = (w', Ok c) ->
  valid c /\
  match OS.nodes (fs w) !! OS.resolve (fs w) filename with
  | None =>
      (* first run: the defaults, written to the file *)
      c = DefaultConfig /\
      exists data,
        Marshal DefaultConfig = Ok data /\ OS.ReadFile (fs w') filename = Ok data
  | Some _ =>
      w' = w /\
      exists data, OS.ReadFile (fs w) filename = Ok data /\ Unmarshal data DefaultConfig = Ok c
  end.
Proof.
  intros Hrt. unfold LoadConfig. unfold mbind at 1, M_bind at 1. unfold readFS at 1.
  unfold OS.Stat.
  destruct (OS.nodes (fs w) !! OS.resolve (fs w) filename) as [n|] eqn:Hnode.
  - cbv iota. unfold mbind at 1, M_bind at 1. unfold readFS at 1.
    destruct (OS.ReadFile (fs w) filename) as [data|e] eqn:Hread; [|unfold_monad; discriminate].
    destruct (Unmarshal data DefaultConfig) as [config|e] eqn:Hparse;
      [|unfold_monad; discriminate].
    destruct (Validate rt showDuration config) as [e|] eqn:Hval; [unfold_monad; discriminate|].
    unfold_monad. intros [= <- <-]. split; [apply (Validate_valid _ Hrt), Hval|].
    split; [reflexivity|]. exists data. auto.
  - cbn [IsNotExist]. unfold mbind at 1, M_bind at 1.
    destruct (SaveConfig Marshal DefaultConfig filename w) as [w1 [e|]] eqn:Hsave;
      [unfold_monad; discriminate|].
    unfold_monad. intros [= <- <-]. split; [apply DefaultConfig_valid|].
    split; [reflexivity|].
    apply SaveConfig_written in Hsave as (data & Hm & Hcwd & Hn & _).
    exists data. split; [exact Hm|]. apply ReadFile_fileNode.
    rewrite (resolve_cwd _ _ _ Hcwd). exact Hn.
Qed.

(** After a first run, loading again reads the file back; it gives
    the defaults again if the parser reads back what was marshalled. *)
Lemma LoadConfig_again filename w w' c :
  OS.nodes (fs w) !! OS.resolve (fs w) filename = None ->
  LoadConfig rt showDuration Marshal Unmarshal filename w = (w', Ok c) ->
  (forall data, Marshal DefaultConfig = Ok data -> Unmarshal data DefaultConfig = Ok DefaultConfig) ->
  Ranges.faithful rt ->
  LoadConfig rt showDuration Marshal Unmarshal filename w' = (w', Ok DefaultConfig).
Proof.
  intros Hnew Hload Hround Hrt. revert Hload.
  unfold LoadConfig at 1. unfold mbind at 1, M_bind at 1. unfold readFS at 1.
  unfold OS.Stat. rewrite Hnew. cbn [IsNotExist]. unfold mbind at 1, M_bind at 1.
  destruct (SaveConfig Marshal DefaultConfig filename w) as [w1 [e|]] eqn:Hsave;
    [unfold_monad; discriminate|].
  unfold_monad. intros [= <- <-].
  apply SaveConfig_written in Hsave as (data & Hm & Hcwd & Hn & _).
  rewrite <- (resolve_cwd _ _ _ Hcwd) in Hn.
  unfold LoadConfig, OS.Stat, OS.ReadFile. unfold_monad. rewrite Hn. cbv beta iota.
  rewrite Hn. cbn [OS.isDir OS.fileNode OS.readable OS.data]. rewrite (Hround _ Hm).
  rewrite (proj2 (Validate_valid DefaultConfig Hrt) DefaultConfig_valid). reflexivity.
Qed.

(** X21. [Validate] accepts exactly the configurations in which the
    server port, the web port and every discovery port lie between 1
    and 65535, the capacity is positive, there is a discovery port,
    the three timeouts are positive, the network range, unless it is
    detected automatically, names a subnet and bounds with
    [1 <= start_ip <= end_ip <= 254], and every build environment has
    a name, a command, a project directory and an execution
    directory. The temporary directory, the logging level and, under
    automatic detection, the range are not checked. *)
Theorem Validate_accepts_valid :
  forall c, Ranges.faithful rt -> (Validate rt showDuration c = None <-> valid c).
Proof. intros c Hrt. apply Validate_valid, Hrt. Qed.

(** X22. A configuration that [LoadConfig] returns passes [Validate],
    in both of its branches. When the file does not exist it is
    created (with its directory) holding the marshalled
    [DefaultConfig], which is what is returned. When it exists
    nothing is changed, and what is returned is the file parsed over
    [DefaultConfig]. *)
Theorem LoadConfig_gives_valid_configuration :
  forall filename w w' c,
    Ranges.faithful rt ->
    LoadConfig rt showDuration Marshal Unmarshal filename w = (w', Ok c) ->
    valid c /\
    match OS.nodes (fs w) !! OS.resolve (fs w) filename with
    | None =>
        c = DefaultConfig /\
        exists data,
          Marshal DefaultConfig = Ok data /\ OS.ReadFile (fs w') filename = Ok data
    | Some _ =>
        w' = w /\
        exists data,
          OS.ReadFile (fs w) filename = Ok data /\ Unmarshal data DefaultConfig = Ok c
    end.
Proof. exact LoadConfig_result. Qed.

(** X23. The file that a first run creates is read back by the next
    one: if parsing what [DefaultConfig] marshals to over
    [DefaultConfig] gives [DefaultConfig], loading again from the
    state the first run left returns [DefaultConfig] and changes
    nothing. *)
Theorem first_run_is_repeatable :
  forall filename w w' c,
    OS.nodes (fs w) !! OS.resolve (fs w) filename = None ->
    LoadConfig rt showDuration Marshal Unmarshal filename w = (w', Ok c) ->
    (forall data,
        Marshal DefaultConfig = Ok data -> Unmarshal data DefaultConfig = Ok DefaultConfig) ->
    Ranges.faithful rt ->
    LoadConfig rt showDuration Marshal Unmarshal filename w' = (w', Ok DefaultConfig).
Proof. exact LoadConfig_again. Qed.

End WithRuntime.

Lemma Validate_witness :
  Validate Examples.rt0 Samples.showSeconds Samples.manual = None /\ valid Samples.manual.
Proof.
  assert (H : Validate Examples.rt0 Samples.showSeconds Samples.manual = None)
    by (vm_compute; reflexivity).
  split; [exact H|].
  exact (proj1 (Validate_accepts_valid Examples.rt0 Samples.showSeconds Samples.manual
                  faithful_rt0) H).
Defined.

Lemma LoadConfig_witness :
  let load :=
    LoadConfig Examples.rt0 Samples.showSeconds Samples.marshalEmpty Samples.unmarshalEmpty
      "/etc/boltbuild/config.yaml" Examples.w0 in
  load.2 = Ok DefaultConfig /\
  valid DefaultConfig /\
  OS.nodes (fs Examples.w0) !! "/etc/boltbuild/config.yaml" = None /\
  OS.ReadFile (fs load.1) "/etc/boltbuild/config.yaml" = Ok [].
Proof.
  intros load.
  assert (H : load = (load.1, Ok DefaultConfig)) by (vm_compute; reflexivity).
  split; [rewrite H; reflexivity|].
  split; [exact (proj1 (LoadConfig_gives_valid_configuration Examples.rt0 Samples.showSeconds
                          Samples.marshalEmpty Samples.unmarshalEmpty _ _ _ _
                          faithful_rt0 H))|].
  split; vm_compute; reflexivity.
Defined.

Lemma first_run_witness :
  let load :=
    LoadConfig Examples.rt0 Samples.showSeconds Samples.marshalEmpty Samples.unmarshalEmpty
      "/etc/boltbuild/config.yaml" Examples.w0 in
  OS.nodes (fs Examples.w0) !! OS.resolve (fs Examples.w0) "/etc/boltbuild/config.yaml" = None /\
  LoadConfig Examples.rt0 Samples.showSeconds Samples.marshalEmpty Samples.unmarshalEmpty
    "/etc/boltbuild/config.yaml" load.1
  = (load.1, Ok DefaultConfig).
Proof.
  intros load.
  assert (Hnew : OS.nodes (fs Examples.w0)
                 !! OS.resolve (fs Examples.w0) "/etc/boltbuild/config.yaml" = None)
    by (vm_compute; reflexivity).
  assert (H : load = (load.1, Ok DefaultConfig)) by (vm_compute; reflexivity).
  split; [exact Hnew|].
  exact (first_run_is_repeatable Examples.rt0 Samples.showSeconds Samples.marshalEmpty
           Samples.unmarshalEmpty _ _ _ _ Hnew H (fun _ _ => eq_refl) faithful_rt0).
Defined.

End ConfigFacts.

(** ** Discovery: the addresses of a scan *)

Module ScanFacts.
Import Discovery ConfigFile Statements.
Import ConfigFacts.

(** The two nested loops of [scanForServers]. *)
Lemma probes_In (f : Z -> string) (ports : list Z) lo hi ip port :
  In (ip, port)
     (flat_map (fun i => map (fun port => (f i, port)) ports) (seqZ lo (hi - lo + 1))) <->
  In port ports /\ exists i, lo <= i <= hi /\ ip = f i.
Proof.
  rewrite in_flat_map. split.
  - intros (i & Hi & Hin). apply in_map_iff in Hin as (port' & [= <- <-] & Hport).
    apply list_elem_of_In, elem_of_seqZ in Hi. split; [exact Hport|]. exists i. split; [lia|reflexivity].
  - intros (Hport & i & Hi & ->). exists i. split.
    + apply list_elem_of_In, elem_of_seqZ. lia.
    + apply in_map_iff. exists port. auto.
Qed.

Lemma probes_length (f : Z -> string) (ports : list Z) (l : list Z) :
  List.length (flat_map (fun i => map (fun port => (f i, port)) ports) l)
  = (List.length l * List.length ports)%nat.
Proof.
  induction l as [|i l IH]; [reflexivity|].
  cbn [flat_map]. rewrite length_app, length_map, IH. reflexivity.
Qed.

Lemma scanForServers_auto globalConfig dial :
  let discovery := client_Discovery (conf_Client globalConfig) in
  range_Auto (disc_NetworkRange discovery) = true ->
  let networkPrefix := getNetworkPrefix (getLocalIP dial) in
  List.length (scanForServers globalConfig dial) = (254 * List.length (disc_Ports discovery))%nat /\
  forall ip port,
    In (ip, port) (scanForServers globalConfig dial) <->
    In port (disc_Ports discovery) /\
    exists i, 1 <= i <= 254 /\ ip = Sprintf "%s.%d" [networkPrefix; itoa i].
Proof.
  intros discovery Hauto networkPrefix. unfold scanForServers. fold discovery.
  rewrite Hauto. fold networkPrefix. split.
  - rewrite probes_length, length_seqZ. reflexivity.
  - intros ip port. apply (probes_In (fun i => Sprintf "%s.%d" [networkPrefix; itoa i])).
Qed.

Lemma scanForServers_manual globalConfig dial :
  let discovery := client_Discovery (conf_Client globalConfig) in
  let range := disc_NetworkRange discovery in
  range_Auto range = false ->
  List.length (scanForServers globalConfig dial)
  = (Z.to_nat (range_EndIP range - range_StartIP range + 1)
     * List.length (disc_Ports discovery))%nat /\
  forall ip port,
    In (ip, port) (scanForServers globalConfig dial) <->
    In port (disc_Ports discovery) /\
    exists i, range_StartIP range <= i <= range_EndIP range /\
              ip = Sprintf "%s.%d" [range_Subnet range; itoa i].
Proof.
  intros discovery range Hauto. unfold scanForServers. fold discovery. fold range.
  rewrite Hauto. split.
  - rewrite probes_length, length_seqZ. reflexivity.
  - intros ip port.
    apply (probes_In (fun i => Sprintf "%s.%d" [range_Subnet range; itoa i])).
Qed.

(** Under a configuration that [Validate] accepts, a scan probes at
    least one address, and only host numbers from 1 to 254 on ports
    from 1 to 65535. *)
Lemma scanForServers_valid globalConfig dial :
  valid globalConfig ->
  scanForServers globalConfig dial <> [] /\
  forall ip port,
    In (ip, port) (scanForServers globalConfig dial) ->
    0 < port <= 65535 /\
    exists networkPrefix i,
      1 <= i <= 254 /\ ip = Sprintf "%s.%d" [networkPrefix; itoa i].
Proof.
  intros (_ & _ & _ & Hports & Hall & Hrange & _).
  set (discovery := client_Discovery (conf_Client globalConfig)) in *.
  assert (Hport : forall port, In port (disc_Ports discovery) -> 0 < port <= 65535).
  { intros port Hin. rewrite Forall_forall in Hall. apply Hall, list_elem_of_In, Hin. }
  assert (Hlen : (0 < List.length (disc_Ports discovery))%nat).
  { destruct (disc_Ports discovery); [congruence | cbn; lia]. }
  destruct (range_Auto (disc_NetworkRange discovery)) eqn:Hauto.
  - destruct (scanForServers_auto globalConfig dial Hauto) as [Hn Hin]. fold discovery in Hn, Hin.
    split; [intros E; rewrite E in Hn; cbn in Hn; lia|].
    intros ip port H. apply Hin in H as (Hp & i & Hi & ->). split; [auto|]. eauto.
  - destruct (scanForServers_manual globalConfig dial Hauto) as [Hn Hin].
    fold discovery in Hn, Hin. destruct (Hrange Hauto) as (_ & Hs & He & Hle).
    split; [intros E; rewrite E in Hn; cbn in Hn; nia|].
    intros ip port H. apply Hin in H as (Hp & i & Hi & ->). split; [auto|].
    exists (range_Subnet (disc_NetworkRange discovery)), i. split; [lia|reflexivity].
Qed.

(** X19. The addresses that one scan probes. With automatic
    detection the configured subnet and bounds are not used: the
    hosts 1 to 254 of the local network are probed, each on every
    configured port. Otherwise the hosts from [start_ip] to [end_ip]
    of the configured subnet are, and none when the bounds are
    inverted. Under a configuration that [Validate] accepts a scan
    probes at least one address, and only host numbers from 1 to 254
    on ports from 1 to 65535. *)
Theorem scan_targets :
  forall globalConfig dial,
    let discovery := client_Discovery (conf_Client globalConfig) in
    let range := disc_NetworkRange discovery in
    let probes := scanForServers globalConfig dial in
    (range_Auto range = true ->
     List.length probes = (254 * List.length (disc_Ports discovery))%nat /\
     forall ip port,
       In (ip, port) probes <->
       In port (disc_Ports discovery) /\
       exists i, 1 <= i <= 254 /\
                 ip = Sprintf "%s.%d" [getNetworkPrefix (getLocalIP dial); itoa i]) /\
    (range_Auto range = false ->
     List.length probes
     = (Z.to_nat (range_EndIP range - range_StartIP range + 1)
        * List.length (disc_Ports discovery))%nat /\
     forall ip port,
       In (ip, port) probes <->
       In port (disc_Ports discovery) /\
       exists i, range_StartIP range <= i <= range_EndIP range /\
                 ip = Sprintf "%s.%d" [range_Subnet range; itoa i]) /\
    (valid globalConfig ->
     probes <> [] /\
     forall ip port,
       In (ip, port) probes ->
       0 < port <= 65535 /\
       exists networkPrefix i,
         1 <= i <= 254 /\ ip = Sprintf "%s.%d" [networkPrefix; itoa i]).
Proof.
  intros globalConfig dial discovery range probes.
  split; [apply scanForServers_auto|]. split; [apply scanForServers_manual|].
  apply scanForServers_valid.
Qed.

Lemma scan_targets_witness :
  scanForServers Samples.manual None
  = [("10.0.0.5", 8080); ("10.0.0.5", 9090); ("10.0.0.6", 8080); ("10.0.0.6", 9090);
     ("10.0.0.7", 8080); ("10.0.0.7", 9090)] /\
  List.length (scanForServers Samples.manual None) = 6%nat /\
  valid Samples.manual /\
  scanForServers Samples.manual None <> [].
Proof.
  destruct (scan_targets Samples.manual None) as (_ & Hmanual & Hvalid).
  assert (Hv : valid Samples.manual).
  { apply (Validate_valid Examples.rt0 Samples.showSeconds _ MaterializeFacts.faithful_rt0).
    vm_compute. reflexivity. }
  split; [vm_compute; reflexivity|].
  split; [exact (proj1 (Hmanual eq_refl))|].
  split; [exact Hv | exact (proj1 (Hvalid Hv))].
Defined.

End ScanFacts.

(** ** What a submission does with the response it receives *)

Module ReceiveFacts.
Import Client Statements.
Import ServerFacts SaveFacts.

Section WithRuntime.
Variable rt : Runtime.






End WithRuntime.


End ReceiveFacts.

(** ** What the log prints *)

Module LoggingFacts.
Import Logging Client Statements.
Import ServerFacts ClientFacts.

Lemma printed_app logger a b : printed logger (a ++ b) = printed logger a ++ printed logger b.
Proof. unfold printed. rewrite List.filter_app, fmap_app. reflexivity. Qed.

Lemma filter_all {A} (f : A -> bool) l : (forall a, f a = true) -> List.filter f l = l.
Proof.
  intros H. induction l as [|a l IH]; [reflexivity|]. cbn. rewrite H, IH. reflexivity.
Qed.

Lemma printed_debug calls :
  printed (Some {| logger_level := LogLevelDebug |}) calls = message <$> calls.
Proof.
  unfold printed. rewrite filter_all; [reflexivity|].
  intros [[|] msg]; reflexivity.
Qed.

Lemma printed_info logger calls :
  logger = None \/ logger = Some {| logger_level := LogLevelInfo |} ->
  printed logger calls = message <$> List.filter isInfo calls.
Proof.
  intros H. unfold printed. f_equal. apply filter_ext.
  intros [[|] msg]; destruct H as [->| ->]; reflexivity.
Qed.

Lemma NewLogger_level mapLower levelStr :
  NewLogger mapLower levelStr
  = {| logger_level :=
         if String.eqb (Strings.ToLower mapLower levelStr) "debug"
         then LogLevelDebug else LogLevelInfo |}.
Proof.
  unfold NewLogger. destruct (String.eqb _ "debug"); [reflexivity|].
  destruct (String.eqb _ "info"); reflexivity.
Qed.

Lemma NewLogger_printed mapLower levelStr calls :
  printed (Some (NewLogger mapLower levelStr)) calls
  = if String.eqb (Strings.ToLower mapLower levelStr) "debug"
    then message <$> calls
    else message <$> List.filter isInfo calls.
Proof.
  rewrite NewLogger_level. destruct (String.eqb _ "debug").
  - apply printed_debug.
  - apply printed_info. right. reflexivity.
Qed.

(** With the logging level of [DefaultConfig], the debug messages are
    not printed. *)
Lemma default_level mapLower :
  InitializeLogger mapLower ConfigFile.DefaultConfig
  = Some {| logger_level := LogLevelInfo |}.
Proof. reflexivity. Qed.

(** At discovery a version mismatch prints one line, the one that
    announces the worker, unless the level is [debug]. *)
Lemma mismatch_printed logger c ip port k serverInfo w :
  let addr := Sprintf "%s:%d" [ip; itoa port] in
  servers c !! addr = None ->
  Strings.HasPrefix (info_ID serverInfo) "server-" = true ->
  info_Version serverInfo <> Version ->
  logger = None \/ logger = Some {| logger_level := LogLevelInfo |} ->
  printed logger (log (tryConnectToServer c ip port (Handshake k (Ok serverInfo)) w).1)
  = printed logger (log w)
    ++ [Sprintf "Discovered build server %s at %s (capacity: %d, version: %s)"
          [info_ID serverInfo; addr; itoa (info_Capacity serverInfo); info_Version serverInfo]].
Proof.
  intros addr Hnew Hprefix Hversion Hlogger. unfold tryConnectToServer. fold addr.
  rewrite bool_decide_eq_false_2 by (rewrite Hnew; intros [? ?]; discriminate).
  rewrite Hprefix, (version_differs _ Hversion). cbn [negb].
  unfold_monad. cbn [fst log].
  rewrite !printed_app, !(printed_info logger) by exact Hlogger. cbn.
  rewrite app_nil_r. reflexivity.
Qed.

(** X24. What reaches the log. The calls of [LogInfo] and [LogInfof]
    are always printed. Those of [LogDebug] and [LogDebugf] are
    printed only by a logger whose level string is [debug] up to the
    case of its letters; not by one made from any other string, not
    before [InitializeLogger] has run, and not under [DefaultConfig].
    So, unless the level is [debug], the version mismatch that
    [tryConnectToServer] finds prints nothing: the discovery of the
    worker is the only line. *)
Theorem debug_messages_need_debug_level :
  forall mapLower levelStr,
    (forall calls,
        printed (Some (NewLogger mapLower levelStr)) calls
        = if String.eqb (Strings.ToLower mapLower levelStr) "debug"
          then message <$> calls
          else message <$> List.filter isInfo calls) /\
    (forall calls, printed None calls = message <$> List.filter isInfo calls) /\
    InitializeLogger mapLower ConfigFile.DefaultConfig
    = Some {| logger_level := LogLevelInfo |} /\
    (forall logger c ip port k serverInfo w,
        let addr := Sprintf "%s:%d" [ip; itoa port] in
        logger = None \/ logger = InitializeLogger mapLower ConfigFile.DefaultConfig ->
        servers c !! addr = None ->
        Strings.HasPrefix (info_ID serverInfo) "server-" = true ->
        info_Version serverInfo <> Version ->
        printed logger (log (tryConnectToServer c ip port (Handshake k (Ok serverInfo)) w).1)
        = printed logger (log w)
          ++ [Sprintf "Discovered build server %s at %s (capacity: %d, version: %s)"
                [info_ID serverInfo; addr; itoa (info_Capacity serverInfo);
                 info_Version serverInfo]]).
Proof.
  intros mapLower levelStr.
  split; [intros calls; apply NewLogger_printed|].
  split; [intros calls; apply printed_info; left; reflexivity|].
  split; [apply default_level|].
  intros logger c ip port k serverInfo w addr Hlogger Hnew Hprefix Hversion.
  apply mismatch_printed; assumption.
Qed.

Lemma debug_messages_witness :
  let serverInfo := ClientExamples.workerInfo "0.9.0" in
  let w1 := (tryConnectToServer NewClient "10.0.0.7" 8080
               (Handshake (ClientExamples.link None) (Ok serverInfo)) ClientExamples.w).1 in
  List.length (log w1) = 2%nat /\
  printed None (log w1)
  = ["Discovered build server server-a at 10.0.0.7:8080 (capacity: 4, version: 0.9.0)"] /\
  printed (Some (NewLogger (fun s => s) "DEBUG")) (log w1) = message <$> log w1.
Proof.
  intros serverInfo w1.
  destruct (debug_messages_need_debug_level (fun s => s) "DEBUG") as (Hnew & _ & _ & Hmis).
  split; [vm_compute; reflexivity|]. split.
  - assert (Hfresh : servers NewClient !! Sprintf "%s:%d" ["10.0.0.7"; itoa 8080] = None)
      by (vm_compute; reflexivity).
    assert (Hprefix : Strings.HasPrefix (info_ID serverInfo) "server-" = true)
      by (vm_compute; reflexivity).
    assert (Hversion : info_Version serverInfo <> Version) by (vm_compute; discriminate).
    exact (Hmis None NewClient "10.0.0.7" 8080 (ClientExamples.link None) serverInfo
             ClientExamples.w (or_introl eq_refl) Hfresh Hprefix Hversion).
  - exact (Hnew (log w1)).
Defined.

End LoggingFacts.
